(** * Neona TUI: the session controller and its HTTP client

    A shallow embedding of [neona_tui/api_client.py] and of the command
    handlers of [neona_tui/app.py], and the properties of the
    specification checked against it.

    Modelling choices, all stated where they are made:
    - a Python [str] is a [string] whose characters are the code points
      below 256; [isspace] and [lower] follow Python on that range;
    - an [async def] is a program of the free monad [Prog]: every
      [await self.client.get/post] is one [Await] node, the only place
      where a handler gives control back to the event loop;
    - a JSON object is seen through the keys the client reads, each at
      the type its dataclass annotates; a key may be absent;
    - the handlers are started by the message pump of the Textual
      [App], which awaits the handler of one message before it takes
      the next ([Pump]); what is proved of every interleaving of the
      handlers ([Loop]) holds of the pump a fortiori. *)

From Stdlib Require Import ZArith List String Ascii Bool Lia DecimalString.
Import ListNotations.
Open Scope string_scope.
Open Scope Z_scope.

(* ================================================================== *)
(** ** Python strings *)

Module Py.

(** [str.isspace] on one character: TAB, LF, VT, FF, CR, the separators
    FS GS RS US, SPACE, NEL and NBSP. These are the characters
    [str.strip()] and [str.split()] treat as whitespace. *)
Definition isspace (c : ascii) : bool :=
  let n := N_of_ascii c in
  ((9 <=? n) && (n <=? 13) || (28 <=? n) && (n <=? 32)
   || (n =? 133) || (n =? 160))%N.

(** [str.lower] on one character: A-Z, and the capital letters of the
    Latin-1 supplement (U+00C0..U+00DE but the multiplication sign). *)
Definition lower_char (c : ascii) : ascii :=
  let n := N_of_ascii c in
  if ((65 <=? n) && (n <=? 90)
      || (192 <=? n) && (n <=? 222) && negb (n =? 215))%N
  then ascii_of_N (n + 32) else c.

Fixpoint lower (s : string) : string :=
  match s with
  | EmptyString => EmptyString
  | String c s' => String (lower_char c) (lower s')
  end.

Fixpoint lstrip (s : string) : string :=
  match s with
  | EmptyString => EmptyString
  | String c s' => if isspace c then lstrip s' else s
  end.

Fixpoint rstrip (s : string) : string :=
  match s with
  | EmptyString => EmptyString
  | String c s' =>
      match rstrip s' with
      | EmptyString => if isspace c then EmptyString else String c EmptyString
      | r => String c r
      end
  end.

(** [s.strip()] *)
Definition strip (s : string) : string := rstrip (lstrip s).

(** The longest prefix without whitespace, and what follows it. *)
Fixpoint token (s : string) : string * string :=
  match s with
  | EmptyString => (EmptyString, EmptyString)
  | String c s' =>
      if isspace c then (EmptyString, s)
      else let (t, r) := token s' in (String c t, r)
  end.

(** [s.split(maxsplit=1)]: skip whitespace, take one word, skip
    whitespace, and keep the rest of the line as it is. *)
Definition split_max1 (s : string) : list string :=
  match lstrip s with
  | EmptyString => []
  | s1 =>
      let (t, r) := token s1 in
      match lstrip r with
      | EmptyString => [t]
      | r' => [t; r']
      end
  end.

(** [s.split()]: the maximal runs of non-whitespace, in order. [word] is
    the run being read. *)
Fixpoint split_from (word : string) (s : string) : list string :=
  match s with
  | EmptyString =>
      match word with EmptyString => [] | _ => [word] end
  | String c s' =>
      if isspace c then
        match word with
        | EmptyString => split_from EmptyString s'
        | _ => word :: split_from EmptyString s'
        end
      else split_from (word ++ String c EmptyString) s'
  end.

Definition split (s : string) : list string := split_from EmptyString s.

(** [s[:n]] *)
Fixpoint take (n : nat) (s : string) : string :=
  match n, s with
  | S n', String c s' => String c (take n' s')
  | _, _ => EmptyString
  end.

(** [sub in s] *)
Fixpoint contains (sub s : string) : bool :=
  prefix sub s ||
  match s with
  | EmptyString => false
  | String _ s' => contains sub s'
  end.

(** [str(n)] for a length and for an [int]. *)
Definition str_of_nat (n : nat) : string :=
  NilEmpty.string_of_uint (Nat.to_uint n).

Definition str_of_int (z : Z) : string :=
  NilEmpty.string_of_int (Z.to_int z).

(** ["\n".join(parts)] *)
Fixpoint join_lines (parts : list string) : string :=
  match parts with
  | [] => EmptyString
  | [p] => p
  | p :: rest => p ++ String (ascii_of_nat 10) (join_lines rest)
  end.

(** Truthiness of a [str]: [not s] is [s == ""]. *)
Definition nonempty (s : string) : bool :=
  match s with EmptyString => false | _ => true end.

(** [a or b] on strings. *)
Definition or_else (a b : string) : string :=
  if nonempty a then a else b.

End Py.

(* ================================================================== *)
(** ** api_client.py: errors and records *)

(** The exceptions that travel through the code. [NeonaAPIError] is the
    client's own; [RequestError] is [httpx.RequestError] (connection and
    timeout failures), with the text [str(e)] gives; [PyError] is any
    other Python exception, which no [except] clause of the repository
    names. *)
Inductive Exn : Type :=
| NeonaAPIError (message : string) (status_code : option Z) (body : string)
| RequestError (cause : string)
| PyError (kind : string).

(** [NeonaAPIError._format_message] *)
Definition _format_message (message body : string) : string :=
  if Py.nonempty body then message ++ ": " ++ body else message.

(** [str(e)] *)
Definition str_of_exn (e : Exn) : string :=
  match e with
  | NeonaAPIError message _ body => _format_message message body
  | RequestError cause => cause
  | PyError kind => kind
  end.

Module HealthResponse.
Record t := mk { ok : bool; db : string; version : string; time : string }.
End HealthResponse.

Module TaskItem.
Record t := mk
  { id : string; title : string; status : string; claimed_by : string }.
End TaskItem.

Module TaskDetail.
Record t := mk
  { id : string; title : string; description : string; status : string;
    claimed_by : string; created_at : string; updated_at : string }.
End TaskDetail.

Module RunDetail.
Record t := mk
  { id : string; command : string; exit_code : Z;
    stdout : string; stderr : string }.
End RunDetail.

Module MemoryDetail.
Record t := mk
  { id : string; content : string; tags : string; task_id : string }.
End MemoryDetail.

(** A JSON value the client hands on without reading it (a worker
  record), kept as its text. *)
Definition Opaque : Type := string.

Module WorkersStats.
Record t := mk
  { active_workers : Z; global_max : Z;
    connector_counts : list (string * Z); workers : list Opaque }.
End WorkersStats.

(** A decoded JSON body. An object is given by the keys the client
  reads, each at the type of the dataclass field it fills, [None] for
  a key the object does not have; it has no other key. *)
Module Json.
Record object := mk
  { ok : option bool;
    db : option string;
    version : option string;
    time : option string;
    id : option string;
    title : option string;
    description : option string;
    status : option string;
    claimed_by : option string;
    created_at : option string;
    updated_at : option string;
    command : option string;
    exit_code : option Z;
    stdout : option string;
    stderr : option string;
    content : option string;
    tags : option string;
    task_id : option string;
    active_workers : option Z;
    global_max : option Z;
    connector_counts : option (list (string * Z));
    workers : option (list Opaque) }.

(** A body is an object, an array of objects, or any other JSON value:
  a string, kept, or [null], a number or a boolean. *)
Inductive value : Type :=
| Object (o : object)
| Array (items : list object)
| Scalar (str : option string).

(** [{}] *)
Definition empty : object :=
  mk None None None None None None None None None None None
     None None None None None None None None None None None.

Definition is_some {A} (x : option A) : bool :=
  match x with Some _ => true | None => false end.

(** [len(d) == 0] *)
Definition is_empty (o : object) : bool :=
  negb (is_some (ok o) || is_some (db o) || is_some (version o)
        || is_some (time o) || is_some (id o) || is_some (title o)
        || is_some (description o) || is_some (status o)
        || is_some (claimed_by o) || is_some (created_at o)
        || is_some (updated_at o) || is_some (command o)
        || is_some (exit_code o) || is_some (stdout o)
        || is_some (stderr o) || is_some (content o) || is_some (tags o)
        || is_some (task_id o) || is_some (active_workers o)
        || is_some (global_max o) || is_some (connector_counts o)
        || is_some (workers o)).

(** [d.get(key, default)], the key given by its field. *)
Definition get {A} (field : option A) (default : A) : A :=
  match field with Some v => v | None => default end.
End Json.

(** What is sent: [client.get(url, params=...)] and
  [client.post(url, json=...)]. *)
Inductive Method : Type := GET | POST.

Inductive Arg : Type :=
| AStr (s : string)
| AInt (n : Z)
| AList (l : list string).

Record Request := mkRequest
  { method : Method;
  url : string;
  params : list (string * string);
  json_body : option (list (string * Arg)) }.

Module Response.
(** [json] is [None] when the body is not a JSON document:
  [response.json()] raises. *)
Record t := mk
  { status_code : Z; text : string; json : option Json.value }.
End Response.

(** What one [await client.get/post] comes back with: a response, or
    [httpx.RequestError]. *)
Inductive Outcome : Type :=
| Responded (response : Response.t)
| Failed (cause : string).

(* ================================================================== *)
(** ** Coroutines

    A program over a state [St]. [Await] is a suspension point: the
    request is out and the continuation waits for its outcome. *)

Inductive Prog (St A : Type) : Type :=
| Ret (a : A)
| Raise (e : Exn)
| Get (k : St -> Prog St A)
| Put (s : St) (k : Prog St A)
| Await (r : Request) (k : Outcome -> Prog St A).

Arguments Ret {St A} a.
Arguments Raise {St A} e.
Arguments Get {St A} k.
Arguments Put {St A} s k.
Arguments Await {St A} r k.

Fixpoint bind {St A B} (p : Prog St A) (f : A -> Prog St B) : Prog St B :=
  match p with
  | Ret a => f a
  | Raise e => Raise e
  | Get k => Get (fun s => bind (k s) f)
  | Put s k => Put s (bind k f)
  | Await r k => Await r (fun o => bind (k o) f)
  end.

(** [try: p  except ...: h]. The clause [h] answers [None] on an
    exception it does not name, which then goes on upwards. *)
Fixpoint try_except {St A} (p : Prog St A) (h : Exn -> option (Prog St A))
  : Prog St A :=
  match p with
  | Ret a => Ret a
  | Raise e => match h e with Some q => q | None => Raise e end
  | Get k => Get (fun s => try_except (k s) h)
  | Put s k => Put s (try_except k h)
  | Await r k => Await r (fun o => try_except (k o) h)
  end.

Declare Scope prog_scope.
Delimit Scope prog_scope with prog.
Notation "x <- p ;; q" := (bind p (fun x => q))
  (at level 61, p at next level, right associativity) : prog_scope.
Notation "p ;; q" := (bind p (fun _ => q))
  (at level 61, right associativity) : prog_scope.
Open Scope prog_scope.

(** [except httpx.RequestError as e:] *)
Definition except_RequestError {St A} (h : string -> Prog St A)
  : Exn -> option (Prog St A) :=
  fun e => match e with RequestError cause => Some (h cause) | _ => None end.

(** [except NeonaAPIError as e:] *)
Definition except_NeonaAPIError {St A} (h : Exn -> Prog St A)
  : Exn -> option (Prog St A) :=
  fun e => match e with NeonaAPIError _ _ _ => Some (h e) | _ => None end.

Definition gets {St A} (f : St -> A) : Prog St A := Get (fun s => Ret (f s)).

Definition modify {St} (f : St -> St) : Prog St unit :=
  Get (fun s => Put (f s) (Ret tt)).

(* ================================================================== *)
(** ** api_client.py: [NeonaClient] *)

Record NeonaClient := mkClient { base_url : string; holder_id : string }.

Definition DEFAULT_TIMEOUT : Z := 10.
Definition DEFAULT_TTL_SEC : Z := 300.

(** [NeonaClient.__init__]; [hostname] is what [socket.gethostname()]
    answers when the client is built. *)
Definition NeonaClient_init (hostname base_url : string) : NeonaClient :=
  {| base_url := base_url; holder_id := "tui@" ++ hostname |}.

(** The answer of [check_health] when the daemon cannot be asked. *)
Definition unreachable : HealthResponse.t :=
  HealthResponse.mk false "unreachable" "" "".

Section Client.
Context {St : Type}.

(** One [await self.client.get(...)] or [.post(...)]. *)
Definition send (r : Request) : Prog St Response.t :=
  Await r (fun o =>
    match o with
    | Responded response => Ret response
    | Failed cause => Raise (RequestError cause)
    end).

Definition client_get (url : string) (params : list (string * string))
  : Prog St Response.t :=
  send (mkRequest GET url params None).

Definition client_post (url : string) (payload : list (string * Arg))
  : Prog St Response.t :=
  send (mkRequest POST url [] (Some payload)).

(** [response.json()] *)
Definition response_json (response : Response.t) : Prog St Json.value :=
  match Response.json response with
  | Some v => Ret v
  | None => Raise (PyError "JSONDecodeError")
  end.

(** The body read with [.get]: only a dict has that method. *)
Definition as_object (v : Json.value) : Prog St Json.object :=
  match v with
  | Json.Object o => Ret o
  | Json.Array _ | Json.Scalar _ => Raise (PyError "AttributeError")
  end.

(** The body read with [for t in data] and [t.get]: iterating a dict
    gives its keys and iterating a string its characters, which have no
    [.get]; the other values cannot be iterated. *)
Definition as_items (v : Json.value) : Prog St (list Json.object) :=
  match v with
  | Json.Array items => Ret items
  | Json.Object o =>
      if Json.is_empty o then Ret [] else Raise (PyError "AttributeError")
  | Json.Scalar (Some str) =>
      if Py.nonempty str then Raise (PyError "AttributeError") else Ret []
  | Json.Scalar None => Raise (PyError "TypeError")
  end.

Definition check_health (self : NeonaClient) : Prog St HealthResponse.t :=
  try_except
    (response <- client_get "/health" [] ;;
     if 400 <=? Response.status_code response then Ret unreachable
     else
       v <- response_json response ;;
       data <- as_object v ;;
       Ret (HealthResponse.mk
              (Json.get (Json.ok data) false)
              (Json.get (Json.db data) "unknown")
              (Json.get (Json.version data) "unknown")
              (Json.get (Json.time data) "")))
    (except_RequestError (fun _ => Ret unreachable)).

Definition is_healthy (self : NeonaClient) : Prog St bool :=
  health <- check_health self ;;
  Ret (HealthResponse.ok health).

Definition task_item (t : Json.object) : TaskItem.t :=
  TaskItem.mk (Json.get (Json.id t) "") (Json.get (Json.title t) "")
              (Json.get (Json.status t) "") (Json.get (Json.claimed_by t) "").

Definition list_tasks (self : NeonaClient) (status_filter : string)
  : Prog St (list TaskItem.t) :=
  try_except
    (let params :=
       if Py.nonempty status_filter then [("status", status_filter)] else [] in
     response <- client_get "/tasks" params ;;
     if 400 <=? Response.status_code response then
       let body := Response.text response in
       Raise (NeonaAPIError "Failed to list tasks"
                            (Some (Response.status_code response)) body)
     else
       v <- response_json response ;;
       data <- as_items v ;;
       Ret (map task_item data))
    (except_RequestError (fun e =>
       Raise (NeonaAPIError ("Failed to list tasks: " ++ e) None ""))).

Definition get_task (self : NeonaClient) (task_id : string)
  : Prog St TaskDetail.t :=
  try_except
    (response <- client_get ("/tasks/" ++ task_id) [] ;;
     if 400 <=? Response.status_code response then
       let body := Response.text response in
       Raise (NeonaAPIError ("Failed to get task " ++ task_id)
                            (Some (Response.status_code response)) body)
     else
       v <- response_json response ;;
       t <- as_object v ;;
       Ret (TaskDetail.mk
              (Json.get (Json.id t) "") (Json.get (Json.title t) "")
              (Json.get (Json.description t) "")
              (Json.get (Json.status t) "")
              (Json.get (Json.claimed_by t) "")
              (Json.get (Json.created_at t) "")
              (Json.get (Json.updated_at t) "")))
    (except_RequestError (fun e =>
       Raise (NeonaAPIError ("Failed to get task " ++ task_id ++ ": " ++ e)
                            None ""))).

Definition create_task (self : NeonaClient) (title description : string)
  : Prog St string :=
  try_except
    (let payload := [("title", AStr title); ("description", AStr description)] in
     response <- client_post "/tasks" payload ;;
     if 400 <=? Response.status_code response then
       let body := Response.text response in
       Raise (NeonaAPIError "Failed to create task"
                            (Some (Response.status_code response)) body)
     else
       v <- response_json response ;;
       data <- as_object v ;;
       Ret (Json.get (Json.id data) ""))
    (except_RequestError (fun e =>
       Raise (NeonaAPIError ("Failed to create task: " ++ e) None ""))).

Definition claim_task (self : NeonaClient) (task_id : string) (ttl_sec : Z)
  : Prog St Json.value :=
  try_except
    (let payload :=
       [("holder_id", AStr (holder_id self)); ("ttl_sec", AInt ttl_sec)] in
     response <- client_post ("/tasks/" ++ task_id ++ "/claim") payload ;;
     if 400 <=? Response.status_code response then
       let body := Response.text response in
       Raise (NeonaAPIError ("Failed to claim task " ++ task_id)
                            (Some (Response.status_code response)) body)
     else response_json response)
    (except_RequestError (fun e =>
       Raise (NeonaAPIError ("Failed to claim task " ++ task_id ++ ": " ++ e)
                            None ""))).

Definition release_task (self : NeonaClient) (task_id : string)
  : Prog St unit :=
  try_except
    (let payload := [("holder_id", AStr (holder_id self))] in
     response <- client_post ("/tasks/" ++ task_id ++ "/release") payload ;;
     if 400 <=? Response.status_code response then
       let body := Response.text response in
       Raise (NeonaAPIError ("Failed to release task " ++ task_id)
                            (Some (Response.status_code response)) body)
     else Ret tt)
    (except_RequestError (fun e =>
       Raise (NeonaAPIError ("Failed to release task " ++ task_id ++ ": " ++ e)
                            None ""))).

Definition run_task (self : NeonaClient) (task_id command : string)
    (args : option (list string)) : Prog St RunDetail.t :=
  try_except
    (let payload :=
       [("holder_id", AStr (holder_id self));
        ("command", AStr command);
        ("args", AList (match args with Some l => l | None => [] end))]
     in
     response <- client_post ("/tasks/" ++ task_id ++ "/run") payload ;;
     if 400 <=? Response.status_code response then
       let body := Response.text response in
       Raise (NeonaAPIError ("Failed to run command on task " ++ task_id)
                            (Some (Response.status_code response)) body)
     else
       v <- response_json response ;;
       r <- as_object v ;;
       Ret (RunDetail.mk
              (Json.get (Json.id r) "")
              (Json.get (Json.command r) command)
              (Json.get (Json.exit_code r) (-1))
              (Json.get (Json.stdout r) "")
              (Json.get (Json.stderr r) "")))
    (except_RequestError (fun e =>
       Raise (NeonaAPIError
                ("Failed to run command on task " ++ task_id ++ ": " ++ e)
                None ""))).

Definition run_detail (r : Json.object) : RunDetail.t :=
  RunDetail.mk (Json.get (Json.id r) "") (Json.get (Json.command r) "")
               (Json.get (Json.exit_code r) (-1))
               (Json.get (Json.stdout r) "") (Json.get (Json.stderr r) "").

Definition get_task_logs (self : NeonaClient) (task_id : string)
  : Prog St (list RunDetail.t) :=
  try_except
    (response <- client_get ("/tasks/" ++ task_id ++ "/logs") [] ;;
     if 400 <=? Response.status_code response then
       let body := Response.text response in
       Raise (NeonaAPIError ("Failed to get logs for task " ++ task_id)
                            (Some (Response.status_code response)) body)
     else
       v <- response_json response ;;
       data <- as_items v ;;
       Ret (map run_detail data))
    (except_RequestError (fun e =>
       Raise (NeonaAPIError
                ("Failed to get logs for task " ++ task_id ++ ": " ++ e)
                None ""))).

(** One [MemoryDetail] of a list; [default_task] is the value of
    [task_id] when the item has none. *)
Definition memory_detail (default_task : string) (m : Json.object)
  : MemoryDetail.t :=
  MemoryDetail.mk (Json.get (Json.id m) "") (Json.get (Json.content m) "")
                  (Json.get (Json.tags m) "")
                  (Json.get (Json.task_id m) default_task).

Definition get_task_memory (self : NeonaClient) (task_id : string)
  : Prog St (list MemoryDetail.t) :=
  try_except
    (response <- client_get ("/tasks/" ++ task_id ++ "/memory") [] ;;
     if 400 <=? Response.status_code response then
       let body := Response.text response in
       Raise (NeonaAPIError ("Failed to get memory for task " ++ task_id)
                            (Some (Response.status_code response)) body)
     else
       v <- response_json response ;;
       data <- as_items v ;;
       Ret (map (memory_detail task_id) data))
    (except_RequestError (fun e =>
       Raise (NeonaAPIError
                ("Failed to get memory for task " ++ task_id ++ ": " ++ e)
                None ""))).

Definition add_memory (self : NeonaClient) (task_id content tags : string)
  : Prog St MemoryDetail.t :=
  try_except
    (let payload :=
       [("task_id", AStr task_id); ("content", AStr content);
        ("tags", AStr tags)] in
     response <- client_post "/memory" payload ;;
     if 400 <=? Response.status_code response then
       let body := Response.text response in
       Raise (NeonaAPIError "Failed to add memory"
                            (Some (Response.status_code response)) body)
     else
       v <- response_json response ;;
       m <- as_object v ;;
       Ret (MemoryDetail.mk
              (Json.get (Json.id m) "")
              (Json.get (Json.content m) content)
              (Json.get (Json.tags m) tags)
              (Json.get (Json.task_id m) task_id)))
    (except_RequestError (fun e =>
       Raise (NeonaAPIError ("Failed to add memory: " ++ e) None ""))).

Definition query_memory (self : NeonaClient) (query : string)
  : Prog St (list MemoryDetail.t) :=
  try_except
    (response <- client_get "/memory" [("q", query)] ;;
     if 400 <=? Response.status_code response then
       let body := Response.text response in
       Raise (NeonaAPIError "Failed to query memory"
                            (Some (Response.status_code response)) body)
     else
       v <- response_json response ;;
       data <- as_items v ;;
       Ret (map (memory_detail "") data))
    (except_RequestError (fun e =>
       Raise (NeonaAPIError ("Failed to query memory: " ++ e) None ""))).

Definition get_workers (self : NeonaClient) : Prog St WorkersStats.t :=
  try_except
    (response <- client_get "/workers" [] ;;
     if 400 <=? Response.status_code response then
       let body := Response.text response in
       Raise (NeonaAPIError "Failed to get workers"
                            (Some (Response.status_code response)) body)
     else
       v <- response_json response ;;
       data <- as_object v ;;
       Ret (WorkersStats.mk
              (Json.get (Json.active_workers data) 0)
              (Json.get (Json.global_max data) 0)
              (Json.get (Json.connector_counts data) [])
              (Json.get (Json.workers data) [])))
    (except_RequestError (fun e =>
       Raise (NeonaAPIError ("Failed to get workers: " ++ e) None ""))).

End Client.

(* ================================================================== *)
(** ** app.py: the session *)

(** One entry of [self.tasks]: the dict [refresh_tasks] builds, with
    its four keys. *)
Module Task.
Record t := mk
  { id : string; title : string; status : string; claimed_by : string }.
End Task.

(** What the status bar shows, as data: [update_status] renders one of
    the two lines. *)
Inductive StatusText : Type :=
| Blank
| Online (version : string) (task_count : nat) (db holder_id : string)
| Offline (db : string).

Module StatusBar.
Record t := mk
  { daemon_online : bool; version : string; holder_id : string;
    text : StatusText }.

(** [StatusBar.__init__] *)
Definition init : t := mk false "" "" Blank.

(** [StatusBar.update_status] *)
Definition update_status (health : HealthResponse.t) (task_count : nat)
    (holder_id : string) : t :=
  mk (HealthResponse.ok health) (HealthResponse.version health) holder_id
     (if HealthResponse.ok health
      then Online (HealthResponse.version health) task_count
                  (HealthResponse.db health) holder_id
      else Offline (HealthResponse.db health)).
End StatusBar.

(** A row of the tasks table: the status handed to [format_status],
    the short id, the title and the holder. *)
Definition Row : Type := (string * string * string * string)%type.

Module NeonaTUI.
(** The attributes of the application object and the widgets the
    handlers write. [message_box] is the text of the message with its
    [error] flag, which selects prefix and style. *)
Record t := mk
  { client : NeonaClient;
    tasks : list Task.t;
    message : string;
    last_health : HealthResponse.t;
    status_bar : StatusBar.t;
    table : list Row;
    message_box : option (string * bool) }.

(** [NeonaTUI.__init__], then the widgets as [compose] makes them. *)
Definition init (hostname : string) : t :=
  mk (NeonaClient_init hostname "http://127.0.0.1:7466") [] ""
     (HealthResponse.mk false "" "" "") StatusBar.init [] None.

Definition set_tasks (v : list Task.t) (a : t) : t :=
  mk (client a) v (message a) (last_health a) (status_bar a) (table a)
     (message_box a).

Definition set_last_health (v : HealthResponse.t) (a : t) : t :=
  mk (client a) (tasks a) (message a) v (status_bar a) (table a)
     (message_box a).

Definition set_status_bar (v : StatusBar.t) (a : t) : t :=
  mk (client a) (tasks a) (message a) (last_health a) v (table a)
     (message_box a).

Definition set_table (v : list Row) (a : t) : t :=
  mk (client a) (tasks a) (message a) (last_health a) (status_bar a) v
     (message_box a).

Definition set_message (msg : string) (error : bool) (a : t) : t :=
  mk (client a) (tasks a) msg (last_health a) (status_bar a) (table a)
     (Some (msg, error)).
End NeonaTUI.

Definition App : Type := NeonaTUI.t.

(** [show_message(msg, error)] *)
Definition show_message (msg : string) (error : bool) : Prog App unit :=
  modify (NeonaTUI.set_message msg error).

(** [status_bar.update_status(health, task_count, holder_id)] *)
Definition update_status (health : HealthResponse.t) (task_count : nat)
    (holder : string) : Prog App unit :=
  modify (NeonaTUI.set_status_bar
            (StatusBar.update_status health task_count holder)).

Definition task_dict (t : TaskItem.t) : Task.t :=
  Task.mk (TaskItem.id t) (TaskItem.title t) (TaskItem.status t)
          (TaskItem.claimed_by t).

Definition table_row (task : Task.t) : Row :=
  (Task.status task, Py.take 8 (Task.id task), Task.title task,
   Py.or_else (Task.claimed_by task) "-").

Definition refresh_tasks : Prog App unit :=
  try_except
    (c <- gets NeonaTUI.client ;;
     health <- check_health c ;;
     modify (NeonaTUI.set_last_health health) ;;
     if negb (HealthResponse.ok health) then
       c <- gets NeonaTUI.client ;;
       update_status health 0 (holder_id c) ;;
       show_message "Daemon offline - start with 'neona daemon'" true
     else
       c <- gets NeonaTUI.client ;;
       task_items <- list_tasks c "" ;;
       modify (NeonaTUI.set_tasks (map task_dict task_items)) ;;
       tasks <- gets NeonaTUI.tasks ;;
       c <- gets NeonaTUI.client ;;
       update_status health (List.length tasks) (holder_id c) ;;
       tasks <- gets NeonaTUI.tasks ;;
       modify (NeonaTUI.set_table (map table_row tasks)) ;;
       tasks <- gets NeonaTUI.tasks ;;
       show_message ("Loaded " ++ Py.str_of_nat (List.length tasks) ++ " tasks")
                    false)
    (except_NeonaAPIError (fun e =>
       c <- gets NeonaTUI.client ;;
       update_status (HealthResponse.mk false "error" "" "") 0 (holder_id c) ;;
       show_message ("API Error: " ++ str_of_exn e) true)).

(** The test of [get_selected_task] on the cursor of the table and the
    task list. *)
Definition selected (cursor_row : option Z) (tasks : list Task.t)
  : option Task.t :=
  match cursor_row with
  | Some row =>
      if (0 <=? row) && (row <? Z.of_nat (List.length tasks))
      then nth_error tasks (Z.to_nat row)
      else None
  | None => None
  end.

(** [get_selected_task]. The cursor belongs to the table widget; the
    handler reads it when it starts, and [cursor_row] is what it reads.
    A task is a dict of four keys, so [not task] holds of [None] only. *)
Definition get_selected_task (cursor_row : option Z)
  : Prog App (option Task.t) :=
  tasks <- gets NeonaTUI.tasks ;;
  Ret (selected cursor_row tasks).

Definition no_task_selected : string :=
  "No task selected - use arrow keys to select".

Definition cmd_add (title : string) : Prog App unit :=
  if negb (Py.nonempty title) then
    show_message "Usage: add <task title>" true
  else
    c <- gets NeonaTUI.client ;;
    task_id <- create_task c title "" ;;
    show_message ("Created task: " ++ Py.take 8 task_id) false ;;
    refresh_tasks.

Definition cmd_claim (cursor_row : option Z) : Prog App unit :=
  sel <- get_selected_task cursor_row ;;
  match sel with
  | None => show_message no_task_selected true
  | Some task =>
      c <- gets NeonaTUI.client ;;
      _ <- claim_task c (Task.id task) DEFAULT_TTL_SEC ;;
      show_message ("Claimed task: " ++ Py.take 8 (Task.id task)) false ;;
      refresh_tasks
  end.

Definition cmd_release (cursor_row : option Z) : Prog App unit :=
  sel <- get_selected_task cursor_row ;;
  match sel with
  | None => show_message no_task_selected true
  | Some task =>
      c <- gets NeonaTUI.client ;;
      release_task c (Task.id task) ;;
      show_message ("Released task: " ++ Py.take 8 (Task.id task)) false ;;
      refresh_tasks
  end.

Definition cmd_run (cursor_row : option Z) (args_str : string)
  : Prog App unit :=
  sel <- get_selected_task cursor_row ;;
  match sel with
  | None => show_message no_task_selected true
  | Some task =>
      if negb (Py.nonempty args_str) then
        show_message "Usage: run <command> [args...]" true
      else
        match Py.split args_str with
        | [] => Raise (PyError "IndexError")
        | command :: rest =>
            let args := rest in
            c <- gets NeonaTUI.client ;;
            result <- run_task c (Task.id task) command (Some args) ;;
            if RunDetail.exit_code result =? 0 then
              show_message ("Command '" ++ command ++ "' completed (exit=0)")
                           false
            else
              let output :=
                Py.or_else (RunDetail.stderr result)
                  (Py.or_else (RunDetail.stdout result)
                     ("exit code " ++ Py.str_of_int (RunDetail.exit_code result)))
              in
              show_message ("Command '" ++ command ++ "' failed: " ++ output)
                           true
        end
  end.

Definition cmd_note (cursor_row : option Z) (content : string)
  : Prog App unit :=
  sel <- get_selected_task cursor_row ;;
  match sel with
  | None => show_message no_task_selected true
  | Some task =>
      if negb (Py.nonempty content) then
        show_message "Usage: note <content>" true
      else
        c <- gets NeonaTUI.client ;;
        memory <- add_memory c (Task.id task) content "note" ;;
        show_message ("Added note: " ++ Py.take 8 (MemoryDetail.id memory))
                     false
  end.

Definition preview_line (m : MemoryDetail.t) : string :=
  let preview :=
    if (40 <? String.length (MemoryDetail.content m))%nat
    then Py.take 40 (MemoryDetail.content m) ++ "..."
    else MemoryDetail.content m in
  "  [" ++ MemoryDetail.tags m ++ "] " ++ preview.

Definition cmd_query (query : string) : Prog App unit :=
  if negb (Py.nonempty query) then
    show_message "Usage: query <search term>" true
  else
    c <- gets NeonaTUI.client ;;
    results <- query_memory c query ;;
    match results with
    | [] => show_message ("No results for '" ++ query ++ "'") false
    | _ =>
        let msg_parts :=
          ("Found " ++ Py.str_of_nat (List.length results) ++ " result(s):")
          :: map preview_line (firstn 3 results) in
        show_message (Py.join_lines msg_parts) false
    end.

Definition unknown_command (action : string) : string :=
  "Unknown command: " ++ action
  ++ " (try: add, claim, release, run, note, query, refresh)".

(** [handle_command]; [value] is [event.value]. Emptying the input
    widget, which the handler does first, leaves the session as it is
    and is not modelled. *)
Definition handle_command (cursor_row : option Z) (value : string)
  : Prog App unit :=
  let cmd := Py.strip value in
  if negb (Py.nonempty cmd) then Ret tt
  else
    match Py.split_max1 cmd with
    | [] => Raise (PyError "IndexError")
    | action0 :: rest =>
        let action := Py.lower action0 in
        let args_str := match rest with a :: _ => a | [] => "" end in
        try_except
          (if action =? "add" then cmd_add args_str
           else if (action =? "refresh") || (action =? "r") then refresh_tasks
           else if action =? "claim" then cmd_claim cursor_row
           else if action =? "release" then cmd_release cursor_row
           else if action =? "run" then cmd_run cursor_row args_str
           else if action =? "note" then cmd_note cursor_row args_str
           else if action =? "query" then cmd_query args_str
           else show_message (unknown_command action) true)%string
          (except_NeonaAPIError (fun e =>
             show_message ("Error: " ++ str_of_exn e) true))
    end.

(** [action_refresh], bound to the key [r]. *)
Definition action_refresh : Prog App unit := refresh_tasks.

(** [on_mount]: once the columns of the table and the help bar are
    set, the first load. *)
Definition on_mount : Prog App unit := refresh_tasks.

(* ================================================================== *)
(** ** Running programs *)

(** The network and the daemon as the client sees them: the outcome of
    a request, given the requests sent before it. *)
Definition Transport : Type := list Request -> Request -> Outcome.

Inductive Result (A : Type) : Type :=
| Returned (a : A)
| Raised (e : Exn).

Arguments Returned {A} a.
Arguments Raised {A} e.

(** A finished run: how it ended, the state it left, and every request
    sent so far, oldest first. *)
Record Run (St A : Type) := mkRun
  { result : Result A; state : St; sent : list Request }.

Arguments mkRun {St A} result state sent.
Arguments result {St A} r.
Arguments state {St A} r.
Arguments sent {St A} r.

(** A program run to its end against a transport, every request
    awaited in turn. *)
Fixpoint exec {St A} (net : Transport) (p : Prog St A) (s : St)
    (log : list Request) : Run St A :=
  match p with
  | Ret a => mkRun (Returned a) s log
  | Raise e => mkRun (Raised e) s log
  | Get k => exec net (k s) s log
  | Put s' k => exec net k s' log
  | Await r k => exec net (k (net log r)) s (log ++ [r])
  end.

(** A program run up to its first suspension point. *)
Inductive Stage (St A : Type) : Type :=
| Finished (r : Result A) (s : St)
| Suspended (s : St) (r : Request) (k : Outcome -> Prog St A).

Arguments Finished {St A} r s.
Arguments Suspended {St A} s r k.

Fixpoint start {St A} (p : Prog St A) (s : St) : Stage St A :=
  match p with
  | Ret a => Finished (Returned a) s
  | Raise e => Finished (Raised e) s
  | Get k => start (k s) s
  | Put s' k => start k s'
  | Await r k => Suspended s r k
  end.

(** A program that neither reads nor writes the state. *)
Inductive Stateless {St A} : Prog St A -> Prop :=
| Stateless_Ret a : Stateless (Ret a)
| Stateless_Raise e : Stateless (Raise e)
| Stateless_Await r k :
    (forall o, Stateless (k o)) -> Stateless (Await r k).

(** A program that keeps [I]: started in a state of [I], and resumed in
    states of [I], it only writes states of [I]. *)
Inductive Keeps {St A} (I : St -> Prop) : Prog St A -> Prop :=
| Keeps_Ret a : Keeps I (Ret a)
| Keeps_Raise e : Keeps I (Raise e)
| Keeps_Get k : (forall s, I s -> Keeps I (k s)) -> Keeps I (Get k)
| Keeps_Put s k : I s -> Keeps I k -> Keeps I (Put s k)
| Keeps_Await r k : (forall o, Keeps I (k o)) -> Keeps I (Await r k).

(* ================================================================== *)
(** ** The event loop, every interleaving

    A loop that puts no order on the handlers: a handler may start
    while others are suspended, and the answers arrive in any order.
    The commands in flight are the suspended handlers, each with the
    request it waits for. The application itself is stricter, it never
    starts a handler while another is suspended (see [Pump] below):
    its runs are among the runs of this loop, which serves for the
    invariants, the properties that hold of the session whatever the
    schedule. *)

Module Loop.
Record t := mk
  { session : App;
    in_flight : list (Request * (Outcome -> Prog App unit));
    escaped : list Exn }.

Definition init (hostname : string) : t := mk (NeonaTUI.init hostname) [] [].

(** What a handler leaves when it stops: either it is over, or it
    joins the commands in flight. *)
Definition settle (others : list (Request * (Outcome -> Prog App unit)))
    (escaped : list Exn) (st : Stage App unit) : t :=
  match st with
  | Finished (Returned _) s => mk s others escaped
  | Finished (Raised e) s => mk s others (escaped ++ [e])
  | Suspended s r k => mk s (others ++ [(r, k)]) escaped
  end.

(** The application starts: the session as [__init__] builds it, and
    [on_mount] running. *)
Definition mount (hostname : string) : t :=
  settle [] [] (start on_mount (NeonaTUI.init hostname)).

(** The operator submits a line. *)
Definition submit (cursor_row : option Z) (value : string) (l : t) : t :=
  settle (in_flight l) (escaped l)
         (start (handle_command cursor_row value) (session l)).

(** The outcome of the [i]-th request in flight arrives. *)
Definition deliver (i : nat) (o : Outcome) (l : t) : t :=
  match nth_error (in_flight l) i with
  | None => l
  | Some (_, k) =>
      settle (firstn i (in_flight l) ++ skipn (Datatypes.S i) (in_flight l))
             (escaped l) (start (k o) (session l))
  end.

Definition outstanding (l : t) : list Request := map fst (in_flight l).
End Loop.

(* ================================================================== *)
(** ** The message pump

    [NeonaTUI] is a Textual [App], and [on_mount], [handle_command] and
    [action_refresh] are handlers of that one application. Its message
    pump takes one message at a time and awaits the handler of a
    message before it takes the next: a line submitted, or the key [r]
    pressed, while a handler waits for the daemon stays in the queue
    until that handler has ended. An exception that escapes a handler
    ends the application, and no later message is handled. The source
    adds nothing to this: it holds no flag that says a command is
    running, and [handle_command] never looks at what else goes on. *)

Module Pump.

(** What the operator sends to the application: a line submitted in
    the input, and the key [r]. [cursor_row] is the row under the
    cursor of the table when the handler of the line reads it. *)
Inductive Message : Type :=
| Submitted (cursor_row : option Z) (value : string)
| Key_r.

Definition handler (m : Message) : Prog App unit :=
  match m with
  | Submitted cursor_row value => handle_command cursor_row value
  | Key_r => action_refresh
  end.

(** The application between two steps: the session, the handler that
    waits for the daemon with the request it waits for, the messages
    not yet taken, oldest first, the exception that ended the
    application, and the requests answered so far, oldest first. *)
Record t := mk
  { session : App;
    running : option (Request * (Outcome -> Prog App unit));
    pending : list Message;
    crashed : option Exn;
    answered : list Request }.

(** The pump takes the messages of [queue] in turn, the handler of each
    started where the one before ended, until a handler waits for the
    daemon or an exception escapes. *)
Fixpoint dispatch (s : App) (log : list Request) (queue : list Message) : t :=
  match queue with
  | [] => mk s None [] None log
  | m :: rest =>
      match start (handler m) s with
      | Finished (Returned _) s' => dispatch s' log rest
      | Finished (Raised e) s' => mk s' None rest (Some e) log
      | Suspended s' r k => mk s' (Some (r, k)) rest None log
      end
  end.

(** What a handler leaves when it stops: it waits, or an exception
    escaped, or it is over and the pump goes on with the queue. *)
Definition settle (st : Stage App unit) (log : list Request)
    (queue : list Message) : t :=
  match st with
  | Finished (Returned _) s => dispatch s log queue
  | Finished (Raised e) s => mk s None queue (Some e) log
  | Suspended s r k => mk s (Some (r, k)) queue None log
  end.

(** The application starts: the session as [__init__] builds it, and
    [on_mount] running. *)
Definition mount (hostname : string) : t :=
  settle (start on_mount (NeonaTUI.init hostname)) [] [].

(** A message arrives: it joins the queue, and is taken at once only
    if no handler is running. *)
Definition post (m : Message) (p : t) : t :=
  match crashed p, running p with
  | Some _, _ => p
  | None, Some _ =>
      mk (session p) (running p) (pending p ++ [m]) None (answered p)
  | None, None => dispatch (session p) (answered p) (pending p ++ [m])
  end.

(** The daemon, or the network, answers the request outstanding: the
    handler that waited goes on. *)
Definition arrive (net : Transport) (p : t) : t :=
  match running p with
  | None => p
  | Some (r, k) =>
      settle (start (k (net (answered p) r)) (session p))
             (answered p ++ [r]) (pending p)
  end.

Definition outstanding (p : t) : list Request :=
  match running p with
  | Some (r, _) => [r]
  | None => []
  end.

Inductive Event : Type :=
| Post (m : Message)
| Arrive.

Definition step (net : Transport) (p : t) (e : Event) : t :=
  match e with
  | Post m => post m p
  | Arrive => arrive net p
  end.

Definition steps (net : Transport) (p : t) (events : list Event) : t :=
  fold_left (step net) events p.

(** The messages among [events], in their order. *)
Fixpoint posted (events : list Event) : list Message :=
  match events with
  | [] => []
  | Post m :: rest => m :: posted rest
  | Arrive :: rest => posted rest
  end.

(** How far the application has come, as a run: it has ended on an
    exception, or it goes on. *)
Definition outcome (p : t) : Run App unit :=
  mkRun (match crashed p with Some e => Raised e | None => Returned tt end)
        (session p) (answered p).
End Pump.

(* ================================================================== *)
(** ** Vocabulary of the properties *)

Definition health_request : Request := mkRequest GET "/health" [] None.

(** An operation that sends one request and, on a status of 400 or
    more, raises the client's error with [description], the status and
    the body, sending nothing else. *)
Definition rejects {St A} (p : Prog St A) (description : string) : Prop :=
  exists req k,
    p = Await req k /\
    forall response,
      400 <= Response.status_code response ->
      k (Responded response) =
      Raise (NeonaAPIError description
                           (Some (Response.status_code response))
                           (Response.text response)).

(** A transport on which nothing connects, and one that answers every
    request with a status 500. *)
Definition refused : Transport := fun _ _ => Failed "connection refused".

Definition failing : Transport :=
  fun _ _ => Responded (Response.mk 500 "internal error" None).

Definition tui_host : NeonaClient :=
  NeonaClient_init "host" "http://127.0.0.1:7466".

(** The requests of the lease operations and of a note, as the client
    builds them. *)
Definition claim_request (self : NeonaClient) (task_id : string) (ttl_sec : Z)
  : Request :=
  mkRequest POST ("/tasks/" ++ task_id ++ "/claim") []
            (Some [("holder_id", AStr (holder_id self));
                   ("ttl_sec", AInt ttl_sec)]).

Definition release_request (self : NeonaClient) (task_id : string) : Request :=
  mkRequest POST ("/tasks/" ++ task_id ++ "/release") []
            (Some [("holder_id", AStr (holder_id self))]).

Definition run_request (self : NeonaClient) (task_id command : string)
    (args : list string) : Request :=
  mkRequest POST ("/tasks/" ++ task_id ++ "/run") []
            (Some [("holder_id", AStr (holder_id self));
                   ("command", AStr command);
                   ("args", AList args)]).

Definition note_request (task_id content tags : string) : Request :=
  mkRequest POST "/memory" []
            (Some [("task_id", AStr task_id); ("content", AStr content);
                   ("tags", AStr tags)]).

Definition tasks_request : Request := mkRequest GET "/tasks" [] None.

(** JSON objects as the daemon writes them. *)
Definition json_health (ok : bool) (db version time : string) : Json.object :=
  Json.mk (Some ok) (Some db) (Some version) (Some time)
          None None None None None None None
          None None None None None None None None None None None.

Definition json_task (id title status claimed_by : string) : Json.object :=
  Json.mk None None None None
          (Some id) (Some title) None (Some status) (Some claimed_by) None None
          None None None None None None None None None None None.

(** A daemon that is up: it holds [tasks], accepts every POST with an
    empty object, and answers 404 elsewhere. *)
Definition daemon (tasks : list Json.object) : Transport :=
  fun _ r =>
    match method r with
    | POST => Responded (Response.mk 200 "{}" (Some (Json.Object Json.empty)))
    | GET =>
        if (url r =? "/health")%string then
          Responded (Response.mk 200 ""
            (Some (Json.Object
                     (json_health true "neona.db" "0.1.0" "2024-01-01T00:00:00Z"))))
        else if (url r =? "/tasks")%string then
          Responded (Response.mk 200 "" (Some (Json.Array tasks)))
        else Responded (Response.mk 404 "not found" None)
    end.

(** Two tasks, as the daemon lists them and as the session holds them,
    and the session on host "host" once [on_mount] has loaded them. *)
Definition two_tasks_json : list Json.object :=
  [json_task "0123456789abcdef" "write tests" "pending" "";
   json_task "fedcba9876543210" "ship" "claimed" "tui@host"].

Definition two_tasks : list Task.t :=
  [Task.mk "0123456789abcdef" "write tests" "pending" "";
   Task.mk "fedcba9876543210" "ship" "claimed" "tui@host"].

Definition loaded : App :=
  state (exec (daemon two_tasks_json) on_mount (NeonaTUI.init "host") []).

(** The request a stage waits for. *)
Definition awaited {St A} (st : Stage St A) : option Request :=
  match st with
  | Suspended _ r _ => Some r
  | Finished _ _ => None
  end.

(** The value a request carries under [key] in its JSON body. *)
Fixpoint lookup (key : string) (body : list (string * Arg)) : option Arg :=
  match body with
  | [] => None
  | (k, v) :: rest => if (k =? key)%string then Some v else lookup key rest
  end.

Definition carries (key : string) (r : Request) : option Arg :=
  match json_body r with
  | Some body => lookup key body
  | None => None
  end.

(** The session talks through the client [c]. *)
Definition client_is (c : NeonaClient) (app : App) : Prop :=
  NeonaTUI.client app = c.

(** *** The command grammar, in the words of the specification *)

Fixpoint all_space (s : string) : bool :=
  match s with
  | EmptyString => true
  | String c s' => Py.isspace c && all_space s'
  end.

Fixpoint no_space (s : string) : bool :=
  match s with
  | EmptyString => true
  | String c s' => negb (Py.isspace c) && no_space s'
  end.

(** [s] is not empty and begins with a character that is no
    whitespace; [s] is not empty and ends with one. *)
Definition starts_word (s : string) : bool :=
  match s with
  | EmptyString => false
  | String c _ => negb (Py.isspace c)
  end.

Fixpoint ends_word (s : string) : bool :=
  match s with
  | EmptyString => false
  | String c EmptyString => negb (Py.isspace c)
  | String _ s' => ends_word s'
  end.

(** [Line line verb rest]: once trimmed, [line] is [verb] alone and
    [rest] is empty, or it is [verb], a run of whitespace, and [rest]
    up to the end. *)
Inductive Line : string -> string -> string -> Prop :=
| Line_verb lead verb trail :
    all_space lead = true -> all_space trail = true ->
    verb <> "" -> no_space verb = true ->
    Line (lead ++ verb ++ trail) verb ""
| Line_verb_rest lead verb gap rest trail :
    all_space lead = true -> all_space trail = true ->
    verb <> "" -> no_space verb = true ->
    gap <> "" -> all_space gap = true ->
    starts_word rest = true -> ends_word rest = true ->
    Line (lead ++ verb ++ gap ++ rest ++ trail) verb rest.

(** [Words s l]: [l] lists the words of [s], which whitespace
    separates. *)
Inductive Words : string -> list string -> Prop :=
| Words_nil gap : all_space gap = true -> Words gap []
| Words_cons gap w rest l :
    all_space gap = true -> w <> "" -> no_space w = true ->
    starts_word rest = false -> Words rest l ->
    Words (gap ++ w ++ rest) (w :: l).

(** A command body under the [try] of [handle_command]. *)
Definition guarded (p : Prog App unit) : Prog App unit :=
  try_except p
    (except_NeonaAPIError (fun e =>
       show_message ("Error: " ++ str_of_exn e) true)).

(** The event loop of that session: it has started, the answers to its
    health check and to its listing have arrived, nothing is in flight. *)
Definition idle : Loop.t :=
  Loop.deliver 0 (daemon two_tasks_json [health_request] tasks_request)
    (Loop.deliver 0 (daemon two_tasks_json [] health_request)
       (Loop.mount "host")).

(** *** Handlers run one after the other *)

(** After [run], the handlers of [messages] each run to its end before
    the next starts, up to the first that raises. *)
Fixpoint serial (net : Transport) (messages : list Pump.Message)
    (run : Run App unit) : Run App unit :=
  match messages with
  | [] => run
  | m :: rest =>
      match result run with
      | Returned _ =>
          serial net rest (exec net (Pump.handler m) (state run) (sent run))
      | Raised _ => run
      end
  end.

(** [on_mount] on the session of [hostname], then the handlers of
    [messages], one after the other. *)
Definition from_mount (net : Transport) (hostname : string)
    (messages : list Pump.Message) : Run App unit :=
  serial net messages (exec net on_mount (NeonaTUI.init hostname) []).

(** What the pump comes to once every answer has arrived. *)
Definition finish (net : Transport) (p : Pump.t) : Run App unit :=
  match Pump.crashed p, Pump.running p with
  | Some e, _ => Pump.outcome p
  | None, Some (r, k) =>
      serial net (Pump.pending p)
             (exec net (k (net (Pump.answered p) r)) (Pump.session p)
                   (Pump.answered p ++ [r]))
  | None, None =>
      serial net (Pump.pending p) (Pump.outcome p)
  end.

(** The pump is as the steps of [Pump] leave it: no handler runs once
    the application has ended, and a message waits only while a
    handler runs. *)
Definition steady (p : Pump.t) : Prop :=
  match Pump.crashed p, Pump.running p with
  | Some _, r => r = None
  | None, None => Pump.pending p = []
  | None, Some _ => True
  end.

(** The pump has come to a stop on [run]: nothing is outstanding, and
    nothing waits unless the application has ended. *)
Definition stopped (q : Pump.t) (run : Run App unit) : Prop :=
  Pump.outstanding q = []
  /\ (Pump.crashed q = None -> Pump.pending q = [])
  /\ Pump.outcome q = run.

(** The application, on host "host", once [on_mount] has loaded the
    two tasks: nothing runs, nothing waits. *)
Definition at_rest : Pump.t :=
  Pump.steps (daemon two_tasks_json) (Pump.mount "host")
             [Pump.Arrive; Pump.Arrive].

(* ================================================================== *)
(** ** Vocabulary of the further properties *)

(** An operation that sends one request and, when the transport fails
    with [cause], raises the client's error "description: cause" with
    no status and no body, sending nothing else. *)
Definition wraps {St A} (p : Prog St A) (description : string) : Prop :=
  exists req k,
    p = Await req k /\
    forall cause,
      k (Failed cause) =
      Raise (NeonaAPIError (description ++ ": " ++ cause) None "").

(** The exceptions of a program: every [Raise] it can reach raises an
    exception of [P]. *)
Inductive Raises {St A} (P : Exn -> Prop) : Prog St A -> Prop :=
| Raises_Ret a : Raises P (Ret a)
| Raises_Raise e : P e -> Raises P (Raise e)
| Raises_Get k : (forall s, Raises P (k s)) -> Raises P (Get k)
| Raises_Put s k : Raises P k -> Raises P (Put s k)
| Raises_Await r k : (forall o, Raises P (k o)) -> Raises P (Await r k).

(** Not a transport error; an exception of Python itself. *)
Definition not_transport (e : Exn) : Prop :=
  match e with RequestError _ => False | _ => True end.

Definition python_only (e : Exn) : Prop :=
  match e with PyError _ => True | _ => False end.

(** A program that sends at most [n] requests. *)
Inductive AtMost {St A} : nat -> Prog St A -> Prop :=
| AtMost_Ret n a : AtMost n (Ret a)
| AtMost_Raise n e : AtMost n (Raise e)
| AtMost_Get n k : (forall s, AtMost n (k s)) -> AtMost n (Get k)
| AtMost_Put n s k : AtMost n k -> AtMost n (Put s k)
| AtMost_Await n r k :
    (forall o, AtMost n (k o)) -> AtMost (Datatypes.S n) (Await r k).

(** A handler seen from the event loop. Started in state [s], it stops
    only in states of [I], at a request or at its end; resumed in any
    state of [I], it goes on in the same way; when it ends, [Q] holds
    of how it ended and of the state it leaves. *)
Inductive Tri {St A} (I : St -> Prop) (Q : Result A -> St -> Prop)
  : Prog St A -> St -> Prop :=
| Tri_Ret a s : Q (Returned a) s -> Tri I Q (Ret a) s
| Tri_Raise e s : Q (Raised e) s -> Tri I Q (Raise e) s
| Tri_Get k s : Tri I Q (k s) s -> Tri I Q (Get k) s
| Tri_Put s' k s : Tri I Q k s' -> Tri I Q (Put s' k) s
| Tri_Await r k s :
    I s -> (forall o s', I s' -> Tri I Q (k o) s') -> Tri I Q (Await r k) s.

(** What the operator and the network do to the event loop. *)
Inductive Event : Type :=
| Submit (cursor_row : option Z) (value : string)
| KeyRefresh
| Deliver (i : nat) (o : Outcome).

Definition step (l : Loop.t) (e : Event) : Loop.t :=
  match e with
  | Submit cursor_row value => Loop.submit cursor_row value l
  | KeyRefresh =>
      Loop.settle (Loop.in_flight l) (Loop.escaped l)
                  (start action_refresh (Loop.session l))
  | Deliver i o => Loop.deliver i o l
  end.

Definition steps (l : Loop.t) (events : list Event) : Loop.t :=
  fold_left step events l.

(** The table shows the task list. *)
Definition table_in_sync (app : App) : Prop :=
  NeonaTUI.table app = map table_row (NeonaTUI.tasks app).

(** Everything of the session but its message. *)
Definition same_but_message (a b : App) : Prop :=
  NeonaTUI.client a = NeonaTUI.client b
  /\ NeonaTUI.tasks a = NeonaTUI.tasks b
  /\ NeonaTUI.last_health a = NeonaTUI.last_health b
  /\ NeonaTUI.status_bar a = NeonaTUI.status_bar b
  /\ NeonaTUI.table a = NeonaTUI.table b.

(** A task as the daemon lists it. *)
Definition encode_task (t : Task.t) : Json.object :=
  json_task (Task.id t) (Task.title t) (Task.status t) (Task.claimed_by t).

Definition create_request (title : string) : Request :=
  mkRequest POST "/tasks" []
            (Some [("title", AStr title); ("description", AStr "")]).

(** The event loop respects [I]: the session is in [I], and every
    command in flight, resumed in a state of [I], stops only in states
    of [I]. *)
Definition loop_ok (I : App -> Prop) (l : Loop.t) : Prop :=
  I (Loop.session l)
  /\ Forall (fun rk : Request * (Outcome -> Prog App unit) =>
               forall o s, I s -> Tri I (fun _ s' => I s') (snd rk o) s)
            (Loop.in_flight l).

(** A daemon whose health check passes and which answers status 503
    to everything else. *)
Definition half_up : Transport :=
  fun _ r =>
    if (url r =? "/health")%string then
      Responded (Response.mk 200 ""
        (Some (Json.Object
                 (json_health true "neona.db" "0.1.0" "2024-01-01T00:00:00Z"))))
    else Responded (Response.mk 503 "unavailable" None).

(** An operation that sends one request and, on a status below 400
    with the JSON [body], returns [a]. *)
Definition answers {St A} (p : Prog St A) (body : Json.value) (a : A) : Prop :=
  exists req k,
    p = Await req k /\
    forall response,
      Response.status_code response < 400 ->
      Response.json response = Some body ->
      k (Responded response) = Ret a.

(** The message box shows the message of the session. *)
Definition box_shows_message (app : App) : Prop :=
  match NeonaTUI.message_box app with
  | Some (msg, _) => msg = NeonaTUI.message app
  | None => NeonaTUI.message app = ""
  end.

(** *** The pump and the loop *)

(** The message as the event of the loop that starts its handler. *)
Definition as_event (m : Pump.Message) : Event :=
  match m with
  | Pump.Submitted cursor_row value => Submit cursor_row value
  | Pump.Key_r => KeyRefresh
  end.

(** The loop [l] stands where the pump [p] stands: the same session,
    the same handler suspended, the same exception escaped. The
    messages that wait in the pump have not reached the loop yet. *)
Definition covers (l : Loop.t) (p : Pump.t) : Prop :=
  Loop.session l = Pump.session p
  /\ Loop.in_flight l
     = match Pump.running p with Some rk => [rk] | None => [] end
  /\ Loop.escaped l
     = match Pump.crashed p with Some e => [e] | None => [] end.

(* ================================================================== *)
(** * Properties *)

(** ** Python strings, on examples *)

Example strip_ex : Py.strip "  run  build --flag  " = "run  build --flag".
Proof. reflexivity. Qed.

Example split_max1_ex :
  Py.split_max1 "run  build --flag " = ["run"; "build --flag "].
Proof. reflexivity. Qed.

Example split_ex : Py.split " build   --flag -x " = ["build"; "--flag"; "-x"].
Proof. reflexivity. Qed.

Example str_of_int_ex :
  Py.str_of_int (-1) = "-1" /\ Py.str_of_int 0 = "0" /\ Py.str_of_nat 3 = "3"
  /\ Py.str_of_nat 0 = "0" /\ Py.str_of_int 127 = "127".
Proof. repeat split; reflexivity. Qed.

Example lower_ex :
  Py.lower "ReFresh" = "refresh" /\ Py.lower "AZ[@az09" = "az[@az09".
Proof. split; reflexivity. Qed.

Example isspace_ex :
  Py.isspace " " = true /\ Py.isspace (ascii_of_nat 9) = true
  /\ Py.isspace (ascii_of_nat 10) = true /\ Py.isspace "a" = false
  /\ Py.isspace "-" = false /\ Py.isspace (ascii_of_nat 0) = false.
Proof. repeat split. Qed.

Example take_ex :
  Py.take 8 "0123456789abcdef" = "01234567" /\ Py.take 8 "abc" = "abc".
Proof. split; reflexivity. Qed.

(** ** Running a sequence, running under [try] *)

Section ExecLaws.
Context {St : Type} (net : Transport).

Lemma exec_bind {A B} (p : Prog St A) (f : A -> Prog St B) s log :
  exec net (bind p f) s log =
  match result (exec net p s log) with
  | Returned a => exec net (f a) (state (exec net p s log))
                       (sent (exec net p s log))
  | Raised e => mkRun (Raised e) (state (exec net p s log))
                      (sent (exec net p s log))
  end.
Proof.
  revert s log; induction p as [a|e|k IH|s' k IH|r k IH]; intros s log;
    simpl; auto.
Qed.

Lemma exec_try_except {A} (p : Prog St A) h s log :
  exec net (try_except p h) s log =
  match result (exec net p s log) with
  | Returned a => exec net p s log
  | Raised e =>
      match h e with
      | Some q => exec net q (state (exec net p s log))
                       (sent (exec net p s log))
      | None => exec net p s log
      end
  end.
Proof.
  revert s log; induction p as [a|e|k IH|s' k IH|r k IH]; intros s log;
    simpl; auto.
  destruct (h e); reflexivity.
Qed.

Lemma exec_returned {A B} (p : Prog St A) (f : A -> Prog St B) s log a s1 log1 :
  exec net p s log = mkRun (Returned a) s1 log1 ->
  exec net (bind p f) s log = exec net (f a) s1 log1.
Proof. intros H; rewrite exec_bind, H; reflexivity. Qed.

Lemma exec_raised {A B} (p : Prog St A) (f : A -> Prog St B) s log e s1 log1 :
  exec net p s log = mkRun (Raised e) s1 log1 ->
  exec net (bind p f) s log = mkRun (Raised e) s1 log1.
Proof. intros H; rewrite exec_bind, H; reflexivity. Qed.

Lemma run_eta {A} (r : Run St A) : r = mkRun (result r) (state r) (sent r).
Proof. destruct r; reflexivity. Qed.

(** A stateless program leaves the state alone, and runs the same way
    from every state. *)
Lemma stateless_state {A} (p : Prog St A) :
  Stateless p -> forall s log, state (exec net p s log) = s.
Proof. induction 1; intros; simpl; auto. Qed.

Lemma stateless_any_state {A} (p : Prog St A) :
  Stateless p -> forall s s' log,
    result (exec net p s log) = result (exec net p s' log)
    /\ sent (exec net p s log) = sent (exec net p s' log).
Proof. induction 1; intros; simpl; auto. Qed.

Lemma stateless_exec {A} (p : Prog St A) s s' log :
  Stateless p ->
  exec net p s' log =
  mkRun (result (exec net p s log)) s' (sent (exec net p s log)).
Proof.
  intros H. rewrite (run_eta (exec net p s' log)).
  rewrite (stateless_state p H).
  destruct (stateless_any_state p H s s' log) as [-> ->]. reflexivity.
Qed.

Lemma keeps_exec {A} (I : St -> Prop) (p : Prog St A) :
  Keeps I p -> forall s log, I s -> I (state (exec net p s log)).
Proof. induction 1; intros; simpl; auto. Qed.

End ExecLaws.

Section ProgLaws.
Context {St : Type}.

Lemma stateless_bind {A B} (p : Prog St A) (f : A -> Prog St B) :
  Stateless p -> (forall a, Stateless (f a)) -> Stateless (bind p f).
Proof. induction 1; intros; simpl; auto; constructor; auto. Qed.

Lemma stateless_try_except {A} (p : Prog St A) h :
  Stateless p -> (forall e q, h e = Some q -> Stateless q) ->
  Stateless (try_except p h).
Proof.
  induction 1; intros Hh; simpl; try (constructor; auto; fail).
  destruct (h e) eqn:E; [eauto | constructor].
Qed.

Lemma keeps_stateless {A} (I : St -> Prop) (p : Prog St A) :
  Stateless p -> Keeps I p.
Proof. induction 1; constructor; auto. Qed.

Lemma keeps_bind {A B} (I : St -> Prop) (p : Prog St A) (f : A -> Prog St B) :
  Keeps I p -> (forall a, Keeps I (f a)) -> Keeps I (bind p f).
Proof. induction 1; intros; simpl; auto; constructor; auto. Qed.

Lemma keeps_try_except {A} (I : St -> Prop) (p : Prog St A) h :
  Keeps I p -> (forall e q, h e = Some q -> Keeps I q) ->
  Keeps I (try_except p h).
Proof.
  induction 1; intros Hh; simpl; try (constructor; auto; fail).
  destruct (h e) eqn:E; [eauto | constructor].
Qed.

Lemma keeps_except_NeonaAPIError {A} (I : St -> Prop) (p : Prog St A) h :
  Keeps I p -> (forall e, Keeps I (h e)) ->
  Keeps I (try_except p (except_NeonaAPIError h)).
Proof.
  intros Hp Hh. apply keeps_try_except; [exact Hp|].
  intros e q He. destruct e; simpl in He; try discriminate.
  injection He as <-. apply Hh.
Qed.

Lemma keeps_gets {A} (I : St -> Prop) (f : St -> A) : Keeps I (gets f).
Proof. repeat constructor. Qed.

Lemma keeps_modify (I : St -> Prop) (f : St -> St) :
  (forall s, I s -> I (f s)) -> Keeps I (modify f).
Proof. intros H; constructor; intros; constructor; auto; constructor. Qed.

End ProgLaws.

(** ** The client is stateless *)

Section ClientStateless.
Context {St : Type}.

Lemma stateless_send r : Stateless (St := St) (send r).
Proof. constructor; intros []; constructor. Qed.

Lemma stateless_response_json r : Stateless (St := St) (response_json r).
Proof. unfold response_json; destruct (Response.json r); constructor. Qed.

Lemma stateless_as_object v : Stateless (St := St) (as_object v).
Proof. destruct v; constructor. Qed.

Lemma stateless_as_items v : Stateless (St := St) (as_items v).
Proof.
  destruct v as [o|items|[str|]]; unfold as_items; try constructor.
  - destruct (Json.is_empty o); constructor.
  - destruct (Py.nonempty str); constructor.
Qed.

End ClientStateless.

Create HintDb client.

#[local] Hint Resolve stateless_send stateless_response_json
  stateless_as_object stateless_as_items : client.
#[local] Hint Constructors Stateless : client.

Ltac stateless_op :=
  apply stateless_try_except;
  [ apply stateless_bind; [ apply stateless_send | ];
    intros ?response; destruct (400 <=? Response.status_code response);
    repeat first
      [ apply stateless_bind; [ auto with client | intros ? ]
      | solve [ auto with client ] ]
  | intros [ | | ] ? ; simpl; intros ?H; inversion H; subst;
    auto with client ].

Section ClientStateless2.
Context {St : Type} (self : NeonaClient).

Lemma stateless_check_health : Stateless (St := St) (check_health self).
Proof. unfold check_health, client_get. stateless_op. Qed.

Lemma stateless_list_tasks f : Stateless (St := St) (list_tasks self f).
Proof. unfold list_tasks, client_get. stateless_op. Qed.

Lemma stateless_create_task t d : Stateless (St := St) (create_task self t d).
Proof. unfold create_task, client_post. stateless_op. Qed.

Lemma stateless_claim_task t ttl : Stateless (St := St) (claim_task self t ttl).
Proof. unfold claim_task, client_post. stateless_op. Qed.

Lemma stateless_release_task t : Stateless (St := St) (release_task self t).
Proof. unfold release_task, client_post. stateless_op. Qed.

Lemma stateless_run_task t c a : Stateless (St := St) (run_task self t c a).
Proof. unfold run_task, client_post. stateless_op. Qed.

Lemma stateless_add_memory t c g : Stateless (St := St) (add_memory self t c g).
Proof. unfold add_memory, client_post. stateless_op. Qed.

Lemma stateless_query_memory q : Stateless (St := St) (query_memory self q).
Proof. unfold query_memory, client_get. stateless_op. Qed.

End ClientStateless2.

(* ================================================================== *)
(** ** The health check *)

(** C4. When the transport fails (connection refused, timeout), the
    health check does not raise: it returns the record with ok false,
    db "unreachable" and empty version and time, after its one request. *)
Theorem check_health_transport_failure :
  forall (St : Type) (net : Transport) (self : NeonaClient) (s : St)
         (log : list Request) (cause : string),
    net log health_request = Failed cause ->
    exec net (check_health self) s log =
    mkRun (Returned (HealthResponse.mk false "unreachable" "" ""))
          s (log ++ [health_request]).
Proof.
  intros St net self s log cause H.
  unfold check_health, client_get, send. simpl.
  fold health_request. rewrite H. reflexivity.
Qed.

Lemma check_health_transport_failure_witness :
  refused [] health_request = Failed "connection refused" /\
  exec refused (check_health tui_host) tt [] =
  mkRun (Returned (HealthResponse.mk false "unreachable" "" ""))
        tt [health_request].
Proof.
  split; [reflexivity|].
  apply (check_health_transport_failure unit refused tui_host tt []
           "connection refused").
  reflexivity.
Defined.

(** ** Status codes *)

Ltac rejects_op :=
  eexists; eexists; split; [reflexivity|];
  intros response H; simpl;
  apply Z.leb_le in H; rewrite H; reflexivity.

(** C5, as the code has it. Every operation but the health check sends
    one request and turns a status of 400 or more into the client's
    error, which carries the description of the operation, the status
    and the body of the response; the health check turns such a status
    into its fallback record, and raises nothing. *)
Theorem status_400_is_api_error :
  forall (St : Type) (self : NeonaClient),
    (forall status_filter,
        rejects (St := St) (list_tasks self status_filter)
                "Failed to list tasks")
    /\ (forall task_id,
        rejects (St := St) (get_task self task_id)
                ("Failed to get task " ++ task_id))
    /\ (forall title description,
        rejects (St := St) (create_task self title description)
                "Failed to create task")
    /\ (forall task_id ttl_sec,
        rejects (St := St) (claim_task self task_id ttl_sec)
                ("Failed to claim task " ++ task_id))
    /\ (forall task_id,
        rejects (St := St) (release_task self task_id)
                ("Failed to release task " ++ task_id))
    /\ (forall task_id command args,
        rejects (St := St) (run_task self task_id command args)
                ("Failed to run command on task " ++ task_id))
    /\ (forall task_id,
        rejects (St := St) (get_task_logs self task_id)
                ("Failed to get logs for task " ++ task_id))
    /\ (forall task_id,
        rejects (St := St) (get_task_memory self task_id)
                ("Failed to get memory for task " ++ task_id))
    /\ (forall task_id content tags,
        rejects (St := St) (add_memory self task_id content tags)
                "Failed to add memory")
    /\ (forall query,
        rejects (St := St) (query_memory self query)
                "Failed to query memory")
    /\ rejects (St := St) (get_workers self) "Failed to get workers"
    /\ (exists k,
        check_health (St := St) self = Await health_request k /\
        forall response,
          400 <= Response.status_code response ->
          k (Responded response) = Ret unreachable).
Proof.
  intros St self.
  repeat match goal with |- _ /\ _ => split end; intros; try rejects_op.
  eexists; split; [reflexivity|].
  intros response H; simpl. apply Z.leb_le in H; rewrite H; reflexivity.
Qed.

(** C5 fails on the health check: on a status 500 it returns its
    fallback record and raises no error. *)
Lemma check_health_status_500 :
  failing [] health_request
  = Responded (Response.mk 500 "internal error" None)
  /\ exec failing (check_health tui_host) tt [] =
     mkRun (Returned unreachable) tt [health_request]
  /\ exec failing (list_tasks tui_host "") tt [] =
     mkRun (Raised (NeonaAPIError "Failed to list tasks" (Some 500)
                                  "internal error"))
           tt [mkRequest GET "/tasks" [] None].
Proof. repeat split; reflexivity. Qed.

(** ** A run whose answer has no exit code *)

#[local] Arguments check_health : simpl never.
#[local] Arguments list_tasks : simpl never.
#[local] Arguments create_task : simpl never.
#[local] Arguments claim_task : simpl never.
#[local] Arguments release_task : simpl never.
#[local] Arguments run_task : simpl never.
#[local] Arguments add_memory : simpl never.
#[local] Arguments query_memory : simpl never.
#[local] Arguments refresh_tasks : simpl never.

Lemma split_from_nonempty w s : w <> "" -> Py.split_from w s <> [].
Proof.
  revert w; induction s as [|c s IH]; intros w Hw; simpl.
  - destruct w; congruence.
  - destruct (Py.isspace c).
    + destruct w; congruence.
    + apply IH. destruct w; discriminate.
Qed.

Lemma split_cons_nonempty args_str command args :
  Py.split args_str = command :: args -> Py.nonempty args_str = true.
Proof. destruct args_str; [discriminate | reflexivity]. Qed.

(** C10. When the daemon answers a run with a status below 400 and a
    JSON object that has no exit_code, run_task returns a record whose
    exit code is -1 and whose command is the one of the answer or, when
    the answer has none, the one that was sent; cmd_run then takes the
    failure path: an error message "Command '...' failed: ...". *)
Theorem run_without_exit_code :
  forall (net : Transport) (app : App) (cursor_row : option Z)
         (args_str : string) (task : Task.t) (command : string)
         (args : list string) (log : list Request)
         (response : Response.t) (r : Json.object),
    selected cursor_row (NeonaTUI.tasks app) = Some task ->
    Py.split args_str = command :: args ->
    net log (run_request (NeonaTUI.client app) (Task.id task) command args)
    = Responded response ->
    Response.status_code response < 400 ->
    Response.json response = Some (Json.Object r) ->
    Json.exit_code r = None ->
    exec net (run_task (NeonaTUI.client app) (Task.id task) command (Some args))
         app log
    = mkRun (Returned
               (RunDetail.mk
                  (Json.get (Json.id r) "")
                  (match Json.command r with Some c => c | None => command end)
                  (-1)
                  (Json.get (Json.stdout r) "")
                  (Json.get (Json.stderr r) "")))
            app
            (log ++ [run_request (NeonaTUI.client app) (Task.id task)
                                 command args])
    /\ exists output,
        exec net (cmd_run cursor_row args_str) app log
        = mkRun (Returned tt)
                (NeonaTUI.set_message
                   ("Command '" ++ command ++ "' failed: " ++ output) true app)
                (log ++ [run_request (NeonaTUI.client app) (Task.id task)
                                     command args])
        /\ output =
           Py.or_else (Json.get (Json.stderr r) "")
             (Py.or_else (Json.get (Json.stdout r) "") "exit code -1").
Proof.
  intros net app cursor_row args_str task command args log response r
         Hsel Hsplit Hnet Hstatus Hjson Hexit.
  assert (Hlt : (400 <=? Response.status_code response) = false)
    by (apply Z.leb_gt; exact Hstatus).
  assert (Hrun :
    exec net (run_task (NeonaTUI.client app) (Task.id task) command (Some args))
         app log
    = mkRun (Returned
               (RunDetail.mk
                  (Json.get (Json.id r) "")
                  (match Json.command r with Some c => c | None => command end)
                  (-1)
                  (Json.get (Json.stdout r) "")
                  (Json.get (Json.stderr r) "")))
            app
            (log ++ [run_request (NeonaTUI.client app) (Task.id task)
                                 command args])).
  { unfold run_task, client_post, send, run_request in *.
    simpl in Hnet |- *. rewrite Hnet. simpl. rewrite Hlt. unfold response_json. rewrite Hjson.
    simpl. rewrite Hexit. reflexivity. }
  split; [exact Hrun|].
  eexists; split; [|reflexivity].
  unfold cmd_run, get_selected_task.
  cbn. rewrite Hsel.
  rewrite (split_cons_nonempty _ _ _ Hsplit). cbn. rewrite Hsplit.
  cbn.
  rewrite (exec_returned net _ _ _ _ _ _ _ Hrun).
  reflexivity.
Qed.

Lemma run_without_exit_code_witness :
  exists output,
    exec (daemon []) (cmd_run (Some 0) "build --flag") loaded []
    = mkRun (Returned tt)
            (NeonaTUI.set_message
               ("Command 'build' failed: " ++ output) true loaded)
            [run_request tui_host "0123456789abcdef" "build" ["--flag"]]
    /\ output = "exit code -1".
Proof.
  destruct (run_without_exit_code (daemon []) loaded (Some 0) "build --flag"
              (Task.mk "0123456789abcdef" "write tests" "pending" "")
              "build" ["--flag"] []
              (Response.mk 200 "{}" (Some (Json.Object Json.empty)))
              Json.empty
              eq_refl eq_refl eq_refl eq_refl eq_refl eq_refl)
    as [_ H].
  exact H.
Defined.

(** ** Refresh *)

Lemma exec_stateless_result {St A} (net : Transport) (p : Prog St A)
    (s s' : St) log (r : Result A) :
  Stateless p ->
  result (exec net p s log) = r ->
  exec net p s' log = mkRun r s' (sent (exec net p s log)).
Proof. intros Hp Hr. rewrite (stateless_exec net p s s' log Hp), Hr. reflexivity. Qed.

(** C3. Let the health check return a record. If its ok is false,
    refresh leaves the task list as it was and sets the error message
    "Daemon offline - start with 'neona daemon'", which contains
    "offline". If its ok is true and list_tasks then returns N items,
    the task list becomes exactly these N items, in order, whatever it
    held before, and the message is "Loaded N tasks", no error. *)
Theorem refresh_offline_or_loaded :
  forall (net : Transport) (app : App) (log : list Request)
         (health : HealthResponse.t),
    result (exec net (check_health (NeonaTUI.client app)) app log)
    = Returned health ->
    let log1 := sent (exec net (check_health (NeonaTUI.client app)) app log) in
    (HealthResponse.ok health = false ->
     exists app',
       exec net refresh_tasks app log = mkRun (Returned tt) app' log1
       /\ NeonaTUI.tasks app' = NeonaTUI.tasks app
       /\ NeonaTUI.message app' = "Daemon offline - start with 'neona daemon'"
       /\ NeonaTUI.message_box app' = Some (NeonaTUI.message app', true)
       /\ Py.contains "offline" (NeonaTUI.message app') = true)
    /\
    (HealthResponse.ok health = true ->
     forall items : list TaskItem.t,
       result (exec net (list_tasks (NeonaTUI.client app) "") app log1)
       = Returned items ->
       exists app',
         exec net refresh_tasks app log
         = mkRun (Returned tt) app'
                 (sent (exec net (list_tasks (NeonaTUI.client app) "") app log1))
         /\ NeonaTUI.tasks app' = map task_dict items
         /\ List.length (NeonaTUI.tasks app') = List.length items
         /\ NeonaTUI.message app'
            = "Loaded " ++ Py.str_of_nat (List.length items) ++ " tasks"
         /\ NeonaTUI.message_box app' = Some (NeonaTUI.message app', false)).
Proof.
  intros net app log health Hh log1.
  pose proof (exec_stateless_result net _ app app log _
                (stateless_check_health (NeonaTUI.client app)) Hh) as Hrun.
  fold log1 in Hrun.
  split.
  - intros Hok.
    eexists. split.
    { unfold refresh_tasks. rewrite exec_try_except. cbn.
      rewrite (exec_returned net _ _ _ _ _ _ _ Hrun). cbn.
      rewrite Hok. cbn. reflexivity. }
    repeat split.
  - intros Hok items Hitems.
    pose proof (exec_stateless_result net _ app
                  (NeonaTUI.set_last_health health app) log1 _
                  (stateless_list_tasks (NeonaTUI.client app) "") Hitems)
      as Hlist.
    eexists. split; [|split; [|split; [|split]]].
    + unfold refresh_tasks. rewrite exec_try_except. cbn.
      rewrite (exec_returned net _ _ _ _ _ _ _ Hrun). cbn.
      rewrite Hok. cbn.
      rewrite (exec_returned net _ _ _ _ _ _ _ Hlist). cbn.
      reflexivity.
    + reflexivity.
    + cbn. apply length_map.
    + cbn. rewrite length_map. reflexivity.
    + reflexivity.
Qed.

Lemma refresh_offline_or_loaded_witness :
  exists app',
    exec (daemon [json_task "t1" "a" "pending" ""; json_task "t2" "b" "done" "";
                  json_task "t3" "c" "failed" "x"])
         refresh_tasks loaded []
    = mkRun (Returned tt) app' [health_request; tasks_request]
    /\ NeonaTUI.tasks app'
       = [Task.mk "t1" "a" "pending" ""; Task.mk "t2" "b" "done" "";
          Task.mk "t3" "c" "failed" "x"]
    /\ List.length (NeonaTUI.tasks app') = 3%nat
    /\ NeonaTUI.message app' = "Loaded 3 tasks"
    /\ NeonaTUI.message_box app' = Some (NeonaTUI.message app', false).
Proof.
  exact (proj2 (refresh_offline_or_loaded
                  (daemon [json_task "t1" "a" "pending" "";
                           json_task "t2" "b" "done" "";
                           json_task "t3" "c" "failed" "x"])
                  loaded []
                  (HealthResponse.mk true "neona.db" "0.1.0"
                                     "2024-01-01T00:00:00Z")
                  eq_refl)
               eq_refl
               [TaskItem.mk "t1" "a" "pending" ""; TaskItem.mk "t2" "b" "done" "";
                TaskItem.mk "t3" "c" "failed" "x"]
               eq_refl).
Defined.

(** The two branches on examples: the daemon cannot be reached, and the
    daemon answers a status 500 to everything. In both the two loaded
    tasks stay. *)
Example refresh_examples :
  NeonaTUI.tasks loaded = two_tasks
  /\ NeonaTUI.message loaded = "Loaded 2 tasks"
  /\ Loop.session idle = loaded
  /\ NeonaTUI.tasks (state (exec refused refresh_tasks loaded [])) = two_tasks
  /\ NeonaTUI.message_box (state (exec refused refresh_tasks loaded []))
     = Some ("Daemon offline - start with 'neona daemon'", true)
  /\ sent (exec refused refresh_tasks loaded []) = [health_request]
  /\ NeonaTUI.tasks (state (exec failing refresh_tasks loaded [])) = two_tasks
  /\ NeonaTUI.message_box (state (exec failing refresh_tasks loaded []))
     = Some ("Daemon offline - start with 'neona daemon'", true).
Proof. repeat split. Qed.

(** ** Release *)

Lemma exec_extends {St A} (net : Transport) (p : Prog St A) :
  forall s log, exists rest, sent (exec net p s log) = (log ++ rest)%list.
Proof.
  induction p as [a|e|k IH|s' k IH|r k IH]; intros s log; simpl.
  - exists []; symmetry; apply app_nil_r.
  - exists []; symmetry; apply app_nil_r.
  - apply IH.
  - apply IH.
  - destruct (IH (net log r) s (log ++ [r])%list) as [rest Hrest].
    exists (r :: rest). rewrite Hrest, <- app_assoc. reflexivity.
Qed.

Lemma exec_start {St A} (net : Transport) (p : Prog St A) :
  forall s log s' r k,
    start p s = Suspended s' r k ->
    exec net p s log = exec net (k (net log r)) s' (log ++ [r]).
Proof.
  induction p as [a|e|k0 IH|s0 k0 IH|r0 k0 IH]; intros s log s' r k H;
    simpl in *; try discriminate; eauto.
  inversion H; subst; reflexivity.
Qed.

Lemma start_refresh_tasks (app : App) :
  exists k, start refresh_tasks app = Suspended app health_request k.
Proof. eexists. reflexivity. Qed.

(** C2, as the code has it. A release that succeeds sets the message
    "Released task: <short id>" and then runs the same refresh as add
    and claim do: what cmd_release leaves is what refresh_tasks leaves
    when started after the release request, and the next request sent
    is the health check of that refresh. *)
Theorem release_then_refresh :
  forall (net : Transport) (app : App) (cursor_row : option Z)
         (task : Task.t) (log : list Request) (response : Response.t),
    selected cursor_row (NeonaTUI.tasks app) = Some task ->
    net log (release_request (NeonaTUI.client app) (Task.id task))
    = Responded response ->
    Response.status_code response < 400 ->
    exec net (cmd_release cursor_row) app log
    = exec net refresh_tasks
           (NeonaTUI.set_message
              ("Released task: " ++ Py.take 8 (Task.id task)) false app)
           (log ++ [release_request (NeonaTUI.client app) (Task.id task)])
    /\ exists rest,
        sent (exec net (cmd_release cursor_row) app log)
        = (log ++ [release_request (NeonaTUI.client app) (Task.id task);
                   health_request] ++ rest)%list.
Proof.
  intros net app cursor_row task log response Hsel Hnet Hstatus.
  assert (Hlt : (400 <=? Response.status_code response) = false)
    by (apply Z.leb_gt; exact Hstatus).
  assert (Hrel :
    exec net (release_task (NeonaTUI.client app) (Task.id task)) app log
    = mkRun (Returned tt) app
            (log ++ [release_request (NeonaTUI.client app) (Task.id task)])).
  { unfold release_task, client_post, send, release_request in *.
    simpl in Hnet |- *. rewrite Hnet. simpl. rewrite Hlt. reflexivity. }
  assert (Heq :
    exec net (cmd_release cursor_row) app log
    = exec net refresh_tasks
           (NeonaTUI.set_message
              ("Released task: " ++ Py.take 8 (Task.id task)) false app)
           (log ++ [release_request (NeonaTUI.client app) (Task.id task)])).
  { unfold cmd_release, get_selected_task. cbn. rewrite Hsel. cbn.
    rewrite (exec_returned net _ _ _ _ _ _ _ Hrel). cbn. reflexivity. }
  split; [exact Heq|].
  rewrite Heq.
  destruct (start_refresh_tasks
              (NeonaTUI.set_message
                 ("Released task: " ++ Py.take 8 (Task.id task)) false app))
    as [k Hk].
  rewrite (exec_start net _ _ _ _ _ _ Hk).
  destruct (exec_extends net
              (k (net (log ++ [release_request (NeonaTUI.client app)
                                               (Task.id task)])%list
                      health_request))
              (NeonaTUI.set_message
                 ("Released task: " ++ Py.take 8 (Task.id task)) false app)
              ((log ++ [release_request (NeonaTUI.client app) (Task.id task)])
                 ++ [health_request])%list) as [rest Hrest].
  exists rest. rewrite Hrest. rewrite <- !app_assoc. reflexivity.
Qed.

Lemma release_then_refresh_witness :
  exec (daemon []) (cmd_release (Some 1)) loaded []
  = exec (daemon []) refresh_tasks
         (NeonaTUI.set_message "Released task: fedcba98" false loaded)
         [release_request tui_host "fedcba9876543210"]
  /\ exists rest,
      sent (exec (daemon []) (cmd_release (Some 1)) loaded [])
      = ([] ++ [release_request tui_host "fedcba9876543210"; health_request]
            ++ rest)%list.
Proof.
  exact (release_then_refresh (daemon []) loaded (Some 1)
           (Task.mk "fedcba9876543210" "ship" "claimed" "tui@host") []
           (Response.mk 200 "{}" (Some (Json.Object Json.empty)))
           eq_refl eq_refl eq_refl).
Defined.

(** C2 fails: after a release that succeeds, with the daemon now
    holding no task, the session has asked the daemon for its health
    and its tasks, the two loaded tasks are gone and the message is the
    one of the refresh, not the confirmation of the release. *)
Lemma release_refreshes :
  NeonaTUI.tasks loaded = two_tasks
  /\ sent (exec (daemon []) (cmd_release (Some 1)) loaded [])
     = [release_request tui_host "fedcba9876543210"; health_request;
        tasks_request]
  /\ NeonaTUI.tasks (state (exec (daemon []) (cmd_release (Some 1)) loaded []))
     = []
  /\ NeonaTUI.message (state (exec (daemon []) (cmd_release (Some 1)) loaded []))
     = "Loaded 0 tasks".
Proof. repeat split; reflexivity. Qed.

(** ** Empty arguments *)

(** C7, as the code has it. With an empty argument, query sets its
    usage error; run and note set their usage error when a task is
    selected and the error "No task selected" when none is, because
    they look at the selection first. In every case the message is an
    error, the command returns, nothing else of the session changes and
    no request is sent. The same holds for the lines "run", "note" and
    "query" given to handle_command. *)
Theorem empty_argument_is_local :
  forall (net : Transport) (app : App) (cursor_row : option Z)
         (log : list Request),
    exec net (cmd_query "") app log
    = mkRun (Returned tt)
            (NeonaTUI.set_message "Usage: query <search term>" true app) log
    /\ exec net (cmd_run cursor_row "") app log
       = mkRun (Returned tt)
               (NeonaTUI.set_message
                  (match selected cursor_row (NeonaTUI.tasks app) with
                   | Some _ => "Usage: run <command> [args...]"
                   | None => no_task_selected
                   end) true app) log
    /\ exec net (cmd_note cursor_row "") app log
       = mkRun (Returned tt)
               (NeonaTUI.set_message
                  (match selected cursor_row (NeonaTUI.tasks app) with
                   | Some _ => "Usage: note <content>"
                   | None => no_task_selected
                   end) true app) log
    /\ exec net (handle_command cursor_row "query") app log
       = exec net (cmd_query "") app log
    /\ exec net (handle_command cursor_row "run") app log
       = exec net (cmd_run cursor_row "") app log
    /\ exec net (handle_command cursor_row "note") app log
       = exec net (cmd_note cursor_row "") app log.
Proof.
  intros net app cursor_row log.
  assert (Hrun : exec net (cmd_run cursor_row "") app log
       = mkRun (Returned tt)
               (NeonaTUI.set_message
                  (match selected cursor_row (NeonaTUI.tasks app) with
                   | Some _ => "Usage: run <command> [args...]"
                   | None => no_task_selected
                   end) true app) log).
  { unfold cmd_run, get_selected_task. cbn.
    destruct (selected cursor_row (NeonaTUI.tasks app)); reflexivity. }
  assert (Hnote : exec net (cmd_note cursor_row "") app log
       = mkRun (Returned tt)
               (NeonaTUI.set_message
                  (match selected cursor_row (NeonaTUI.tasks app) with
                   | Some _ => "Usage: note <content>"
                   | None => no_task_selected
                   end) true app) log).
  { unfold cmd_note, get_selected_task. cbn.
    destruct (selected cursor_row (NeonaTUI.tasks app)); reflexivity. }
  split; [reflexivity|].
  split; [exact Hrun|].
  split; [exact Hnote|].
  split; [reflexivity|].
  split.
  - rewrite Hrun. unfold handle_command. cbn.
    destruct (selected cursor_row (NeonaTUI.tasks app)); reflexivity.
  - rewrite Hnote. unfold handle_command. cbn.
    destruct (selected cursor_row (NeonaTUI.tasks app)); reflexivity.
Qed.

(** C7 fails when no task is selected: run and note with an empty
    argument then report the missing selection, not the empty
    argument. *)
Lemma empty_run_without_selection :
  selected None (NeonaTUI.tasks (NeonaTUI.init "host")) = None
  /\ exec refused (cmd_run None "") (NeonaTUI.init "host") []
     = mkRun (Returned tt)
             (NeonaTUI.set_message
                "No task selected - use arrow keys to select" true
                (NeonaTUI.init "host")) []
  /\ exec refused (cmd_note None "") (NeonaTUI.init "host") []
     = mkRun (Returned tt)
             (NeonaTUI.set_message
                "No task selected - use arrow keys to select" true
                (NeonaTUI.init "host")) []
  /\ "No task selected - use arrow keys to select"
     <> "Usage: run <command> [args...]"
  /\ "No task selected - use arrow keys to select" <> "Usage: note <content>".
Proof. repeat split; try reflexivity; discriminate. Qed.

(** ** Selection *)

Lemma selected_valid (cursor_row : option Z) (tasks : list Task.t) (task : Task.t) :
  selected cursor_row tasks = Some task ->
  exists row,
    cursor_row = Some row
    /\ 0 <= row < Z.of_nat (List.length tasks)
    /\ nth_error tasks (Z.to_nat row) = Some task.
Proof.
  unfold selected. destruct cursor_row as [row|]; [|discriminate].
  destruct (0 <=? row) eqn:Hlo; [|discriminate].
  destruct (row <? Z.of_nat (List.length tasks)) eqn:Hhi; [|discriminate].
  simpl. intros H. exists row.
  apply Z.leb_le in Hlo. apply Z.ltb_lt in Hhi. auto.
Qed.

Lemma selected_out_of_range (row : Z) (tasks : list Task.t) :
  row < 0 \/ Z.of_nat (List.length tasks) <= row ->
  selected (Some row) tasks = None.
Proof.
  unfold selected. intros [H|H].
  - apply Z.leb_gt in H. rewrite H. reflexivity.
  - apply Z.ltb_ge in H. rewrite H, andb_false_r. reflexivity.
Qed.

Lemma selected_in_range (row : Z) (tasks : list Task.t) :
  0 <= row < Z.of_nat (List.length tasks) ->
  exists task, selected (Some row) tasks = Some task.
Proof.
  intros [Hlo Hhi]. unfold selected.
  apply Z.leb_le in Hlo. rewrite Hlo.
  pose proof Hhi as Hhi'. apply Z.ltb_lt in Hhi'. rewrite Hhi'. simpl.
  destruct (nth_error tasks (Z.to_nat row)) eqn:E; [eauto|].
  apply nth_error_None in E. lia.
Qed.

(** C6. The task a command acts on is always an entry of the current
    task list, at the index the cursor gives. A cursor outside the
    list, as after a refresh that left fewer tasks than the cursor's
    row, selects nothing. With nothing selected, claim, release, run
    and note set the error "No task selected - use arrow keys to
    select", send no request and leave the rest of the session as it
    was. *)
Theorem selection_is_checked :
  forall (cursor_row : option Z) (app : App),
    (forall task,
        selected cursor_row (NeonaTUI.tasks app) = Some task ->
        exists row,
          cursor_row = Some row
          /\ 0 <= row < Z.of_nat (List.length (NeonaTUI.tasks app))
          /\ nth_error (NeonaTUI.tasks app) (Z.to_nat row) = Some task)
    /\ (forall net log row,
        cursor_row = Some row ->
        Z.of_nat
          (List.length
             (NeonaTUI.tasks (state (exec net refresh_tasks app log)))) <= row ->
        selected cursor_row
                 (NeonaTUI.tasks (state (exec net refresh_tasks app log)))
        = None)
    /\ (selected cursor_row (NeonaTUI.tasks app) = None ->
        forall net log args_str,
          exec net (cmd_claim cursor_row) app log
          = mkRun (Returned tt)
                  (NeonaTUI.set_message no_task_selected true app) log
          /\ exec net (cmd_release cursor_row) app log
             = mkRun (Returned tt)
                     (NeonaTUI.set_message no_task_selected true app) log
          /\ exec net (cmd_run cursor_row args_str) app log
             = mkRun (Returned tt)
                     (NeonaTUI.set_message no_task_selected true app) log
          /\ exec net (cmd_note cursor_row args_str) app log
             = mkRun (Returned tt)
                     (NeonaTUI.set_message no_task_selected true app) log).
Proof.
  intros cursor_row app. split; [|split].
  - intros task. apply selected_valid.
  - intros net log row -> H. apply selected_out_of_range. right. exact H.
  - intros Hnone net log args_str.
    unfold cmd_claim, cmd_release, cmd_run, cmd_note, get_selected_task.
    cbn. rewrite Hnone. repeat split.
Qed.

(** The cursor on the second of two tasks; the daemon now holds one. *)
Example stale_cursor_selects_nothing :
  selected (Some 1) (NeonaTUI.tasks loaded)
  = Some (Task.mk "fedcba9876543210" "ship" "claimed" "tui@host")
  /\ let app' :=
       state (exec (daemon [json_task "t1" "a" "pending" ""])
                   refresh_tasks loaded []) in
     NeonaTUI.tasks app' = [Task.mk "t1" "a" "pending" ""]
     /\ selected (Some 1) (NeonaTUI.tasks app') = None
     /\ exec (daemon []) (cmd_claim (Some 1)) app' []
        = mkRun (Returned tt)
                (NeonaTUI.set_message no_task_selected true app') [].
Proof. repeat split. Qed.

(** ** The holder *)

Section KeepsClient.
Variable c : NeonaClient.

Lemma keeps_show_message msg error :
  Keeps (client_is c) (show_message msg error).
Proof. apply keeps_modify. intros s H; exact H. Qed.

Lemma keeps_update_status health n holder :
  Keeps (client_is c) (update_status health n holder).
Proof. apply keeps_modify. intros s H; exact H. Qed.

Ltac keeps :=
  repeat first
    [ apply keeps_show_message
    | apply keeps_update_status
    | apply keeps_gets
    | apply keeps_modify; intros ? ?H; exact H
    | apply keeps_stateless;
      first [ apply stateless_check_health | apply stateless_list_tasks
            | apply stateless_create_task | apply stateless_claim_task
            | apply stateless_release_task | apply stateless_run_task
            | apply stateless_add_memory | apply stateless_query_memory ]
    | apply keeps_bind; [ | intros ? ]
    | apply Keeps_Ret
    | apply Keeps_Raise
    | match goal with
      | |- Keeps _ (if ?b then _ else _) => destruct b
      | |- Keeps _ (match ?x with _ => _ end) => destruct x
      end ].

Lemma keeps_refresh_tasks : Keeps (client_is c) refresh_tasks.
Proof.
  unfold refresh_tasks. apply keeps_except_NeonaAPIError.
  - keeps.
  - intros e. keeps.
Qed.

Lemma keeps_handle_command cursor_row value :
  Keeps (client_is c) (handle_command cursor_row value).
Proof.
  unfold handle_command.
  destruct (negb (Py.nonempty (Py.strip value))); [constructor|].
  destruct (Py.split_max1 (Py.strip value)) as [|action0 rest]; [constructor|].
  apply keeps_try_except.
  - unfold cmd_add, cmd_claim, cmd_release, cmd_run, cmd_note, cmd_query,
      get_selected_task.
    repeat match goal with
           | |- Keeps _ (if ?b then _ else _) => destruct b
           end;
      keeps; try apply keeps_refresh_tasks.
  - intros e q He. unfold except_NeonaAPIError in He.
    destruct e; cbv beta iota in He; inversion He; subst. keeps.
Qed.

End KeepsClient.

(** C9, as the code has it. The holder is "tui@" and the host name, set
    when the client is built; no command changes the client of the
    session; claim, release and run send it as holder_id; a note sends
    task_id, content and tags, and no holder. *)
Theorem holder_id_is_fixed :
  forall (hostname base_url : string),
    let c := NeonaClient_init hostname base_url in
    holder_id c = "tui@" ++ hostname
    /\ (forall net cursor_row value app log,
        NeonaTUI.client app = c ->
        NeonaTUI.client
          (state (exec net (handle_command cursor_row value) app log)) = c)
    /\ (forall app cursor_row task,
        NeonaTUI.client app = c ->
        selected cursor_row (NeonaTUI.tasks app) = Some task ->
        awaited (start (cmd_claim cursor_row) app)
        = Some (mkRequest POST ("/tasks/" ++ Task.id task ++ "/claim") []
                  (Some [("holder_id", AStr ("tui@" ++ hostname));
                         ("ttl_sec", AInt 300)]))
        /\ awaited (start (cmd_release cursor_row) app)
           = Some (mkRequest POST ("/tasks/" ++ Task.id task ++ "/release") []
                     (Some [("holder_id", AStr ("tui@" ++ hostname))]))
        /\ (forall args_str command args,
            Py.split args_str = command :: args ->
            awaited (start (cmd_run cursor_row args_str) app)
            = Some (mkRequest POST ("/tasks/" ++ Task.id task ++ "/run") []
                      (Some [("holder_id", AStr ("tui@" ++ hostname));
                             ("command", AStr command);
                             ("args", AList args)])))
        /\ (forall content,
            Py.nonempty content = true ->
            awaited (start (cmd_note cursor_row content) app)
            = Some (mkRequest POST "/memory" []
                      (Some [("task_id", AStr (Task.id task));
                             ("content", AStr content);
                             ("tags", AStr "note")])))).
Proof.
  intros hostname base_url c.
  split; [reflexivity|]. split.
  - intros net cursor_row value app log H.
    apply (keeps_exec net (client_is c) _
             (keeps_handle_command c cursor_row value) app log H).
  - intros app cursor_row task Hc Hsel.
    unfold cmd_claim, cmd_release, cmd_run, cmd_note, get_selected_task.
    cbn. rewrite Hsel. cbn. rewrite Hc.
    split; [reflexivity|]. split; [reflexivity|]. split.
    + intros args_str command args Hsplit.
      rewrite (split_cons_nonempty _ _ _ Hsplit). cbn. rewrite Hsplit.
      cbn. rewrite Hc. reflexivity.
    + intros content Hne. rewrite Hne. cbn. rewrite Hc. reflexivity.
Qed.

(** C9 fails on notes: the request of a note carries no holder_id,
    where the request of a claim carries "tui@host". *)
Lemma note_carries_no_holder :
  awaited (start (cmd_note (Some 0) "remember") loaded)
  = Some (note_request "0123456789abcdef" "remember" "note")
  /\ carries "holder_id" (note_request "0123456789abcdef" "remember" "note")
     = None
  /\ sent (exec (daemon []) (cmd_note (Some 0) "remember") loaded [])
     = [note_request "0123456789abcdef" "remember" "note"]
  /\ awaited (start (cmd_claim (Some 0)) loaded)
     = Some (claim_request tui_host "0123456789abcdef" 300)
  /\ carries "holder_id" (claim_request tui_host "0123456789abcdef" 300)
     = Some (AStr "tui@host").
Proof. repeat split. Qed.

(** ** Strings *)

Lemma append_assoc (a b c : string) : (a ++ b) ++ c = a ++ b ++ c.
Proof. induction a as [|x a IH]; simpl; [|rewrite IH]; reflexivity. Qed.

Lemma append_nil_r (a : string) : a ++ "" = a.
Proof. induction a as [|x a IH]; simpl; [|rewrite IH]; reflexivity. Qed.

Lemma word_starts (w : string) :
  w <> "" -> no_space w = true -> starts_word w = true.
Proof.
  destruct w as [|c w]; [congruence|]. simpl. intros _ H.
  apply andb_true_iff in H. tauto.
Qed.

Lemma word_ends (w : string) :
  w <> "" -> no_space w = true -> ends_word w = true.
Proof.
  induction w as [|c w IH]; [congruence|]. intros _ H. simpl in H.
  apply andb_true_iff in H. destruct H as [Hc Hw].
  destruct w as [|d w]; [exact Hc|].
  change (ends_word (String d w) = true). apply IH; [discriminate|exact Hw].
Qed.

Lemma starts_word_app (a b : string) :
  starts_word a = true -> starts_word (a ++ b) = true.
Proof. destruct a; simpl; [discriminate|auto]. Qed.

Lemma ends_word_app (a b : string) :
  b <> "" -> ends_word (a ++ b) = ends_word b.
Proof.
  intros Hb. induction a as [|c a IH]; [reflexivity|].
  simpl. destruct (a ++ b) eqn:E; [|exact IH].
  destruct a; simpl in E; [congruence|discriminate].
Qed.

Lemma space_not_word (g : string) :
  all_space g = true -> ends_word g = false /\ starts_word g = false.
Proof.
  induction g as [|c g IH]; [auto|]. simpl. intros H.
  apply andb_true_iff in H. destruct H as [Hc Hg].
  rewrite Hc. split; [|reflexivity].
  destruct g; [reflexivity|]. apply IH; exact Hg.
Qed.

Lemma gap_starts (g s : string) :
  g <> "" -> all_space g = true -> starts_word (g ++ s) = false.
Proof.
  destruct g as [|c g]; [congruence|]. simpl. intros _ H.
  apply andb_true_iff in H. destruct H as [-> _]. reflexivity.
Qed.

Lemma lstrip_space (g s : string) :
  all_space g = true -> Py.lstrip (g ++ s) = Py.lstrip s.
Proof.
  induction g as [|c g IH]; [reflexivity|]. simpl. intros H.
  apply andb_true_iff in H. destruct H as [-> Hg]. auto.
Qed.

Lemma lstrip_word (s : string) : starts_word s = true -> Py.lstrip s = s.
Proof.
  destruct s as [|c s]; [discriminate|]. simpl. intros H.
  apply negb_true_iff in H. rewrite H. reflexivity.
Qed.

Lemma rstrip_space (t : string) : all_space t = true -> Py.rstrip t = "".
Proof.
  induction t as [|c t IH]; [reflexivity|]. simpl. intros H.
  apply andb_true_iff in H. destruct H as [-> Ht]. rewrite (IH Ht).
  reflexivity.
Qed.

Lemma rstrip_app_space (s t : string) :
  all_space t = true -> Py.rstrip (s ++ t) = Py.rstrip s.
Proof.
  intros Ht. induction s as [|c s IH]; simpl.
  - apply rstrip_space; exact Ht.
  - rewrite IH. reflexivity.
Qed.

Lemma rstrip_word (s : string) : ends_word s = true -> Py.rstrip s = s.
Proof.
  induction s as [|c s IH]; [discriminate|]. simpl.
  destruct s as [|d s].
  - intros H. apply negb_true_iff in H. simpl. rewrite H. reflexivity.
  - intros H. rewrite (IH H). reflexivity.
Qed.

Lemma rstrip_app_word (a b : string) :
  ends_word b = true -> Py.rstrip (a ++ b) = a ++ b.
Proof.
  intros H. apply rstrip_word. rewrite ends_word_app; [exact H|].
  destruct b; [discriminate|discriminate].
Qed.

Lemma strip_space (s : string) : all_space s = true -> Py.strip s = "".
Proof.
  intros H. unfold Py.strip.
  rewrite <- (append_nil_r s), (lstrip_space s "" H). reflexivity.
Qed.

Lemma token_word (w r : string) :
  no_space w = true -> starts_word r = false -> Py.token (w ++ r) = (w, r).
Proof.
  intros Hw Hr. induction w as [|c w IH]; simpl.
  - destruct r as [|d r]; [reflexivity|]. simpl in Hr.
    apply negb_false_iff in Hr. simpl. rewrite Hr. reflexivity.
  - simpl in Hw. apply andb_true_iff in Hw. destruct Hw as [Hc Hw].
    apply negb_true_iff in Hc. rewrite Hc, (IH Hw). reflexivity.
Qed.

Lemma split_max1_eq (s : string) :
  Py.split_max1 s =
  match Py.lstrip s with
  | EmptyString => []
  | _ =>
      match Py.lstrip (snd (Py.token (Py.lstrip s))) with
      | EmptyString => [fst (Py.token (Py.lstrip s))]
      | r' => [fst (Py.token (Py.lstrip s)); r']
      end
  end.
Proof.
  unfold Py.split_max1. destruct (Py.lstrip s) as [|c s1]; [reflexivity|].
  destruct (Py.token (String c s1)) as [t r]. reflexivity.
Qed.

(** What [strip] and [split(maxsplit=1)] make of a line of the grammar. *)
Lemma strip_line (line verb rest : string) :
  Line line verb rest ->
  Py.nonempty (Py.strip line) = true
  /\ Py.split_max1 (Py.strip line)
     = verb :: match rest with EmptyString => [] | _ => [rest] end.
Proof.
  intros H. destruct H as
    [lead verb trail Hlead Htrail Hne Hverb
    |lead verb gap rest trail Hlead Htrail Hne Hverb Hgne Hgap Hs He].
  - assert (Hstrip : Py.strip (lead ++ verb ++ trail) = verb).
    { unfold Py.strip. rewrite (lstrip_space _ _ Hlead).
      rewrite lstrip_word by (apply starts_word_app, word_starts; assumption).
      rewrite (rstrip_app_space _ _ Htrail).
      apply rstrip_word, word_ends; assumption. }
    rewrite Hstrip. split; [destruct verb; [congruence|reflexivity]|].
    rewrite split_max1_eq.
    rewrite lstrip_word by (apply word_starts; assumption).
    assert (Htok : Py.token verb = (verb, "")).
    { rewrite <- (append_nil_r verb) at 1. apply token_word; auto. }
    rewrite Htok. destruct verb; [congruence|reflexivity].
  - assert (Hstrip : Py.strip (lead ++ verb ++ gap ++ rest ++ trail)
                     = verb ++ gap ++ rest).
    { unfold Py.strip. rewrite (lstrip_space _ _ Hlead).
      rewrite lstrip_word by (apply starts_word_app, word_starts; assumption).
      rewrite <- (append_assoc gap rest trail).
      rewrite <- (append_assoc verb (gap ++ rest) trail).
      rewrite (rstrip_app_space _ _ Htrail).
      rewrite <- (append_assoc verb gap rest).
      rewrite (rstrip_app_word _ _ He). reflexivity. }
    rewrite Hstrip. split; [destruct verb; [congruence|reflexivity]|].
    rewrite split_max1_eq.
    rewrite lstrip_word by (apply starts_word_app, word_starts; assumption).
    rewrite (token_word _ _ Hverb (gap_starts _ _ Hgne Hgap)). simpl fst; simpl snd.
    rewrite (lstrip_space _ _ Hgap), (lstrip_word _ Hs).
    destruct verb; [congruence|]. destruct rest; [discriminate|reflexivity].
Qed.

Lemma length_append (a b : string) :
  String.length (a ++ b) = (String.length a + String.length b)%nat.
Proof. induction a as [|c a IH]; simpl; [|rewrite IH]; reflexivity. Qed.

Lemma lstrip_cut (s : string) :
  exists lead,
    all_space lead = true /\ s = lead ++ Py.lstrip s
    /\ (Py.lstrip s = "" \/ starts_word (Py.lstrip s) = true).
Proof.
  induction s as [|c s (lead & Hl & Heq & Hm)].
  - exists "". auto.
  - simpl. destruct (Py.isspace c) eqn:Hc.
    + exists (String c lead). simpl. rewrite Hc, Hl, <- Heq. auto.
    + exists "". simpl. rewrite Hc. auto.
Qed.

Lemma rstrip_cut (s : string) :
  exists trail,
    all_space trail = true /\ s = Py.rstrip s ++ trail
    /\ (Py.rstrip s = "" \/ ends_word (Py.rstrip s) = true).
Proof.
  induction s as [|c s (trail & Ht & Heq & Hm)].
  - exists "". auto.
  - simpl. destruct (Py.rstrip s) as [|d r] eqn:Hr.
    + destruct (Py.isspace c) eqn:Hc.
      * exists (String c trail). simpl in Heq. subst trail.
        simpl. rewrite Hc, Ht. auto.
      * exists trail. simpl in Heq. subst trail.
        simpl. rewrite Hc. auto.
    + exists trail. split; [exact Ht|]. split.
      * simpl. simpl in Heq. rewrite <- Heq. reflexivity.
      * right. destruct Hm as [Hm|Hm]; [discriminate|exact Hm].
Qed.

Lemma rstrip_keeps_start (s : string) :
  starts_word s = true -> starts_word (Py.rstrip s) = true.
Proof.
  destruct s as [|c s]; [discriminate|]. simpl. intros H.
  destruct (Py.rstrip s); [|exact H].
  apply negb_true_iff in H. rewrite H. simpl. rewrite H. reflexivity.
Qed.

Lemma token_cut (s : string) :
  s = fst (Py.token s) ++ snd (Py.token s)
  /\ no_space (fst (Py.token s)) = true
  /\ starts_word (snd (Py.token s)) = false.
Proof.
  induction s as [|c s (Heq & Hw & Hr)]; [auto|].
  simpl. destruct (Py.isspace c) eqn:Hc.
  - simpl. rewrite Hc. auto.
  - destruct (Py.token s) as [t r]. simpl in *. rewrite Hc, <- Heq. auto.
Qed.

(** Every line is blank or a line of the grammar. *)
Lemma line_total (line : string) :
  all_space line = true \/ exists verb rest, Line line verb rest.
Proof.
  destruct (lstrip_cut line) as (lead & Hlead & Hline & [Hm|Hm]).
  { left. rewrite Hline, Hm, append_nil_r. exact Hlead. }
  right.
  destruct (rstrip_cut (Py.lstrip line)) as (trail & Htrail & Hmid & Hcore).
  pose proof (rstrip_keeps_start _ Hm) as Hstart.
  set (core := Py.rstrip (Py.lstrip line)) in *.
  destruct Hcore as [Hcore|Hend]; [rewrite Hcore in Hstart; discriminate|].
  destruct (token_cut core) as (Hcut & Hverb & Hr).
  set (verb := fst (Py.token core)) in *.
  set (r := snd (Py.token core)) in *.
  assert (Hne : verb <> "").
  { intros E. rewrite E in Hcut. simpl in Hcut. rewrite <- Hcut in Hr.
    congruence. }
  destruct r as [|d r'] eqn:Er.
  - exists verb, "". rewrite Hline, Hmid, Hcut, append_nil_r.
    constructor; assumption.
  - rewrite <- Er in *.
    destruct (lstrip_cut r) as (gap & Hgap & Hrcut & Hrest).
    assert (Hrne : r <> "") by (rewrite Er; discriminate).
    assert (Hrend : ends_word r = true).
    { rewrite Hcut in Hend. rewrite ends_word_app in Hend; assumption. }
    assert (Hs : starts_word (Py.lstrip r) = true).
    { destruct Hrest as [E|E]; [|exact E].
      rewrite E, append_nil_r in Hrcut. rewrite Hrcut in Hrend.
      destruct (space_not_word _ Hgap). congruence. }
    assert (Hgne : gap <> "").
    { intros E. rewrite E in Hrcut. simpl in Hrcut. rewrite <- Hrcut in Hs.
      congruence. }
    assert (He : ends_word (Py.lstrip r) = true).
    { rewrite Hrcut in Hrend. rewrite ends_word_app in Hrend; [exact Hrend|].
      intros E. rewrite E in Hs. discriminate. }
    exists verb, (Py.lstrip r).
    rewrite Hline, Hmid, Hcut. rewrite Hrcut at 1.
    rewrite (append_assoc verb), (append_assoc gap).
    constructor; assumption.
Qed.

Lemma split_from_space (g s : string) :
  all_space g = true -> Py.split_from "" (g ++ s) = Py.split_from "" s.
Proof.
  induction g as [|c g IH]; [reflexivity|]. simpl. intros H.
  apply andb_true_iff in H. destruct H as [-> Hg]. auto.
Qed.

Lemma split_from_word (w : string) :
  forall acc r,
    no_space w = true ->
    Py.split_from acc (w ++ r) = Py.split_from (acc ++ w) r.
Proof.
  induction w as [|c w IH]; intros acc r H; simpl.
  - rewrite append_nil_r. reflexivity.
  - simpl in H. apply andb_true_iff in H. destruct H as [Hc Hw].
    apply negb_true_iff in Hc. rewrite Hc, (IH _ _ Hw), append_assoc.
    reflexivity.
Qed.

Lemma split_from_end (w r : string) :
  w <> "" -> starts_word r = false ->
  Py.split_from w r = w :: Py.split_from "" r.
Proof.
  intros Hw Hr. destruct r as [|c r]; simpl.
  - destruct w; [congruence|reflexivity].
  - simpl in Hr. apply negb_false_iff in Hr. rewrite Hr.
    destruct w; [congruence|reflexivity].
Qed.

(** [split] gives the words of its argument, and every string has
    words. *)
Lemma split_words (s : string) (l : list string) :
  Words s l -> Py.split s = l.
Proof.
  unfold Py.split. induction 1 as [gap Hgap|gap w rest l Hgap Hne Hw Hr _ IH].
  - rewrite <- (append_nil_r gap), (split_from_space _ _ Hgap). reflexivity.
  - rewrite (split_from_space _ _ Hgap), (split_from_word _ _ _ Hw).
    simpl. rewrite (split_from_end _ _ Hne Hr), IH. reflexivity.
Qed.

Lemma words_total (n : nat) :
  forall s, (String.length s <= n)%nat -> exists l, Words s l.
Proof.
  induction n as [|n IH]; intros s Hn.
  - destruct s; [|simpl in Hn; lia]. exists []. constructor. reflexivity.
  - destruct (lstrip_cut s) as (lead & Hlead & Hs & [Hm|Hm]).
    + exists []. rewrite Hs, Hm, append_nil_r. constructor. exact Hlead.
    + destruct (token_cut (Py.lstrip s)) as (Hcut & Hw & Hr).
      set (w := fst (Py.token (Py.lstrip s))) in *.
      set (r := snd (Py.token (Py.lstrip s))) in *.
      assert (Hne : w <> "").
      { intros E. rewrite E in Hcut. simpl in Hcut. rewrite <- Hcut in Hr.
        congruence. }
      assert (Hlen : (String.length r <= n)%nat).
      { assert (H := f_equal String.length Hs).
        rewrite length_append, Hcut, length_append in H.
        destruct w; [congruence|]. simpl in H. lia. }
      destruct (IH r Hlen) as [l Hl].
      exists (w :: l). rewrite Hs, Hcut. constructor; assumption.
Qed.

Lemma split_is_words (s : string) : Words s (Py.split s).
Proof.
  destruct (words_total (String.length s) s (le_n _)) as [l Hl].
  rewrite (split_words _ _ Hl). exact Hl.
Qed.

(** ** The command grammar *)

Lemma handle_command_line (cursor_row : option Z) (line verb rest : string) :
  Line line verb rest ->
  handle_command cursor_row line =
  guarded
    (let action := Py.lower verb in
     if action =? "add" then cmd_add rest
     else if (action =? "refresh") || (action =? "r") then refresh_tasks
     else if action =? "claim" then cmd_claim cursor_row
     else if action =? "release" then cmd_release cursor_row
     else if action =? "run" then cmd_run cursor_row rest
     else if action =? "note" then cmd_note cursor_row rest
     else if action =? "query" then cmd_query rest
     else show_message (unknown_command action) true)%string.
Proof.
  intros H. destruct (strip_line _ _ _ H) as [Hne Hsplit].
  unfold handle_command. rewrite Hne, Hsplit. simpl negb. cbv iota.
  destruct rest; reflexivity.
Qed.

(** C8. A line that is blank once trimmed does nothing: no error, no
    message. Any other line is a verb, and, after the first run of
    whitespace, a remainder that runs to the end of the trimmed line.
    The verb, in lower case, selects the command: add, refresh or r,
    claim, release, run, note, query; any other verb sets the error
    message "Unknown command: <verb> (try: ...)" and sends nothing.
    run splits its remainder into words at whitespace: the first is
    the command, the others are its arguments. *)
Theorem command_grammar :
  forall (cursor_row : option Z) (line : string),
    (all_space line = true -> handle_command cursor_row line = Ret tt)
    /\ (all_space line = true \/ exists verb rest, Line line verb rest)
    /\ (forall verb rest,
        Line line verb rest ->
        (Py.lower verb = "add" ->
         handle_command cursor_row line = guarded (cmd_add rest))
        /\ (Py.lower verb = "refresh" \/ Py.lower verb = "r" ->
            handle_command cursor_row line = guarded refresh_tasks)
        /\ (Py.lower verb = "claim" ->
            handle_command cursor_row line = guarded (cmd_claim cursor_row))
        /\ (Py.lower verb = "release" ->
            handle_command cursor_row line = guarded (cmd_release cursor_row))
        /\ (Py.lower verb = "run" ->
            handle_command cursor_row line = guarded (cmd_run cursor_row rest))
        /\ (Py.lower verb = "note" ->
            handle_command cursor_row line = guarded (cmd_note cursor_row rest))
        /\ (Py.lower verb = "query" ->
            handle_command cursor_row line = guarded (cmd_query rest))
        /\ (Py.lower verb <> "add" -> Py.lower verb <> "refresh" ->
            Py.lower verb <> "r" -> Py.lower verb <> "claim" ->
            Py.lower verb <> "release" -> Py.lower verb <> "run" ->
            Py.lower verb <> "note" -> Py.lower verb <> "query" ->
            forall net app log,
              exec net (handle_command cursor_row line) app log
              = mkRun (Returned tt)
                      (NeonaTUI.set_message
                         ("Unknown command: " ++ Py.lower verb
                          ++ " (try: add, claim, release, run, note, query, refresh)")
                         true app)
                      log))
    /\ (forall args_str,
        Words args_str (Py.split args_str)
        /\ forall l, Words args_str l -> Py.split args_str = l)
    /\ (forall app task args_str command args,
        selected cursor_row (NeonaTUI.tasks app) = Some task ->
        Py.split args_str = command :: args ->
        awaited (start (cmd_run cursor_row args_str) app)
        = Some (run_request (NeonaTUI.client app) (Task.id task) command args))
    /\ (Line "run build --flag" "run" "build --flag"
        /\ Py.split "build --flag" = ["build"; "--flag"]
        /\ awaited (start (handle_command (Some 0) "run build --flag") loaded)
           = Some (run_request tui_host "0123456789abcdef" "build" ["--flag"])).
Proof.
  intros cursor_row line.
  split; [|split; [|split; [|split; [|split]]]].
  - intros H. unfold handle_command. rewrite (strip_space _ H). reflexivity.
  - apply line_total.
  - intros verb rest H. rewrite (handle_command_line _ _ _ _ H). cbv zeta.
    repeat split.
    + intros ->. reflexivity.
    + intros [-> | ->]; reflexivity.
    + intros ->. reflexivity.
    + intros ->. reflexivity.
    + intros ->. reflexivity.
    + intros ->. reflexivity.
    + intros ->. reflexivity.
    + intros H1 H2 H3 H4 H5 H6 H7 H8 net app log.
      apply String.eqb_neq in H1, H2, H3, H4, H5, H6, H7, H8.
      rewrite H1, H2, H3, H4, H5, H6, H7, H8. reflexivity.
  - intros args_str. split; [apply split_is_words | apply split_words].
  - intros app task args_str command args Hsel Hsplit.
    unfold cmd_run, get_selected_task. cbn. rewrite Hsel.
    rewrite (split_cons_nonempty _ _ _ Hsplit). cbn. rewrite Hsplit.
    reflexivity.
  - split; [|split; reflexivity].
    apply (Line_verb_rest "" "run" " " "build --flag" "");
      first [reflexivity | discriminate].
Qed.

Example command_grammar_cases :
  Py.lower "ReFresh" = "refresh"
  /\ Line "  ReFresh  " "ReFresh" ""
  /\ Line "add  write the  docs " "add" "write the  docs"
  /\ exec refused (handle_command None " frobnicate now ")
          (NeonaTUI.init "host") []
     = mkRun (Returned tt)
             (NeonaTUI.set_message
                "Unknown command: frobnicate (try: add, claim, release, run, note, query, refresh)"
                true (NeonaTUI.init "host")) []
  /\ exec refused (handle_command None "   ") (NeonaTUI.init "host") []
     = mkRun (Returned tt) (NeonaTUI.init "host") [].
Proof.
  split; [reflexivity|]. split.
  { apply (Line_verb "  " "ReFresh" "  "); first [reflexivity | discriminate]. }
  split.
  { apply (Line_verb_rest "" "add" "  " "write the  docs" " ");
      first [reflexivity | discriminate]. }
  split; reflexivity.
Qed.

(** ** Commands in flight *)

Lemma exec_finished {St A} (net : Transport) (p : Prog St A) :
  forall s log r s',
    start p s = Finished r s' -> exec net p s log = mkRun r s' log.
Proof.
  induction p as [a|e|k IH|s0 k IH|r0 k IH]; intros s log r s' H;
    simpl in *; try discriminate; eauto.
  - inversion H; subst; reflexivity.
  - inversion H; subst; reflexivity.
Qed.

Lemma serial_raised net messages (run : Run App unit) e :
  result run = Raised e -> serial net messages run = run.
Proof. intros H. destruct messages; simpl; [|rewrite H]; reflexivity. Qed.

Lemma serial_app net ms1 :
  forall ms2 run,
    serial net (ms1 ++ ms2) run = serial net ms2 (serial net ms1 run).
Proof.
  induction ms1 as [|m ms1 IH]; intros ms2 run; [reflexivity|].
  cbn [app serial]. destruct (result run) as [u|e] eqn:E.
  - apply IH.
  - symmetry. apply (serial_raised net ms2 run e E).
Qed.

Lemma dispatch_cons s log m rest :
  Pump.dispatch s log (m :: rest)
  = Pump.settle (start (Pump.handler m) s) log rest.
Proof.
  unfold Pump.settle. cbn [Pump.dispatch].
  destruct (start (Pump.handler m) s) as [[u|e] s'|s' r k]; reflexivity.
Qed.

(** *** The pump stays steady *)

Lemma steady_dispatch queue : forall s log, steady (Pump.dispatch s log queue).
Proof.
  induction queue as [|m rest IH]; intros s log; [reflexivity|].
  cbn [Pump.dispatch].
  destruct (start (Pump.handler m) s) as [[u|e] s'|s' r k];
    [apply IH|reflexivity|exact I].
Qed.

Lemma steady_settle st log queue : steady (Pump.settle st log queue).
Proof.
  destruct st as [[u|e] s|s r k];
    [apply steady_dispatch|reflexivity|exact I].
Qed.

Lemma steady_step net p e : steady p -> steady (Pump.step net p e).
Proof.
  intros H. destruct e as [m|]; simpl.
  - unfold Pump.post.
    destruct (Pump.crashed p) as [x|] eqn:Ec; [exact H|].
    destruct (Pump.running p) as [[r k]|] eqn:Er.
    + exact I.
    + apply steady_dispatch.
  - unfold Pump.arrive.
    destruct (Pump.running p) as [[r k]|]; [apply steady_settle|exact H].
Qed.

Lemma steady_steps net events :
  forall p, steady p -> steady (Pump.steps net p events).
Proof.
  induction events as [|e events IH]; intros p H; [exact H|].
  apply IH, steady_step, H.
Qed.

Lemma steady_waiting p :
  steady p -> Pump.outstanding p <> [] -> Pump.crashed p = None.
Proof.
  unfold steady, Pump.outstanding. intros H Hr.
  destruct (Pump.crashed p) as [x|]; [|reflexivity].
  rewrite H in Hr. contradiction.
Qed.

(** *** Every schedule comes to the serial run *)

Lemma finish_dispatch net queue :
  forall s log,
    finish net (Pump.dispatch s log queue)
    = serial net queue (mkRun (Returned tt) s log).
Proof.
  induction queue as [|m rest IH]; intros s log; [reflexivity|].
  cbn [Pump.dispatch serial result state sent].
  destruct (start (Pump.handler m) s) as [[[]|e] s'|s' r k] eqn:E.
  - rewrite IH, (exec_finished net _ _ log _ _ E). reflexivity.
  - rewrite (exec_finished net _ _ log _ _ E).
    rewrite (serial_raised net rest _ e) by reflexivity. reflexivity.
  - rewrite (exec_start net _ _ log _ _ _ E). reflexivity.
Qed.

Lemma finish_settle net (q : Prog App unit) s log queue :
  finish net (Pump.settle (start q s) log queue)
  = serial net queue (exec net q s log).
Proof.
  destruct (start q s) as [[[]|e] s'|s' r k] eqn:E.
  - rewrite (exec_finished net _ _ log _ _ E). apply finish_dispatch.
  - rewrite (exec_finished net _ _ log _ _ E).
    rewrite (serial_raised net queue _ e) by reflexivity. reflexivity.
  - rewrite (exec_start net _ _ log _ _ _ E). reflexivity.
Qed.

Lemma finish_step net p e :
  steady p ->
  finish net (Pump.step net p e) = serial net (Pump.posted [e]) (finish net p).
Proof.
  intros H. destruct e as [m|]; cbn [Pump.step Pump.posted].
  - unfold Pump.post. unfold steady in H.
    destruct (Pump.crashed p) as [x|] eqn:Ec.
    + symmetry. apply (serial_raised net [m] _ x).
      unfold finish. rewrite Ec. unfold Pump.outcome. rewrite Ec.
      reflexivity.
    + destruct (Pump.running p) as [[r k]|] eqn:Er.
      * assert (Hf : finish net p
                     = serial net (Pump.pending p)
                         (exec net (k (net (Pump.answered p) r))
                               (Pump.session p) (Pump.answered p ++ [r])%list)).
        { unfold finish. rewrite Ec, Er. reflexivity. }
        rewrite Hf. unfold finish.
        cbn [Pump.crashed Pump.running Pump.pending Pump.session
             Pump.answered].
        apply serial_app.
      * assert (Hf : finish net p
                     = serial net (Pump.pending p)
                         (mkRun (Returned tt) (Pump.session p)
                                (Pump.answered p))).
        { unfold finish, Pump.outcome. rewrite Ec, Er. reflexivity. }
        rewrite Hf, finish_dispatch. apply serial_app.
  - unfold Pump.arrive, steady in *.
    destruct (Pump.running p) as [[r k]|] eqn:Er; [|reflexivity].
    rewrite finish_settle. unfold finish. rewrite Er.
    destruct (Pump.crashed p); [discriminate|reflexivity].
Qed.

Lemma finish_steps net events :
  forall p,
    steady p ->
    finish net (Pump.steps net p events)
    = serial net (Pump.posted events) (finish net p).
Proof.
  induction events as [|e events IH]; intros p H; [reflexivity|].
  change (Pump.steps net p (e :: events))
    with (Pump.steps net (Pump.step net p e) events).
  rewrite (IH _ (steady_step net p e H)), (finish_step net p e H).
  rewrite <- serial_app. destruct e; reflexivity.
Qed.

Lemma finish_mount net hostname :
  finish net (Pump.mount hostname) = from_mount net hostname [].
Proof. unfold Pump.mount. apply finish_settle. Qed.

(** *** Every handler comes to its end *)

Lemma stops_settle net queue :
  (forall s log,
      exists n,
        stopped (Pump.steps net (Pump.dispatch s log queue)
                            (repeat Pump.Arrive n))
                (serial net queue (mkRun (Returned tt) s log))) ->
  forall (q : Prog App unit) s log st,
    start q s = st ->
    exists n,
      stopped (Pump.steps net (Pump.settle st log queue)
                          (repeat Pump.Arrive n))
              (serial net queue (exec net q s log)).
Proof.
  intros Hq q.
  induction q as [[]|e|k IH|s0 k IH|r k IH]; intros s log st E;
    simpl in E; subst st.
  - apply Hq.
  - exists 0%nat. cbn [repeat Pump.steps fold_left Pump.settle exec].
    rewrite (serial_raised net queue _ e) by reflexivity.
    repeat split. discriminate.
  - apply (IH s s log _ eq_refl).
  - apply (IH s0 log _ eq_refl).
  - destruct (IH (net log r) s (log ++ [r])%list _ eq_refl) as [n Hn].
    exists (S n). exact Hn.
Qed.

Lemma stops_dispatch net queue :
  forall s log,
    exists n,
      stopped (Pump.steps net (Pump.dispatch s log queue)
                          (repeat Pump.Arrive n))
              (serial net queue (mkRun (Returned tt) s log)).
Proof.
  induction queue as [|m rest IH]; intros s log.
  - exists 0%nat. repeat split.
  - rewrite dispatch_cons.
    apply (stops_settle net rest IH (Pump.handler m) s log _ eq_refl).
Qed.

Lemma stops net p :
  steady p ->
  exists n,
    stopped (Pump.steps net p (repeat Pump.Arrive n)) (finish net p).
Proof.
  intros H. unfold steady in H. unfold finish.
  destruct (Pump.crashed p) as [x|] eqn:Ec.
  - exists 0%nat. cbn [repeat Pump.steps fold_left].
    unfold stopped, Pump.outstanding. rewrite H, Ec.
    repeat split. discriminate.
  - destruct (Pump.running p) as [[r k]|] eqn:Er.
    + destruct (stops_settle net (Pump.pending p) (stops_dispatch net _)
                  (k (net (Pump.answered p) r)) (Pump.session p)
                  (Pump.answered p ++ [r])%list _ eq_refl) as [n Hn].
      exists (S n). cbn [repeat]. unfold Pump.steps in *. cbn [fold_left].
      cbn [Pump.step]. unfold Pump.arrive. rewrite Er. exact Hn.
    + exists 0%nat. cbn [repeat Pump.steps fold_left].
      unfold stopped, Pump.outstanding. rewrite Er, H.
      repeat split.
Qed.

(** C1, as the code and its framework have it. The session has no busy
    flag and no message that says the session is busy: the handlers
    are serialized by the message pump of the application, which
    awaits one handler before it takes the next message. Whatever the
    operator sends and whenever the answers of the daemon arrive: at
    most one request is outstanding; a message that arrives while a
    request is outstanding is neither turned away nor handled at once,
    it joins the queue and leaves the session, the request outstanding
    and the requests answered as they are; and once the answers have
    arrived no request is outstanding, no message waits unless an
    exception has ended the application, and the session and the
    requests sent are those of [on_mount] and then the handlers of the
    messages run one after the other in the order of their arrival,
    each to its end before the next starts. *)
Theorem commands_are_queued :
  forall (net : Transport) (hostname : string) (events : list Pump.Event),
    let p := Pump.steps net (Pump.mount hostname) events in
    (List.length (Pump.outstanding p) <= 1)%nat
    /\ (forall m,
          Pump.outstanding p <> [] ->
          Pump.session (Pump.post m p) = Pump.session p
          /\ Pump.outstanding (Pump.post m p) = Pump.outstanding p
          /\ Pump.answered (Pump.post m p) = Pump.answered p
          /\ Pump.pending (Pump.post m p) = (Pump.pending p ++ [m])%list)
    /\ exists n,
         let q := Pump.steps net p (repeat Pump.Arrive n) in
         Pump.outstanding q = []
         /\ (Pump.crashed q = None -> Pump.pending q = [])
         /\ Pump.outcome q = from_mount net hostname (Pump.posted events).
Proof.
  intros net hostname events p.
  assert (Hp : steady p).
  { apply steady_steps. unfold Pump.mount. apply steady_settle. }
  split; [|split].
  - unfold Pump.outstanding. destruct (Pump.running p) as [[r k]|]; simpl; lia.
  - intros m Hr. pose proof (steady_waiting p Hp Hr) as Hc.
    unfold Pump.post, Pump.outstanding in *. rewrite Hc.
    destruct (Pump.running p) as [[r k]|] eqn:Er; [|contradiction].
    repeat split.
  - destruct (stops net p Hp) as [n Hn]. exists n.
    unfold p in Hn at 2.
    rewrite finish_steps, finish_mount in Hn
      by (unfold Pump.mount; apply steady_settle).
    exact Hn.
Qed.

(** C1 fails. The session has loaded its tasks and nothing runs. A
    refresh is submitted and waits for the daemon. A claim submitted
    meanwhile is not turned away: it waits in the queue, the session
    and its message box are as they were, and the message shown does
    not say "busy". Nor does it run at once: the one request
    outstanding is still the health check of the refresh. Once the
    refresh has its two answers the claim is handled, and its request
    goes out; three answers later the claim and its own refresh are
    over, and every request has been sent in turn. *)
Lemma second_command_is_queued :
  let net := daemon two_tasks_json in
  let claim := Pump.Submitted (Some 0) "claim" in
  let p1 := Pump.post (Pump.Submitted None "refresh") at_rest in
  let p2 := Pump.post claim p1 in
  let p3 := Pump.steps net p2 [Pump.Arrive; Pump.Arrive] in
  let p4 := Pump.steps net p3 [Pump.Arrive; Pump.Arrive; Pump.Arrive] in
  (Pump.session at_rest = loaded
   /\ Pump.outstanding at_rest = [] /\ Pump.pending at_rest = [])
  /\ (Pump.outstanding p1 = [health_request] /\ Pump.pending p1 = [])
  /\ (Pump.outstanding p2 = [health_request]
      /\ Pump.pending p2 = [claim]
      /\ Pump.session p2 = loaded
      /\ NeonaTUI.message_box (Pump.session p2)
         = Some ("Loaded 2 tasks", false)
      /\ Py.contains "busy" "Loaded 2 tasks" = false)
  /\ (Pump.outstanding p3 = [claim_request tui_host "0123456789abcdef" 300]
      /\ Pump.pending p3 = []
      /\ Pump.answered p3
         = [health_request; tasks_request; health_request; tasks_request])
  /\ (Pump.outstanding p4 = [] /\ Pump.pending p4 = []
      /\ Pump.crashed p4 = None
      /\ NeonaTUI.message (Pump.session p4) = "Loaded 2 tasks"
      /\ Pump.answered p4
         = [health_request; tasks_request; health_request; tasks_request;
            claim_request tui_host "0123456789abcdef" 300;
            health_request; tasks_request]).
Proof. repeat split. Qed.

(** ** The pump among the interleavings *)

Lemma step_as_event (l : Loop.t) (m : Pump.Message) :
  step l (as_event m)
  = Loop.settle (Loop.in_flight l) (Loop.escaped l)
                (start (Pump.handler m) (Loop.session l)).
Proof. destruct m; reflexivity. Qed.

Lemma steps_app (l : Loop.t) (es1 es2 : list Event) :
  steps l (es1 ++ es2) = steps (steps l es1) es2.
Proof. apply fold_left_app. Qed.

Lemma covers_dispatch queue :
  forall s log,
    exists loop_events,
      covers (steps (Loop.mk s [] []) loop_events) (Pump.dispatch s log queue).
Proof.
  induction queue as [|m rest IH]; intros s log.
  - exists []. repeat split.
  - cbn [Pump.dispatch].
    pose proof (step_as_event (Loop.mk s [] []) m) as Hm.
    cbn [Loop.in_flight Loop.escaped Loop.session] in Hm.
    destruct (start (Pump.handler m) s) as [[u|e] s'|s' r k].
    + destruct (IH s' log) as [les Hles].
      exists (as_event m :: les).
      change (steps (Loop.mk s [] []) (as_event m :: les))
        with (steps (step (Loop.mk s [] []) (as_event m)) les).
      rewrite Hm. exact Hles.
    + exists [as_event m].
      change (steps (Loop.mk s [] []) [as_event m])
        with (step (Loop.mk s [] []) (as_event m)).
      rewrite Hm. repeat split.
    + exists [as_event m].
      change (steps (Loop.mk s [] []) [as_event m])
        with (step (Loop.mk s [] []) (as_event m)).
      rewrite Hm. repeat split.
Qed.

Lemma covers_settle (st : Stage App unit) log queue :
  exists loop_events,
    covers (steps (Loop.settle [] [] st) loop_events)
           (Pump.settle st log queue).
Proof.
  destruct st as [[u|e] s|s r k].
  - apply covers_dispatch.
  - exists []. repeat split.
  - exists []. repeat split.
Qed.

Lemma loop_eta (l : Loop.t) :
  l = Loop.mk (Loop.session l) (Loop.in_flight l) (Loop.escaped l).
Proof. destruct l; reflexivity. Qed.

Lemma covers_step net (l : Loop.t) (p : Pump.t) (e : Pump.Event) :
  covers l p -> steady p ->
  exists loop_events, covers (steps l loop_events) (Pump.step net p e).
Proof.
  intros (Hs & Hf & He) H. unfold steady in H.
  destruct e as [m|]; cbn [Pump.step].
  - unfold Pump.post.
    destruct (Pump.crashed p) as [x|] eqn:Ec.
    + exists []. unfold covers. rewrite Ec. auto.
    + destruct (Pump.running p) as [[r k]|] eqn:Er.
      * exists []. repeat split; assumption.
      * rewrite (loop_eta l), Hs, Hf, He. apply covers_dispatch.
  - unfold Pump.arrive.
    destruct (Pump.running p) as [[r k]|] eqn:Er.
    + destruct (Pump.crashed p) as [x|]; [discriminate|].
      destruct (covers_settle
                  (start (k (net (Pump.answered p) r)) (Pump.session p))
                  (Pump.answered p ++ [r])%list (Pump.pending p))
        as [les Hles].
      exists (Deliver 0 (net (Pump.answered p) r) :: les).
      change (steps l (Deliver 0 (net (Pump.answered p) r) :: les))
        with (steps (Loop.deliver 0 (net (Pump.answered p) r) l) les).
      unfold Loop.deliver. rewrite Hf, He, Hs. exact Hles.
    + exists []. unfold covers. rewrite Er. auto.
Qed.

Lemma covers_steps net events :
  forall (l : Loop.t) (p : Pump.t),
    covers l p -> steady p ->
    exists loop_events,
      covers (steps l loop_events) (Pump.steps net p events).
Proof.
  induction events as [|e events IH]; intros l p Hc H.
  - exists []. exact Hc.
  - destruct (covers_step net l p e Hc H) as [les1 H1].
    destruct (IH _ _ H1 (steady_step net p e H)) as [les2 H2].
    exists (les1 ++ les2)%list. rewrite steps_app. exact H2.
Qed.

(** Every run of the message pump is a run of the loop of every
    interleaving: whatever the operator sends and whenever the answers
    arrive, the loop has a schedule that leaves the same session, the
    same handler suspended and the same exception escaped. What holds
    of the session in every run of the loop holds, then, of the
    application as its pump runs it. *)
Lemma pump_is_an_interleaving :
  forall (net : Transport) (hostname : string) (events : list Pump.Event),
  exists loop_events,
    covers (steps (Loop.mount hostname) loop_events)
           (Pump.steps net (Pump.mount hostname) events).
Proof.
  intros net hostname events.
  destruct (covers_settle (start on_mount (NeonaTUI.init hostname)) [] [])
    as [les1 H1].
  destruct (covers_steps net events _ _ H1 (steady_settle _ _ _))
    as [les2 H2].
  exists (les1 ++ les2)%list. rewrite steps_app. exact H2.
Qed.

(* ================================================================== *)
(** * Further properties *)

(** ** Transport failures *)

Ltac wraps_op :=
  eexists; eexists; split; [reflexivity|]; intros cause; reflexivity.

(** X1. Every operation but the health check sends one request and,
    when the transport fails (connection refused, timeout), raises the
    client's error whose message is the description of the operation,
    a colon and the cause; the error has no status code and no body,
    and nothing is sent again. *)
Theorem transport_failure_is_api_error :
  forall (St : Type) (self : NeonaClient),
    (forall status_filter,
        wraps (St := St) (list_tasks self status_filter)
              "Failed to list tasks")
    /\ (forall task_id,
        wraps (St := St) (get_task self task_id)
              ("Failed to get task " ++ task_id))
    /\ (forall title description,
        wraps (St := St) (create_task self title description)
              "Failed to create task")
    /\ (forall task_id ttl_sec,
        wraps (St := St) (claim_task self task_id ttl_sec)
              ("Failed to claim task " ++ task_id))
    /\ (forall task_id,
        wraps (St := St) (release_task self task_id)
              ("Failed to release task " ++ task_id))
    /\ (forall task_id command args,
        wraps (St := St) (run_task self task_id command args)
              ("Failed to run command on task " ++ task_id))
    /\ (forall task_id,
        wraps (St := St) (get_task_logs self task_id)
              ("Failed to get logs for task " ++ task_id))
    /\ (forall task_id,
        wraps (St := St) (get_task_memory self task_id)
              ("Failed to get memory for task " ++ task_id))
    /\ (forall task_id content tags,
        wraps (St := St) (add_memory self task_id content tags)
              "Failed to add memory")
    /\ (forall query,
        wraps (St := St) (query_memory self query)
              "Failed to query memory")
    /\ wraps (St := St) (get_workers self) "Failed to get workers".
Proof.
  intros St self.
  repeat match goal with |- _ /\ _ => split end; intros; wraps_op.
Qed.

Example transport_failure_example :
  exec refused (list_tasks tui_host "") tt []
  = mkRun (Raised (NeonaAPIError "Failed to list tasks: connection refused"
                                 None ""))
          tt [tasks_request]
  /\ str_of_exn (NeonaAPIError "Failed to list tasks: connection refused"
                               None "")
     = "Failed to list tasks: connection refused"
  /\ str_of_exn (NeonaAPIError "Failed to claim task t1" (Some 409)
                               "already claimed")
     = "Failed to claim task t1: already claimed".
Proof. repeat split. Qed.

(** ** The health check, all cases *)

(** X2. is_healthy sends the health request and nothing else, and it
    answers true exactly when the daemon responds with a status below
    400 and a JSON object whose ok is true. *)
Theorem is_healthy_iff :
  forall (St : Type) (net : Transport) (self : NeonaClient) (s : St)
         (log : list Request),
    sent (exec net (is_healthy self) s log) = (log ++ [health_request])%list
    /\ state (exec net (is_healthy self) s log) = s
    /\ (result (exec net (is_healthy self) s log) = Returned true
        <-> exists response o,
            net log health_request = Responded response
            /\ Response.status_code response < 400
            /\ Response.json response = Some (Json.Object o)
            /\ Json.ok o = Some true).
Proof.
  intros St net self s log.
  unfold is_healthy, check_health, client_get, send. simpl.
  fold health_request.
  destruct (net log health_request) as [response|cause] eqn:Hnet; simpl.
  - destruct (400 <=? Response.status_code response) eqn:Hs; simpl.
    + repeat split; try discriminate.
      intros (r & o & Hr & Hlt & _). inversion Hr; subst.
      apply Z.leb_le in Hs. lia.
    + apply Z.leb_gt in Hs. unfold response_json.
      destruct (Response.json response) as [[o|items|sc]|] eqn:Hj; simpl;
        repeat split; try discriminate;
        try (intros (r & o' & Hr & _ & Hj' & _); inversion Hr; subst;
             congruence).
      * intros H. exists response, o. repeat split; auto.
        destruct (Json.ok o) as [[|]|]; simpl in H; congruence.
      * intros (r & o' & Hr & _ & Hj' & Hok). inversion Hr; subst.
        rewrite Hj in Hj'. inversion Hj'; subst. rewrite Hok. reflexivity.
  - repeat split; try discriminate.
    intros (r & o & Hr & _). discriminate.
Qed.

(** ** Decoding a task list *)

(** X3. When the daemon answers the listing with a status below 400
    and an array, list_tasks does not fail, whatever keys the items
    lack: it sends its one request, with the status filter as the only
    parameter when the filter is not empty, and returns one TaskItem
    per item, in order, each field holding the value of its key or the
    empty string when the item has no such key. *)
Theorem list_tasks_decodes :
  forall (St : Type) (net : Transport) (self : NeonaClient) (s : St)
         (log : list Request) (status_filter : string)
         (response : Response.t) (items : list Json.object),
    let req :=
      mkRequest GET "/tasks"
                (match status_filter with
                 | EmptyString => []
                 | _ => [("status", status_filter)]
                 end) None in
    net log req = Responded response ->
    Response.status_code response < 400 ->
    Response.json response = Some (Json.Array items) ->
    exists l,
      exec net (list_tasks self status_filter) s log
      = mkRun (Returned l) s (log ++ [req])
      /\ List.length l = List.length items
      /\ forall i o,
          nth_error items i = Some o ->
          nth_error l i
          = Some (TaskItem.mk
                    (match Json.id o with Some v => v | None => "" end)
                    (match Json.title o with Some v => v | None => "" end)
                    (match Json.status o with Some v => v | None => "" end)
                    (match Json.claimed_by o with Some v => v | None => "" end)).
Proof.
  intros St net self s log status_filter response items req Hnet Hs Hj.
  apply Z.leb_gt in Hs.
  exists (map task_item items). split; [|split].
  - unfold list_tasks, client_get, send. simpl.
    assert (Hp : (if Py.nonempty status_filter
                  then [("status", status_filter)] else [])
                 = match status_filter with
                   | EmptyString => []
                   | _ => [("status", status_filter)]
                   end) by (destruct status_filter; reflexivity).
    rewrite Hp. fold req. rewrite Hnet. simpl. rewrite Hs.
    unfold response_json. rewrite Hj. reflexivity.
  - apply length_map.
  - intros i o Hi. rewrite nth_error_map, Hi. reflexivity.
Qed.

Lemma list_tasks_decodes_witness :
  exists l,
    exec (daemon [Json.empty; json_task "t2" "b" "done" ""])
         (list_tasks tui_host "") tt []
    = mkRun (Returned l) tt ([] ++ [tasks_request])
    /\ List.length l = 2%nat
    /\ forall i o,
        nth_error [Json.empty; json_task "t2" "b" "done" ""] i = Some o ->
        nth_error l i
        = Some (TaskItem.mk
                  (match Json.id o with Some v => v | None => "" end)
                  (match Json.title o with Some v => v | None => "" end)
                  (match Json.status o with Some v => v | None => "" end)
                  (match Json.claimed_by o with Some v => v | None => "" end)).
Proof.
  exact (list_tasks_decodes unit
           (daemon [Json.empty; json_task "t2" "b" "done" ""]) tui_host tt []
           ""
           (Response.mk 200 ""
              (Some (Json.Array [Json.empty; json_task "t2" "b" "done" ""])))
           [Json.empty; json_task "t2" "b" "done" ""]
           eq_refl eq_refl eq_refl).
Defined.

(** ** What a command can raise *)

Section RaisesLaws.
Context {St : Type}.

Lemma raises_any {A} (p : Prog St A) : Raises (fun _ => True) p.
Proof. induction p; constructor; auto. Qed.

Lemma raises_weaken {A} (P Q : Exn -> Prop) (p : Prog St A) :
  (forall e, P e -> Q e) -> Raises P p -> Raises Q p.
Proof. intros H; induction 1; constructor; auto. Qed.

Lemma raises_bind {A B} (P : Exn -> Prop) (p : Prog St A) (f : A -> Prog St B) :
  Raises P p -> (forall a, Raises P (f a)) -> Raises P (bind p f).
Proof. induction 1; intros; simpl; auto; constructor; auto. Qed.

Lemma raises_try_except {A} (P Q : Exn -> Prop) (p : Prog St A) h :
  Raises P p ->
  (forall e, P e ->
             match h e with Some q => Raises Q q | None => Q e end) ->
  Raises Q (try_except p h).
Proof.
  induction 1 as [a|e He|k _ IH|s k _ IH|r k _ IH]; intros Hh; simpl;
    try (constructor; auto; fail).
  specialize (Hh e He). destruct (h e); [exact Hh | constructor; exact Hh].
Qed.

Lemma raises_except_RequestError {A} (p : Prog St A) h :
  (forall cause, Raises not_transport (h cause)) ->
  Raises not_transport (try_except p (except_RequestError h)).
Proof.
  intros Hh. apply (raises_try_except (fun _ => True)); [apply raises_any|].
  intros [m c b|cause|kind] _; simpl; auto.
Qed.

Lemma raises_except_NeonaAPIError {A} (p : Prog St A) h :
  Raises not_transport p ->
  (forall e, Raises python_only (h e)) ->
  Raises python_only (try_except p (except_NeonaAPIError h)).
Proof.
  intros Hp Hh. apply (raises_try_except not_transport); [exact Hp|].
  intros [m c b|cause|kind] He; simpl; auto.
Qed.

Lemma raises_gets {A} (P : Exn -> Prop) (f : St -> A) : Raises P (gets f).
Proof. repeat constructor. Qed.

Lemma raises_modify (P : Exn -> Prop) (f : St -> St) : Raises P (modify f).
Proof. repeat constructor. Qed.

Lemma raises_exec {A} (net : Transport) (P : Exn -> Prop) (p : Prog St A) :
  Raises P p ->
  forall s log,
    match result (exec net p s log) with
    | Raised e => P e
    | Returned _ => True
    end.
Proof.
  induction 1 as [a|e He|k _ IH|s' k _ IH|r k _ IH]; intros s0 log; simpl;
    auto; apply IH.
Qed.

End RaisesLaws.

Ltac raises_client :=
  apply raises_except_RequestError; intros ?cause; constructor; exact I.

Section ClientRaises.
Context {St : Type} (self : NeonaClient).

Lemma raises_check_health : Raises (St := St) not_transport (check_health self).
Proof. unfold check_health. apply raises_except_RequestError. constructor. Qed.

Lemma raises_list_tasks f : Raises (St := St) not_transport (list_tasks self f).
Proof. unfold list_tasks. raises_client. Qed.

Lemma raises_create_task t d :
  Raises (St := St) not_transport (create_task self t d).
Proof. unfold create_task. raises_client. Qed.

Lemma raises_claim_task t ttl :
  Raises (St := St) not_transport (claim_task self t ttl).
Proof. unfold claim_task. raises_client. Qed.

Lemma raises_release_task t :
  Raises (St := St) not_transport (release_task self t).
Proof. unfold release_task. raises_client. Qed.

Lemma raises_run_task t c a :
  Raises (St := St) not_transport (run_task self t c a).
Proof. unfold run_task. raises_client. Qed.

Lemma raises_add_memory t c g :
  Raises (St := St) not_transport (add_memory self t c g).
Proof. unfold add_memory. raises_client. Qed.

Lemma raises_query_memory q :
  Raises (St := St) not_transport (query_memory self q).
Proof. unfold query_memory. raises_client. Qed.

End ClientRaises.

Lemma python_is_not_transport (e : Exn) : python_only e -> not_transport e.
Proof. destruct e; simpl; auto. Qed.

Ltac raises :=
  repeat first
    [ apply raises_gets
    | apply raises_modify
    | apply raises_check_health | apply raises_list_tasks
    | apply raises_create_task | apply raises_claim_task
    | apply raises_release_task | apply raises_run_task
    | apply raises_add_memory | apply raises_query_memory
    | apply raises_bind; [ | intros ? ]
    | apply Raises_Ret
    | apply Raises_Raise; exact I
    | match goal with
      | |- Raises _ (if ?b then _ else _) => destruct b
      | |- Raises _ (match ?x with _ => _ end) => destruct x
      end ].

Lemma raises_refresh_tasks : Raises python_only refresh_tasks.
Proof.
  unfold refresh_tasks, show_message, update_status.
  apply raises_except_NeonaAPIError.
  - raises.
  - intros e. raises.
Qed.

Lemma raises_handle_command cursor_row value :
  Raises python_only (handle_command cursor_row value).
Proof.
  unfold handle_command.
  destruct (negb (Py.nonempty (Py.strip value))); [constructor|].
  destruct (Py.split_max1 (Py.strip value)) as [|action0 rest];
    [constructor; exact I|].
  apply raises_except_NeonaAPIError.
  - unfold cmd_add, cmd_claim, cmd_release, cmd_run, cmd_note, cmd_query,
      get_selected_task, show_message.
    repeat match goal with
           | |- Raises _ (if ?b then _ else _) => destruct b
           end;
      raises;
      try (apply (raises_weaken python_only);
           [exact python_is_not_transport | exact raises_refresh_tasks]).
  - intros e. unfold show_message. raises.
Qed.

(** X4. No error of the client leaves a command: whatever the daemon
    and the network do, handle_command and refresh_tasks (so the first
    load and the refresh key as well) either return or raise an
    exception of Python itself, never the client's API error and never
    a transport error. *)
Theorem no_api_error_escapes :
  forall (net : Transport) (cursor_row : option Z) (value : string)
         (app : App) (log : list Request),
    (result (exec net (handle_command cursor_row value) app log) = Returned tt
     \/ exists kind,
         result (exec net (handle_command cursor_row value) app log)
         = Raised (PyError kind))
    /\ (result (exec net refresh_tasks app log) = Returned tt
        \/ exists kind,
            result (exec net refresh_tasks app log) = Raised (PyError kind)).
Proof.
  intros net cursor_row value app log. split.
  - pose proof (raises_exec net _ _ (raises_handle_command cursor_row value)
                  app log) as H.
    destruct (result (exec net (handle_command cursor_row value) app log))
      as [[]|[m c b|cause|kind]]; simpl in H; try contradiction; eauto.
  - pose proof (raises_exec net _ _ raises_refresh_tasks app log) as H.
    destruct (result (exec net refresh_tasks app log))
      as [[]|[m c b|cause|kind]]; simpl in H; try contradiction; eauto.
Qed.

(** ** How many requests a command sends *)

Section AtMostLaws.
Context {St : Type}.

Lemma atmost_weaken {A} (n m : nat) (p : Prog St A) :
  AtMost n p -> (n <= m)%nat -> AtMost m p.
Proof.
  intros H; revert m. induction H as [n a|n e|n k _ IH|n s k _ IH|n r k _ IH];
    intros m Hm; try (constructor; auto; fail).
  destruct m as [|m]; [lia|]. constructor. intros o. apply IH. lia.
Qed.

Lemma atmost_bind {A B} (n m : nat) (p : Prog St A) (f : A -> Prog St B) :
  AtMost n p -> (forall a, AtMost m (f a)) -> AtMost (n + m) (bind p f).
Proof.
  intros H Hf.
  induction H as [n a|n e|n k _ IH|n s k _ IH|n r k _ IH]; simpl;
    try (constructor; auto; fail).
  apply (atmost_weaken m); [apply Hf | lia].
Qed.

Lemma atmost_try_except {A} (n m : nat) (p : Prog St A) h :
  AtMost n p -> (forall e q, h e = Some q -> AtMost m q) ->
  AtMost (n + m) (try_except p h).
Proof.
  intros H Hh.
  induction H as [n a|n e|n k _ IH|n s k _ IH|n r k _ IH]; simpl;
    try (constructor; auto; fail).
  destruct (h e) as [q|] eqn:E; [|constructor].
  apply (atmost_weaken m); [eapply Hh; eauto | lia].
Qed.

Lemma atmost_except_NeonaAPIError {A} (n m : nat) (p : Prog St A) h :
  AtMost n p -> (forall e, AtMost m (h e)) ->
  AtMost (n + m) (try_except p (except_NeonaAPIError h)).
Proof.
  intros Hp Hh. apply atmost_try_except; [exact Hp|].
  intros e q He. destruct e; simpl in He; try discriminate.
  injection He as <-. apply Hh.
Qed.

Lemma atmost_exec {A} (net : Transport) (n : nat) (p : Prog St A) :
  AtMost n p ->
  forall s log,
    (List.length (sent (exec net p s log)) <= List.length log + n)%nat.
Proof.
  induction 1 as [n a|n e|n k _ IH|n s' k _ IH|n r k _ IH]; intros s0 log;
    simpl; try lia; try apply IH.
  specialize (IH (net log r) s0 (log ++ [r])%list).
  rewrite length_app in IH. simpl in IH. lia.
Qed.

(** A program that sends nothing runs and stops at once. *)
Lemma atmost_zero_sent {A} (net : Transport) (p : Prog St A) s log :
  AtMost 0 p -> sent (exec net p s log) = log.
Proof.
  intros H. remember 0%nat as n eqn:Hn. revert s log.
  induction H as [n a|n e|n k _ IH|n s' k _ IH|n r k _ IH]; intros s0 log;
    simpl; auto; discriminate.
Qed.

Lemma atmost_gets {A} (n : nat) (f : St -> A) : AtMost n (gets f).
Proof. repeat constructor. Qed.

Lemma atmost_modify (n : nat) (f : St -> St) : AtMost n (modify f).
Proof. repeat constructor. Qed.

Lemma atmost_send (r : Request) : AtMost (St := St) 1 (send r).
Proof. constructor. intros [response|cause]; constructor. Qed.

Lemma atmost_response_json n r : AtMost (St := St) n (response_json r).
Proof. unfold response_json. destruct (Response.json r); constructor. Qed.

Lemma atmost_as_object n v : AtMost (St := St) n (as_object v).
Proof. destruct v; constructor. Qed.

Lemma atmost_as_items n v : AtMost (St := St) n (as_items v).
Proof.
  destruct v as [o|items|[str|]]; unfold as_items; try constructor.
  - destruct (Json.is_empty o); constructor.
  - destruct (Py.nonempty str); constructor.
Qed.

End AtMostLaws.

Ltac atmost_op :=
  apply (atmost_try_except 1 0);
  [ apply (atmost_bind 1 0); [ apply atmost_send | ];
    intros ?response; destruct (400 <=? Response.status_code response);
    repeat first
      [ apply AtMost_Ret | apply AtMost_Raise
      | apply atmost_response_json | apply atmost_as_object
      | apply atmost_as_items
      | apply (atmost_bind 0 0); [ | intros ? ] ]
  | intros [ | | ] ? ; simpl; intros ?H; inversion H; subst; constructor ].

Section ClientAtMost.
Context {St : Type} (self : NeonaClient).

Lemma atmost_check_health : AtMost (St := St) 1 (check_health self).
Proof. unfold check_health, client_get. atmost_op. Qed.

Lemma atmost_list_tasks f : AtMost (St := St) 1 (list_tasks self f).
Proof. unfold list_tasks, client_get. atmost_op. Qed.

Lemma atmost_create_task t d : AtMost (St := St) 1 (create_task self t d).
Proof. unfold create_task, client_post. atmost_op. Qed.

Lemma atmost_claim_task t ttl : AtMost (St := St) 1 (claim_task self t ttl).
Proof. unfold claim_task, client_post. atmost_op. Qed.

Lemma atmost_release_task t : AtMost (St := St) 1 (release_task self t).
Proof. unfold release_task, client_post. atmost_op. Qed.

Lemma atmost_run_task t c a : AtMost (St := St) 1 (run_task self t c a).
Proof. unfold run_task, client_post. atmost_op. Qed.

Lemma atmost_add_memory t c g : AtMost (St := St) 1 (add_memory self t c g).
Proof. unfold add_memory, client_post. atmost_op. Qed.

Lemma atmost_query_memory q : AtMost (St := St) 1 (query_memory self q).
Proof. unfold query_memory, client_get. atmost_op. Qed.

End ClientAtMost.

Lemma atmost_show_message n msg error : AtMost n (show_message msg error).
Proof. apply atmost_modify. Qed.

Lemma atmost_update_status n health count holder :
  AtMost n (update_status health count holder).
Proof. apply atmost_modify. Qed.

Lemma atmost_refresh_tasks : AtMost 2 refresh_tasks.
Proof.
  unfold refresh_tasks. apply (atmost_except_NeonaAPIError 2 0).
  - apply (atmost_bind 0 2); [apply atmost_gets|]. intros c.
    apply (atmost_bind 1 1); [apply atmost_check_health|]. intros health.
    apply (atmost_bind 0 1); [apply atmost_modify|]. intros _.
    destruct (negb (HealthResponse.ok health)).
    + apply (atmost_bind 0 1); [apply atmost_gets|]. intros c1.
      apply (atmost_bind 0 1); [apply atmost_update_status|]. intros _.
      apply atmost_show_message.
    + apply (atmost_bind 0 1); [apply atmost_gets|]. intros c1.
      apply (atmost_bind 1 0); [apply atmost_list_tasks|]. intros items.
      repeat (apply (atmost_bind 0 0);
              [first [apply atmost_gets | apply atmost_modify
                     | apply atmost_update_status] | intros ?]).
      apply atmost_show_message.
  - intros e.
    repeat (apply (atmost_bind 0 0);
            [first [apply atmost_gets | apply atmost_update_status]
            | intros ?]).
    apply atmost_show_message.
Qed.

Lemma atmost_cmd_run cursor_row args_str : AtMost 1 (cmd_run cursor_row args_str).
Proof.
  unfold cmd_run, get_selected_task.
  apply (atmost_bind 0 1); [apply (atmost_bind 0 0); [apply atmost_gets|];
                            intros; constructor|].
  intros [task|]; [|apply atmost_show_message].
  destruct (negb (Py.nonempty args_str)); [apply atmost_show_message|].
  destruct (Py.split args_str) as [|command rest]; [constructor|].
  apply (atmost_bind 0 1); [apply atmost_gets|]. intros c.
  apply (atmost_bind 1 0); [apply atmost_run_task|]. intros result.
  destruct (RunDetail.exit_code result =? 0); apply atmost_show_message.
Qed.

Lemma atmost_cmd_note cursor_row content : AtMost 1 (cmd_note cursor_row content).
Proof.
  unfold cmd_note, get_selected_task.
  apply (atmost_bind 0 1); [apply (atmost_bind 0 0); [apply atmost_gets|];
                            intros; constructor|].
  intros [task|]; [|apply atmost_show_message].
  destruct (negb (Py.nonempty content)); [apply atmost_show_message|].
  apply (atmost_bind 0 1); [apply atmost_gets|]. intros c.
  apply (atmost_bind 1 0); [apply atmost_add_memory|]. intros memory.
  apply atmost_show_message.
Qed.

Lemma atmost_cmd_query query : AtMost 1 (cmd_query query).
Proof.
  unfold cmd_query.
  destruct (negb (Py.nonempty query)); [apply atmost_show_message|].
  apply (atmost_bind 0 1); [apply atmost_gets|]. intros c.
  apply (atmost_bind 1 0); [apply atmost_query_memory|]. intros results.
  destruct results; apply atmost_show_message.
Qed.

Lemma atmost_cmd_add title : AtMost 3 (cmd_add title).
Proof.
  unfold cmd_add.
  destruct (negb (Py.nonempty title)); [apply atmost_show_message|].
  apply (atmost_bind 0 3); [apply atmost_gets|]. intros c.
  apply (atmost_bind 1 2); [apply atmost_create_task|]. intros task_id.
  apply (atmost_bind 0 2); [apply atmost_show_message|]. intros _.
  apply atmost_refresh_tasks.
Qed.

Lemma atmost_cmd_claim cursor_row : AtMost 3 (cmd_claim cursor_row).
Proof.
  unfold cmd_claim, get_selected_task.
  apply (atmost_bind 0 3); [apply (atmost_bind 0 0); [apply atmost_gets|];
                            intros; constructor|].
  intros [task|]; [|apply atmost_show_message].
  apply (atmost_bind 0 3); [apply atmost_gets|]. intros c.
  apply (atmost_bind 1 2); [apply atmost_claim_task|]. intros lease.
  apply (atmost_bind 0 2); [apply atmost_show_message|]. intros _.
  apply atmost_refresh_tasks.
Qed.

Lemma atmost_cmd_release cursor_row : AtMost 3 (cmd_release cursor_row).
Proof.
  unfold cmd_release, get_selected_task.
  apply (atmost_bind 0 3); [apply (atmost_bind 0 0); [apply atmost_gets|];
                            intros; constructor|].
  intros [task|]; [|apply atmost_show_message].
  apply (atmost_bind 0 3); [apply atmost_gets|]. intros c.
  apply (atmost_bind 1 2); [apply atmost_release_task|]. intros u.
  apply (atmost_bind 0 2); [apply atmost_show_message|]. intros _.
  apply atmost_refresh_tasks.
Qed.

Lemma atmost_handle_command cursor_row value :
  AtMost 3 (handle_command cursor_row value).
Proof.
  unfold handle_command.
  destruct (negb (Py.nonempty (Py.strip value))); [constructor|].
  destruct (Py.split_max1 (Py.strip value)) as [|action0 rest]; [constructor|].
  apply (atmost_except_NeonaAPIError 3 0).
  - repeat match goal with
           | |- AtMost _ (if ?b then _ else _) => destruct b
           end.
    + apply atmost_cmd_add.
    + apply (atmost_weaken 2); [apply atmost_refresh_tasks | lia].
    + apply atmost_cmd_claim.
    + apply atmost_cmd_release.
    + apply (atmost_weaken 1); [apply atmost_cmd_run | lia].
    + apply (atmost_weaken 1); [apply atmost_cmd_note | lia].
    + apply (atmost_weaken 1); [apply atmost_cmd_query | lia].
    + apply atmost_show_message.
  - intros e. apply atmost_show_message.
Qed.

(** X5. A command is one attempt: whatever the daemon answers, no line
    makes the session send more than three requests; a refresh sends at
    most two, and run, note and query at most one. Nothing is retried. *)
Theorem requests_are_bounded :
  forall (net : Transport) (cursor_row : option Z) (value : string)
         (app : App) (log : list Request),
    (List.length (sent (exec net (handle_command cursor_row value) app log))
     <= List.length log + 3)%nat
    /\ (List.length (sent (exec net refresh_tasks app log))
        <= List.length log + 2)%nat
    /\ (List.length (sent (exec net (cmd_run cursor_row value) app log))
        <= List.length log + 1)%nat
    /\ (List.length (sent (exec net (cmd_note cursor_row value) app log))
        <= List.length log + 1)%nat
    /\ (List.length (sent (exec net (cmd_query value) app log))
        <= List.length log + 1)%nat.
Proof.
  intros net cursor_row value app log.
  split; [apply atmost_exec, atmost_handle_command|].
  split; [apply atmost_exec, atmost_refresh_tasks|].
  split; [apply atmost_exec, atmost_cmd_run|].
  split; [apply atmost_exec, atmost_cmd_note|].
  apply atmost_exec, atmost_cmd_query.
Qed.

(** ** What run, note and query leave alone *)

Lemma same_but_message_set (a : App) msg error s :
  same_but_message s a -> same_but_message (NeonaTUI.set_message msg error s) a.
Proof. intros H; exact H. Qed.

Ltac keeps_message :=
  repeat first
    [ apply keeps_gets
    | apply keeps_modify; intros ? ?H; exact H
    | apply keeps_stateless;
      first [ apply stateless_run_task | apply stateless_add_memory
            | apply stateless_query_memory ]
    | apply keeps_bind; [ | intros ? ]
    | apply Keeps_Ret
    | apply Keeps_Raise
    | match goal with
      | |- Keeps _ (if ?b then _ else _) => destruct b
      | |- Keeps _ (match ?x with _ => _ end) => destruct x
      end ].

Lemma keeps_message_cmd_run (a : App) cursor_row args_str :
  Keeps (fun s => same_but_message s a) (cmd_run cursor_row args_str).
Proof. unfold cmd_run, get_selected_task, show_message. keeps_message. Qed.

Lemma keeps_message_cmd_note (a : App) cursor_row content :
  Keeps (fun s => same_but_message s a) (cmd_note cursor_row content).
Proof. unfold cmd_note, get_selected_task, show_message. keeps_message. Qed.

Lemma keeps_message_cmd_query (a : App) query :
  Keeps (fun s => same_but_message s a) (cmd_query query).
Proof. unfold cmd_query, show_message. keeps_message. Qed.

Lemma same_but_message_refl (a : App) : same_but_message a a.
Proof. repeat split. Qed.

(** X6. run, note and query never refresh: whatever the daemon
    answers, and whether they succeed, fail or raise, they leave the
    task list, the table, the health record, the status bar and the
    client of the session as they were; only the message can change. *)
Theorem run_note_query_change_the_message_only :
  forall (net : Transport) (app : App) (cursor_row : option Z)
         (arg : string) (log : list Request),
    same_but_message (state (exec net (cmd_run cursor_row arg) app log)) app
    /\ same_but_message (state (exec net (cmd_note cursor_row arg) app log)) app
    /\ same_but_message (state (exec net (cmd_query arg) app log)) app.
Proof.
  intros net app cursor_row arg log. split; [|split].
  - apply (keeps_exec net _ _ (keeps_message_cmd_run app cursor_row arg)),
      same_but_message_refl.
  - apply (keeps_exec net _ _ (keeps_message_cmd_note app cursor_row arg)),
      same_but_message_refl.
  - apply (keeps_exec net _ _ (keeps_message_cmd_query app arg)),
      same_but_message_refl.
Qed.

(** ** Invariants of the session under interleaving *)

Section TriLaws.
Context {St : Type} (I : St -> Prop).

Lemma tri_weaken {A} (Q Q' : Result A -> St -> Prop) (p : Prog St A) s :
  (forall r s', Q r s' -> Q' r s') -> Tri I Q p s -> Tri I Q' p s.
Proof. intros H; induction 1; constructor; auto. Qed.

Lemma tri_bind {A B} (Q1 : Result A -> St -> Prop) (Q : Result B -> St -> Prop)
    (p : Prog St A) (f : A -> Prog St B) s :
  Tri I Q1 p s ->
  (forall a s', Q1 (Returned a) s' -> Tri I Q (f a) s') ->
  (forall e s', Q1 (Raised e) s' -> Q (Raised e) s') ->
  Tri I Q (bind p f) s.
Proof.
  intros H Hf He.
  induction H as [a s Ha|e s Hr|k s _ IH|s' k s _ IH|r k s Hs _ IH]; simpl;
    auto; constructor; auto.
Qed.

Lemma tri_try_except {A} (Q1 Q : Result A -> St -> Prop) (p : Prog St A) h s :
  Tri I Q1 p s ->
  (forall a s', Q1 (Returned a) s' -> Q (Returned a) s') ->
  (forall e s', Q1 (Raised e) s' ->
                match h e with
                | Some q => Tri I Q q s'
                | None => Q (Raised e) s'
                end) ->
  Tri I Q (try_except p h) s.
Proof.
  intros H Ha He.
  induction H as [a s Hq|e s Hr|k s _ IH|s' k s _ IH|r k s Hs _ IH]; simpl;
    try (constructor; auto; fail).
  specialize (He e s Hr). destruct (h e); [exact He | constructor; exact He].
Qed.

(** A stateless program started in [I] stops only in [I]. *)
Lemma tri_stateless {A} (p : Prog St A) s :
  Stateless p -> I s -> Tri I (fun _ s' => I s') p s.
Proof.
  intros H; revert s. induction H as [a|e|r k _ IH]; intros s Hs;
    constructor; auto.
Qed.

Lemma keeps_tri {A} (p : Prog St A) :
  Keeps I p -> forall s, I s -> Tri I (fun _ s' => I s') p s.
Proof.
  induction 1 as [a|e|k _ IH|s' k Hs' _ IH|r k _ IH]; intros s Hs;
    constructor; auto.
Qed.

Lemma tri_exec {A} (net : Transport) (Q : Result A -> St -> Prop)
    (p : Prog St A) s :
  Tri I Q p s ->
  forall log, Q (result (exec net p s log)) (state (exec net p s log)).
Proof.
  induction 1 as [a s Hq|e s Hr|k s _ IH|s' k s _ IH|r k s Hs _ IH];
    intros log; simpl; auto.
Qed.

Lemma tri_start {A} (Q : Result A -> St -> Prop) (p : Prog St A) s :
  Tri I Q p s ->
  match start p s with
  | Finished r s' => Q r s'
  | Suspended s' _ k => I s' /\ forall o s'', I s'' -> Tri I Q (k o) s''
  end.
Proof.
  induction 1 as [a s Hq|e s Hr|k s _ IH|s' k s _ IH|r k s Hs Hk _];
    simpl; auto.
Qed.

End TriLaws.

Lemma forall_without {A} (P : A -> Prop) (l : list A) :
  forall i x,
    nth_error l i = Some x -> Forall P l ->
    P x /\ Forall P (firstn i l ++ skipn (S i) l).
Proof.
  induction l as [|y l IH]; intros [|i] x Hn Hl; simpl in *; try discriminate.
  - inversion Hn; subst. inversion Hl; subst. auto.
  - inversion Hl; subst. destruct (IH i x Hn H2) as [Hx Hrest]. auto.
Qed.

Section LoopInvariant.
Variable I : App -> Prop.
Hypothesis handle_ok :
  forall cursor_row value s,
    I s -> Tri I (fun _ s' => I s') (handle_command cursor_row value) s.
Hypothesis refresh_ok :
  forall s, I s -> Tri I (fun _ s' => I s') refresh_tasks s.

Lemma loop_ok_settle others escaped (st : Stage App unit) :
  Forall (fun rk : Request * (Outcome -> Prog App unit) =>
            forall o s, I s -> Tri I (fun _ s' => I s') (snd rk o) s) others ->
  match st with
  | Finished _ s' => I s'
  | Suspended s' _ k =>
      I s' /\ forall o s'', I s'' -> Tri I (fun _ s' => I s') (k o) s''
  end ->
  loop_ok I (Loop.settle others escaped st).
Proof.
  intros Ho Hst. destruct st as [[u|e] s|s r k]; simpl; split; simpl; auto.
  - tauto.
  - apply Forall_app. split; [exact Ho|]. constructor; [|constructor].
    simpl. tauto.
Qed.

Lemma loop_ok_step (l : Loop.t) (e : Event) :
  loop_ok I l -> loop_ok I (step l e).
Proof.
  intros [Hs Hf]. destruct e as [cursor_row value| |i o]; unfold step.
  - unfold Loop.submit. apply loop_ok_settle; [exact Hf|].
    pose proof (tri_start I _ _ _ (handle_ok cursor_row value _ Hs)) as H.
    destruct (start _ _); exact H.
  - apply loop_ok_settle; [exact Hf|].
    pose proof (tri_start I _ _ _ (refresh_ok _ Hs)) as H.
    unfold action_refresh. destruct (start _ _); exact H.
  - unfold Loop.deliver.
    destruct (nth_error (Loop.in_flight l) i) as [[r k]|] eqn:E;
      [|split; assumption].
    destruct (forall_without _ _ _ _ E Hf) as [Hk Hrest]. simpl in Hk.
    apply loop_ok_settle; [exact Hrest|].
    pose proof (tri_start I _ _ _ (Hk o _ Hs)) as H.
    destruct (start _ _); exact H.
Qed.

Lemma loop_ok_steps (events : list Event) :
  forall l, loop_ok I l -> loop_ok I (steps l events).
Proof.
  unfold steps. induction events as [|e events IH]; intros l H; simpl; auto.
  apply IH, loop_ok_step, H.
Qed.

Lemma loop_ok_mount (hostname : string) :
  I (NeonaTUI.init hostname) -> loop_ok I (Loop.mount hostname).
Proof.
  intros H. unfold Loop.mount. apply loop_ok_settle; [constructor|].
  pose proof (tri_start I _ _ _ (refresh_ok _ H)) as Hst.
  unfold on_mount. destruct (start _ _); exact Hst.
Qed.

End LoopInvariant.

(** *** The table and the task list *)

(** One step of a handler: a read or a write of the session, the end,
    or a call of the client, which waits in the current state. *)
Ltac stateless_client :=
  first [ apply stateless_check_health | apply stateless_list_tasks
        | apply stateless_create_task | apply stateless_claim_task
        | apply stateless_release_task | apply stateless_run_task
        | apply stateless_add_memory | apply stateless_query_memory ].

Ltac tri_call :=
  eapply tri_bind;
  [ apply tri_stateless; [ stateless_client | assumption ]
  | intros ? ? ?
  | intros ? ? ?; assumption ].

Ltac tri_step :=
  first
    [ apply Tri_Get | apply Tri_Put
    | apply Tri_Ret; first [ assumption | reflexivity ]
    | apply Tri_Raise; assumption
    | tri_call
    | match goal with
      | |- Tri _ _ (if ?b then _ else _) _ => destruct b
      | |- Tri _ _ (match ?x with _ => _ end) _ => destruct x
      end ].

Lemma sync_refresh_tasks (s : App) :
  table_in_sync s -> Tri table_in_sync (fun _ s' => table_in_sync s') refresh_tasks s.
Proof.
  intros Hs. unfold refresh_tasks.
  apply (tri_try_except _ (fun _ s' => table_in_sync s')).
  - cbn. apply Tri_Get. tri_call. cbn.
    apply Tri_Get, Tri_Put.
    destruct (HealthResponse.ok a); cbn.
    + apply Tri_Get. tri_call. cbn.
      repeat tri_step.
    + repeat tri_step.
  - auto.
  - intros e s' H. destruct e; simpl; auto.
    cbn. repeat tri_step.
Qed.

Lemma sync_handle_command cursor_row value (s : App) :
  table_in_sync s ->
  Tri table_in_sync (fun _ s' => table_in_sync s')
      (handle_command cursor_row value) s.
Proof.
  intros Hs. unfold handle_command.
  destruct (negb (Py.nonempty (Py.strip value))); [constructor; exact Hs|].
  destruct (Py.split_max1 (Py.strip value)) as [|action0 rest];
    [constructor; exact Hs|].
  apply (tri_try_except _ (fun _ s' => table_in_sync s')).
  - unfold cmd_add, cmd_claim, cmd_release, cmd_run, cmd_note, cmd_query,
      get_selected_task.
    repeat match goal with
           | |- Tri _ _ (if ?b then _ else _) _ => destruct b
           end;
      cbn;
      repeat first
        [ apply sync_refresh_tasks; assumption
        | tri_step
        | progress cbn ].
  - auto.
  - intros e s' H. destruct e; simpl; auto.
    cbn. repeat tri_step.
Qed.

(** X7. The table always shows the task list. Whenever the session
    waits for the daemon and whenever a command ends, the rows of the
    table are the rows of the tasks the session holds: this is so from
    the start of the application on, whatever lines are submitted,
    whenever the refresh key is pressed and in whatever order the
    answers of the daemon arrive; and a command run to its end keeps it. *)
Theorem table_shows_the_tasks :
  (forall (hostname : string) (events : list Event),
      NeonaTUI.table (Loop.session (steps (Loop.mount hostname) events))
      = map table_row
            (NeonaTUI.tasks (Loop.session (steps (Loop.mount hostname) events))))
  /\ (forall (net : Transport) (cursor_row : option Z) (value : string)
             (app : App) (log : list Request),
         NeonaTUI.table app = map table_row (NeonaTUI.tasks app) ->
         NeonaTUI.table (state (exec net (handle_command cursor_row value) app log))
         = map table_row
               (NeonaTUI.tasks
                  (state (exec net (handle_command cursor_row value) app log)))).
Proof.
  split.
  - intros hostname events.
    apply (loop_ok_steps table_in_sync sync_handle_command sync_refresh_tasks
             events (Loop.mount hostname)).
    apply (loop_ok_mount table_in_sync sync_refresh_tasks). reflexivity.
  - intros net cursor_row value app log H.
    apply (tri_exec table_in_sync net _ _ _
             (sync_handle_command cursor_row value app H)).
Qed.

(** X8. The client of the session is never replaced: from the start
    of the application on, whatever is submitted and in whatever order
    the answers arrive, the holder of the session is "tui@" and the
    host name, and the base URL is the default one. *)
Theorem holder_is_fixed_in_every_run :
  forall (hostname : string) (events : list Event),
    NeonaTUI.client (Loop.session (steps (Loop.mount hostname) events))
    = mkClient "http://127.0.0.1:7466" ("tui@" ++ hostname).
Proof.
  intros hostname events.
  set (c := mkClient "http://127.0.0.1:7466" ("tui@" ++ hostname)).
  assert (Hh : forall cursor_row value s,
             client_is c s ->
             Tri (client_is c) (fun _ s' => client_is c s')
                 (handle_command cursor_row value) s).
  { intros cursor_row value s. apply keeps_tri, keeps_handle_command. }
  assert (Hr : forall s,
             client_is c s ->
             Tri (client_is c) (fun _ s' => client_is c s') refresh_tasks s).
  { intros s. apply keeps_tri, keeps_refresh_tasks. }
  apply (loop_ok_steps (client_is c) Hh Hr events (Loop.mount hostname)).
  apply (loop_ok_mount (client_is c) Hr). reflexivity.
Qed.

(** ** Refresh, all cases *)

Lemma check_health_sent {St} (net : Transport) (c : NeonaClient) (s : St) log :
  sent (exec net (check_health c) s log) = (log ++ [health_request])%list.
Proof.
  unfold check_health, client_get, send. simpl. fold health_request.
  destruct (net log health_request) as [response|cause]; simpl; auto.
  destruct (400 <=? Response.status_code response); simpl; auto.
  unfold response_json.
  destruct (Response.json response) as [[o|items|sc]|]; reflexivity.
Qed.

Lemma list_all_tasks_sent {St} (net : Transport) (c : NeonaClient) (s : St) log :
  sent (exec net (list_tasks c "") s log) = (log ++ [tasks_request])%list.
Proof.
  unfold list_tasks, client_get, send. simpl. fold tasks_request.
  destruct (net log tasks_request) as [response|cause]; simpl; auto.
  destruct (400 <=? Response.status_code response); simpl; auto.
  unfold response_json.
  destruct (Response.json response) as [[o|items|[str|]]|];
    unfold as_items; cbn [bind]; try reflexivity.
  - destruct (Json.is_empty o); reflexivity.
  - destruct (Py.nonempty str); reflexivity.
Qed.

(** X9. A refresh only reads. It sends the health check, and then the
    listing of all tasks, without a status filter, exactly when the
    health check returned a record whose ok is true; it sends nothing
    else, whatever the answers are. *)
Theorem refresh_only_reads :
  forall (net : Transport) (app : App) (log : list Request),
    sent (exec net refresh_tasks app log)
    = (log ++ health_request
           :: match result (exec net (check_health (NeonaTUI.client app))
                                 app log) with
              | Returned health =>
                  if HealthResponse.ok health then [tasks_request] else []
              | Raised _ => []
              end)%list.
Proof.
  intros net app log.
  pose proof (run_eta (exec net (check_health (NeonaTUI.client app)) app log))
    as Hrun.
  rewrite check_health_sent in Hrun.
  rewrite (stateless_state net _ (stateless_check_health (NeonaTUI.client app)))
    in Hrun.
  destruct (result (exec net (check_health (NeonaTUI.client app)) app log))
    as [health|e].
  - unfold refresh_tasks. rewrite exec_try_except. cbn.
    rewrite !(exec_returned net _ _ _ _ _ _ _ Hrun). cbn.
    destruct (HealthResponse.ok health); cbn; [|reflexivity].
    pose proof (run_eta (exec net (list_tasks (NeonaTUI.client app) "")
                              (NeonaTUI.set_last_health health app)
                              (log ++ [health_request])%list)) as Hlist.
    rewrite list_all_tasks_sent in Hlist.
    rewrite (stateless_state net _ (stateless_list_tasks (NeonaTUI.client app) ""))
      in Hlist.
    rewrite <- app_assoc in Hlist. cbn [List.app] in Hlist.
    destruct (result (exec net (list_tasks (NeonaTUI.client app) "")
                           (NeonaTUI.set_last_health health app)
                           (log ++ [health_request])%list)) as [items|e].
    + rewrite !(exec_returned net _ _ _ _ _ _ _ Hlist). cbn. reflexivity.
    + rewrite !(exec_raised net _ _ _ _ _ _ _ Hlist). cbn.
      destruct e; reflexivity.
  - unfold refresh_tasks. rewrite exec_try_except. cbn.
    rewrite !(exec_raised net _ _ _ _ _ _ _ Hrun). cbn.
    destruct e; reflexivity.
Qed.

(** X10. When the health check passes and the listing then fails with
    the client's error, the refresh still returns: the task list and
    the table stay as they were, the health record is the one the
    check returned, the status bar shows the daemon offline with the
    database "error", and the message is the error "API Error: " and
    the text of the error. *)
Theorem refresh_when_listing_fails :
  forall (net : Transport) (app : App) (log : list Request)
         (health : HealthResponse.t) (message : string)
         (status_code : option Z) (body : string),
    result (exec net (check_health (NeonaTUI.client app)) app log)
    = Returned health ->
    HealthResponse.ok health = true ->
    result (exec net (list_tasks (NeonaTUI.client app) "") app
                 (log ++ [health_request]))
    = Raised (NeonaAPIError message status_code body) ->
    exec net refresh_tasks app log
    = mkRun (Returned tt)
            (NeonaTUI.set_message
               ("API Error: " ++ _format_message message body) true
               (NeonaTUI.set_status_bar
                  (StatusBar.mk false "" (holder_id (NeonaTUI.client app))
                                (Offline "error"))
                  (NeonaTUI.set_last_health health app)))
            (log ++ [health_request; tasks_request]).
Proof.
  intros net app log health message status_code body Hh Hok Hl.
  pose proof (check_health_sent net (NeonaTUI.client app) app log) as Hsent.
  pose proof (exec_stateless_result net _ app app log _
                (stateless_check_health (NeonaTUI.client app)) Hh) as Hrun.
  rewrite Hsent in Hrun.
  pose proof (exec_stateless_result net _ app
                (NeonaTUI.set_last_health health app) (log ++ [health_request])
                _ (stateless_list_tasks (NeonaTUI.client app) "") Hl) as Hlist.
  rewrite list_all_tasks_sent, <- app_assoc in Hlist. cbn [List.app] in Hlist.
  unfold refresh_tasks. rewrite exec_try_except. cbn.
  rewrite (exec_returned net _ _ _ _ _ _ _ Hrun). cbn.
  rewrite Hok. cbn.
  rewrite (exec_raised net _ _ _ _ _ _ _ Hlist). cbn. reflexivity.
Qed.

Lemma refresh_when_listing_fails_witness :
  exec half_up refresh_tasks loaded []
  = mkRun (Returned tt)
          (NeonaTUI.set_message
             ("API Error: " ++ _format_message "Failed to list tasks"
                                               "unavailable") true
             (NeonaTUI.set_status_bar
                (StatusBar.mk false "" (holder_id (NeonaTUI.client loaded))
                              (Offline "error"))
                (NeonaTUI.set_last_health
                   (HealthResponse.mk true "neona.db" "0.1.0"
                                      "2024-01-01T00:00:00Z") loaded)))
          ([] ++ [health_request; tasks_request]).
Proof.
  exact (refresh_when_listing_fails half_up loaded []
           (HealthResponse.mk true "neona.db" "0.1.0" "2024-01-01T00:00:00Z")
           "Failed to list tasks" (Some 503) "unavailable"
           eq_refl eq_refl eq_refl).
Defined.

Example refresh_when_listing_fails_example :
  NeonaTUI.tasks (state (exec half_up refresh_tasks loaded [])) = two_tasks
  /\ NeonaTUI.message (state (exec half_up refresh_tasks loaded []))
     = "API Error: Failed to list tasks: unavailable"
  /\ HealthResponse.ok
       (NeonaTUI.last_health (state (exec half_up refresh_tasks loaded [])))
     = true
  /\ StatusBar.daemon_online
       (NeonaTUI.status_bar (state (exec half_up refresh_tasks loaded [])))
     = false.
Proof. repeat split. Qed.

(** ** From the daemon's list to the session's *)

Lemma decode_encode_task (t : Task.t) :
  task_dict (task_item (encode_task t)) = t.
Proof. destruct t; reflexivity. Qed.

Lemma decode_encode_tasks (ts : list Task.t) :
  map task_dict (map task_item (map encode_task ts)) = ts.
Proof.
  induction ts as [|t ts IH]; simpl; [|rewrite IH, decode_encode_task];
    reflexivity.
Qed.

(** X11. What the daemon lists is what the session holds. When the
    health check answers below 400 with an object whose ok is true,
    and the listing answers below 400 with the array of the tasks ts,
    each with its id, title, status and claimed_by, then after the
    refresh the tasks of the session are ts, in the same order, the
    table has the row of each, and the message is "Loaded N tasks"
    with N the number of tasks. *)
Theorem refresh_round_trip :
  forall (net : Transport) (app : App) (log : list Request)
         (ts : list Task.t) (r1 r2 : Response.t) (o : Json.object),
    net log health_request = Responded r1 ->
    Response.status_code r1 < 400 ->
    Response.json r1 = Some (Json.Object o) ->
    Json.ok o = Some true ->
    net (log ++ [health_request])%list tasks_request = Responded r2 ->
    Response.status_code r2 < 400 ->
    Response.json r2 = Some (Json.Array (map encode_task ts)) ->
    result (exec net refresh_tasks app log) = Returned tt
    /\ NeonaTUI.tasks (state (exec net refresh_tasks app log)) = ts
    /\ NeonaTUI.table (state (exec net refresh_tasks app log))
       = map table_row ts
    /\ NeonaTUI.message_box (state (exec net refresh_tasks app log))
       = Some ("Loaded " ++ Py.str_of_nat (List.length ts) ++ " tasks", false)
    /\ StatusBar.daemon_online
         (NeonaTUI.status_bar (state (exec net refresh_tasks app log)))
       = true.
Proof.
  intros net app log ts r1 r2 o H1 Hs1 Hj1 Hok H2 Hs2 Hj2.
  apply Z.leb_gt in Hs1, Hs2.
  assert (Hrun :
    exec net refresh_tasks app log
    = exec net
        (tasks <- gets NeonaTUI.tasks ;;
         show_message ("Loaded " ++ Py.str_of_nat (List.length tasks) ++ " tasks")
                      false)
        (NeonaTUI.set_table (map table_row ts)
           (NeonaTUI.set_status_bar
              (StatusBar.update_status
                 (HealthResponse.mk true (Json.get (Json.db o) "unknown")
                                    (Json.get (Json.version o) "unknown")
                                    (Json.get (Json.time o) ""))
                 (List.length ts) (holder_id (NeonaTUI.client app)))
              (NeonaTUI.set_tasks ts
                 (NeonaTUI.set_last_health
                    (HealthResponse.mk true (Json.get (Json.db o) "unknown")
                                       (Json.get (Json.version o) "unknown")
                                       (Json.get (Json.time o) "")) app))))
        (log ++ [health_request; tasks_request])).
  { unfold refresh_tasks, check_health, list_tasks, client_get, send,
      response_json.
    cbn. fold health_request. rewrite H1. cbn. rewrite Hs1, Hj1. cbn.
    rewrite Hok. cbn. fold tasks_request. rewrite H2. cbn. rewrite Hs2, Hj2.
    cbn. rewrite decode_encode_tasks, <- app_assoc. reflexivity. }
  rewrite Hrun. cbn. repeat split.
Qed.

Lemma refresh_round_trip_witness :
  result (exec (daemon two_tasks_json) refresh_tasks (NeonaTUI.init "host") [])
  = Returned tt
  /\ NeonaTUI.tasks
       (state (exec (daemon two_tasks_json) refresh_tasks
                    (NeonaTUI.init "host") []))
     = two_tasks
  /\ NeonaTUI.table
       (state (exec (daemon two_tasks_json) refresh_tasks
                    (NeonaTUI.init "host") []))
     = map table_row two_tasks
  /\ NeonaTUI.message_box
       (state (exec (daemon two_tasks_json) refresh_tasks
                    (NeonaTUI.init "host") []))
     = Some ("Loaded " ++ Py.str_of_nat (List.length two_tasks) ++ " tasks",
             false)
  /\ StatusBar.daemon_online
       (NeonaTUI.status_bar
          (state (exec (daemon two_tasks_json) refresh_tasks
                       (NeonaTUI.init "host") [])))
     = true.
Proof.
  exact (refresh_round_trip (daemon two_tasks_json) (NeonaTUI.init "host") []
           two_tasks
           (Response.mk 200 ""
              (Some (Json.Object
                       (json_health true "neona.db" "0.1.0"
                                    "2024-01-01T00:00:00Z"))))
           (Response.mk 200 "" (Some (Json.Array two_tasks_json)))
           (json_health true "neona.db" "0.1.0" "2024-01-01T00:00:00Z")
           eq_refl eq_refl eq_refl eq_refl eq_refl eq_refl eq_refl).
Defined.

(** ** Claim, add and run: what the operator sees *)

Lemma handle_claim_line cursor_row line verb rest :
  Line line verb rest -> Py.lower verb = "claim" ->
  handle_command cursor_row line = guarded (cmd_claim cursor_row).
Proof.
  intros H Hv. rewrite (handle_command_line _ _ _ _ H). cbv zeta.
  rewrite Hv. reflexivity.
Qed.

(** X12. A claim the daemon rejects, or that does not reach it, is
    reported and nothing else happens: for a line whose verb is claim,
    with a task selected, a status of 400 or more sets the error
    message "Error: Failed to claim task <id>" followed by a colon and
    the body of the response when it has one, and a transport failure
    sets "Error: Failed to claim task <id>: <cause>"; the handler
    returns, the task list and the rest of the session stay as they
    were, and no refresh follows the one request. *)
Theorem rejected_claim_is_reported :
  forall (net : Transport) (app : App) (cursor_row : option Z)
         (line verb rest : string) (task : Task.t) (log : list Request),
    Line line verb rest ->
    Py.lower verb = "claim" ->
    selected cursor_row (NeonaTUI.tasks app) = Some task ->
    (forall response,
        net log (claim_request (NeonaTUI.client app) (Task.id task) 300)
        = Responded response ->
        400 <= Response.status_code response ->
        exec net (handle_command cursor_row line) app log
        = mkRun (Returned tt)
                (NeonaTUI.set_message
                   ("Error: "
                    ++ (if Py.nonempty (Response.text response)
                        then "Failed to claim task " ++ Task.id task ++ ": "
                             ++ Response.text response
                        else "Failed to claim task " ++ Task.id task))
                   true app)
                (log ++ [claim_request (NeonaTUI.client app) (Task.id task) 300]))
    /\ (forall cause,
        net log (claim_request (NeonaTUI.client app) (Task.id task) 300)
        = Failed cause ->
        exec net (handle_command cursor_row line) app log
        = mkRun (Returned tt)
                (NeonaTUI.set_message
                   ("Error: Failed to claim task " ++ Task.id task ++ ": "
                    ++ cause)
                   true app)
                (log ++ [claim_request (NeonaTUI.client app) (Task.id task)
                                       300])).
Proof.
  intros net app cursor_row line verb rest task log HL Hv Hsel.
  rewrite (handle_claim_line _ _ _ _ HL Hv).
  assert (Hstart :
    forall e,
      exec net (claim_task (NeonaTUI.client app) (Task.id task) DEFAULT_TTL_SEC)
           app log
      = mkRun (Raised e) app
              (log ++ [claim_request (NeonaTUI.client app) (Task.id task) 300]) ->
      exec net (cmd_claim cursor_row) app log
      = mkRun (Raised e) app
              (log ++ [claim_request (NeonaTUI.client app) (Task.id task) 300])).
  { intros e He. unfold cmd_claim, get_selected_task. cbn. rewrite Hsel. cbn.
    rewrite (exec_raised net _ _ _ _ _ _ _ He). reflexivity. }
  split.
  - intros response Hnet Hs. apply Z.leb_le in Hs.
    unfold guarded. rewrite exec_try_except.
    rewrite (Hstart (NeonaAPIError ("Failed to claim task " ++ Task.id task)
                                   (Some (Response.status_code response))
                                   (Response.text response))).
    + cbn. unfold _format_message.
      destruct (Py.nonempty (Response.text response)); reflexivity.
    + unfold claim_task, client_post, send, claim_request, DEFAULT_TTL_SEC in *.
      simpl in Hnet |- *. rewrite Hnet. simpl. rewrite Hs. reflexivity.
  - intros cause Hnet.
    unfold guarded. rewrite exec_try_except.
    rewrite (Hstart (NeonaAPIError
                       ("Failed to claim task " ++ Task.id task ++ ": " ++ cause)
                       None "")).
    + cbn. reflexivity.
    + unfold claim_task, client_post, send, claim_request, DEFAULT_TTL_SEC in *.
      simpl in Hnet |- *. rewrite Hnet. reflexivity.
Qed.

Lemma rejected_claim_is_reported_witness :
  exec half_up (handle_command (Some 1) " CLAIM ") loaded []
  = mkRun (Returned tt)
          (NeonaTUI.set_message
             ("Error: "
              ++ (if Py.nonempty "unavailable"
                  then "Failed to claim task " ++ "fedcba9876543210" ++ ": "
                       ++ "unavailable"
                  else "Failed to claim task " ++ "fedcba9876543210"))
             true loaded)
          ([] ++ [claim_request (NeonaTUI.client loaded) "fedcba9876543210" 300]).
Proof.
  exact (proj1 (rejected_claim_is_reported half_up loaded (Some 1)
                  " CLAIM " "CLAIM" ""
                  (Task.mk "fedcba9876543210" "ship" "claimed" "tui@host") []
                  (Line_verb " " "CLAIM" " " eq_refl eq_refl
                             ltac:(discriminate) eq_refl)
                  eq_refl eq_refl)
               (Response.mk 503 "unavailable" None) eq_refl
               ltac:(discriminate)).
Defined.

(** X13. A claim the daemon accepts is confirmed and followed by a
    refresh, provided the body of the answer is JSON: the message
    "Claimed task: <short id>" is set and the session goes on as
    refresh_tasks does. When the body is not JSON, the claim has been
    sent, but cmd_claim raises the decoding error at once: no message
    is set and no refresh follows. *)
Theorem claim_then_refresh :
  forall (net : Transport) (app : App) (cursor_row : option Z)
         (task : Task.t) (log : list Request) (response : Response.t),
    selected cursor_row (NeonaTUI.tasks app) = Some task ->
    net log (claim_request (NeonaTUI.client app) (Task.id task) 300)
    = Responded response ->
    Response.status_code response < 400 ->
    (forall v,
        Response.json response = Some v ->
        exec net (cmd_claim cursor_row) app log
        = exec net refresh_tasks
               (NeonaTUI.set_message
                  ("Claimed task: " ++ Py.take 8 (Task.id task)) false app)
               (log ++ [claim_request (NeonaTUI.client app) (Task.id task) 300]))
    /\ (Response.json response = None ->
        exec net (cmd_claim cursor_row) app log
        = mkRun (Raised (PyError "JSONDecodeError")) app
                (log ++ [claim_request (NeonaTUI.client app) (Task.id task)
                                       300])).
Proof.
  intros net app cursor_row task log response Hsel Hnet Hs.
  apply Z.leb_gt in Hs.
  assert (Hclaim :
    exec net (claim_task (NeonaTUI.client app) (Task.id task) DEFAULT_TTL_SEC)
         app log
    = exec net (response_json response) app
           (log ++ [claim_request (NeonaTUI.client app) (Task.id task) 300])).
  { unfold claim_task, client_post, send, claim_request, DEFAULT_TTL_SEC in *.
    simpl in Hnet |- *. rewrite Hnet. simpl. rewrite Hs.
    unfold response_json. destruct (Response.json response); reflexivity. }
  split.
  - intros v Hj. unfold response_json in Hclaim. rewrite Hj in Hclaim.
    cbn in Hclaim.
    unfold cmd_claim, get_selected_task. cbn. rewrite Hsel. cbn.
    rewrite (exec_returned net _ _ _ _ _ _ _ Hclaim). cbn. reflexivity.
  - intros Hj. unfold response_json in Hclaim. rewrite Hj in Hclaim.
    cbn in Hclaim.
    unfold cmd_claim, get_selected_task. cbn. rewrite Hsel. cbn.
    rewrite (exec_raised net _ _ _ _ _ _ _ Hclaim). reflexivity.
Qed.

Lemma claim_then_refresh_witness :
  exec (daemon two_tasks_json) (cmd_claim (Some 0)) loaded []
  = exec (daemon two_tasks_json) refresh_tasks
         (NeonaTUI.set_message ("Claimed task: " ++ Py.take 8 "0123456789abcdef")
                               false loaded)
         ([] ++ [claim_request (NeonaTUI.client loaded) "0123456789abcdef" 300]).
Proof.
  exact (proj1 (claim_then_refresh (daemon two_tasks_json) loaded (Some 0)
                  (Task.mk "0123456789abcdef" "write tests" "pending" "") []
                  (Response.mk 200 "{}" (Some (Json.Object Json.empty)))
                  eq_refl eq_refl eq_refl)
               (Json.Object Json.empty) eq_refl).
Defined.

(** X14. add sends the title it is given, with an empty description,
    and when the daemon answers below 400 with a JSON object it
    confirms with the first eight characters of the id of the answer
    (none when the answer has no id) and then refreshes. An empty
    title is refused with the usage error, and nothing is sent. *)
Theorem add_then_refresh :
  forall (net : Transport) (app : App) (title : string)
         (log : list Request) (response : Response.t) (o : Json.object),
    title <> "" ->
    net log (create_request title) = Responded response ->
    Response.status_code response < 400 ->
    Response.json response = Some (Json.Object o) ->
    exec net (cmd_add title) app log
    = exec net refresh_tasks
           (NeonaTUI.set_message
              ("Created task: "
               ++ Py.take 8 (match Json.id o with Some i => i | None => "" end))
              false app)
           (log ++ [create_request title])
    /\ exec net (cmd_add "") app log
       = mkRun (Returned tt)
               (NeonaTUI.set_message "Usage: add <task title>" true app) log.
Proof.
  intros net app title log response o Hne Hnet Hs Hj.
  apply Z.leb_gt in Hs. split; [|reflexivity].
  assert (Hcreate :
    exec net (create_task (NeonaTUI.client app) title "") app log
    = mkRun (Returned (match Json.id o with Some i => i | None => "" end))
            app (log ++ [create_request title])).
  { unfold create_task, client_post, send, create_request in *.
    simpl in Hnet |- *. rewrite Hnet. simpl. rewrite Hs.
    unfold response_json. rewrite Hj. reflexivity. }
  unfold cmd_add. destruct title as [|c title]; [congruence|].
  cbn. rewrite (exec_returned net _ _ _ _ _ _ _ Hcreate). cbn. reflexivity.
Qed.

Lemma add_then_refresh_witness :
  exec (daemon two_tasks_json) (cmd_add "write  the docs") loaded []
  = exec (daemon two_tasks_json) refresh_tasks
         (NeonaTUI.set_message ("Created task: " ++ Py.take 8 "") false loaded)
         ([] ++ [create_request "write  the docs"])
  /\ exec (daemon two_tasks_json) (cmd_add "") loaded []
     = mkRun (Returned tt)
             (NeonaTUI.set_message "Usage: add <task title>" true loaded) [].
Proof.
  exact (add_then_refresh (daemon two_tasks_json) loaded "write  the docs" []
           (Response.mk 200 "{}" (Some (Json.Object Json.empty))) Json.empty
           ltac:(discriminate) eq_refl eq_refl eq_refl).
Defined.

Lemma claim_release_requests (app : App) cursor_row task :
  selected cursor_row (NeonaTUI.tasks app) = Some task ->
  awaited (start (cmd_claim cursor_row) app)
  = Some (claim_request (NeonaTUI.client app) (Task.id task) 300)
  /\ awaited (start (cmd_release cursor_row) app)
     = Some (release_request (NeonaTUI.client app) (Task.id task)).
Proof.
  intros Hsel. unfold cmd_claim, cmd_release, get_selected_task. cbn.
  rewrite Hsel. split; reflexivity.
Qed.

(** X15. A cursor inside the list always selects: when the row of the
    cursor is at least 0 and below the number of tasks, claim and
    release act on the task at that row of the list, never report a
    missing selection, and the claim asks for a lease of 300 seconds. *)
Theorem cursor_in_range_selects :
  forall (app : App) (row : Z),
    0 <= row < Z.of_nat (List.length (NeonaTUI.tasks app)) ->
    exists task,
      nth_error (NeonaTUI.tasks app) (Z.to_nat row) = Some task
      /\ awaited (start (cmd_claim (Some row)) app)
         = Some (mkRequest POST ("/tasks/" ++ Task.id task ++ "/claim") []
                   (Some [("holder_id", AStr (holder_id (NeonaTUI.client app)));
                          ("ttl_sec", AInt 300)]))
      /\ awaited (start (cmd_release (Some row)) app)
         = Some (mkRequest POST ("/tasks/" ++ Task.id task ++ "/release") []
                   (Some [("holder_id", AStr (holder_id (NeonaTUI.client app)))])).
Proof.
  intros app row Hrow.
  destruct (selected_in_range _ _ Hrow) as [task Hsel].
  destruct (selected_valid _ _ _ Hsel) as (row' & Heq & _ & Hnth).
  injection Heq as <-.
  exists task. split; [exact Hnth|].
  exact (claim_release_requests app (Some row) task Hsel).
Qed.

Lemma cursor_in_range_selects_witness :
  exists task,
    nth_error (NeonaTUI.tasks loaded) (Z.to_nat 1) = Some task
    /\ awaited (start (cmd_claim (Some 1)) loaded)
       = Some (mkRequest POST ("/tasks/" ++ Task.id task ++ "/claim") []
                 (Some [("holder_id", AStr (holder_id (NeonaTUI.client loaded)));
                        ("ttl_sec", AInt 300)]))
    /\ awaited (start (cmd_release (Some 1)) loaded)
       = Some (mkRequest POST ("/tasks/" ++ Task.id task ++ "/release") []
                 (Some [("holder_id", AStr (holder_id (NeonaTUI.client loaded)))])).
Proof.
  apply (cursor_in_range_selects loaded 1). split; [lia | reflexivity].
Defined.

(** ** Lines that mean the same *)

Lemma lstrip_all_space (t : string) : all_space t = true -> Py.lstrip t = "".
Proof.
  induction t as [|c t IH]; [reflexivity|]. simpl. intros H.
  apply andb_true_iff in H. destruct H as [-> Ht]. auto.
Qed.

Lemma strip_app_space (v trail : string) :
  all_space trail = true -> Py.strip (v ++ trail) = Py.strip v.
Proof.
  intros Ht. unfold Py.strip. induction v as [|c v IH]; simpl.
  - rewrite (lstrip_all_space _ Ht). reflexivity.
  - destruct (Py.isspace c); [exact IH|].
    change (String c (v ++ trail)) with (String c v ++ trail).
    apply rstrip_app_space, Ht.
Qed.

Lemma strip_pad (lead v trail : string) :
  all_space lead = true -> all_space trail = true ->
  Py.strip (lead ++ v ++ trail) = Py.strip v.
Proof.
  intros Hl Ht. rewrite <- (strip_app_space v trail Ht).
  unfold Py.strip. rewrite (lstrip_space _ _ Hl). reflexivity.
Qed.

(** X16. Whitespace around a line, the length of the whitespace after
    the verb and the case of the verb do not matter: a line padded
    with whitespace is handled as the line itself, and two lines with
    the same remainder whose verbs are equal in lower case are handled
    in the same way. *)
Theorem lines_that_mean_the_same :
  forall (cursor_row : option Z),
    (forall lead value trail,
        all_space lead = true -> all_space trail = true ->
        handle_command cursor_row (lead ++ value ++ trail)
        = handle_command cursor_row value)
    /\ (forall line line' verb verb' rest,
        Line line verb rest -> Line line' verb' rest ->
        Py.lower verb = Py.lower verb' ->
        handle_command cursor_row line = handle_command cursor_row line').
Proof.
  intros cursor_row. split.
  - intros lead value trail Hl Ht. unfold handle_command.
    rewrite (strip_pad _ _ _ Hl Ht). reflexivity.
  - intros line line' verb verb' rest H H' Hv.
    rewrite (handle_command_line _ _ _ _ H), (handle_command_line _ _ _ _ H').
    cbv zeta. rewrite Hv. reflexivity.
Qed.

Example lines_that_mean_the_same_example :
  handle_command None "  ADD   fix  the build  "
  = handle_command None "add fix  the build"
  /\ awaited (start (handle_command None "  ADD   fix  the build  ") loaded)
     = Some (create_request "fix  the build").
Proof. split; reflexivity. Qed.

(** X17. The remainder of a line reaches the daemon as it was typed,
    inner whitespace included: for a line of the grammar with a
    remainder, add sends it as the title of the new task (with an
    empty description), query sends it as the parameter q, and note,
    with a task selected, sends it as the content of a memory of that
    task, tagged "note". *)
Theorem remainder_is_sent_verbatim :
  forall (cursor_row : option Z) (line verb rest : string) (app : App),
    Line line verb rest ->
    rest <> "" ->
    (Py.lower verb = "add" ->
     awaited (start (handle_command cursor_row line) app)
     = Some (mkRequest POST "/tasks" []
               (Some [("title", AStr rest); ("description", AStr "")])))
    /\ (Py.lower verb = "query" ->
        awaited (start (handle_command cursor_row line) app)
        = Some (mkRequest GET "/memory" [("q", rest)] None))
    /\ (Py.lower verb = "note" ->
        forall task,
          selected cursor_row (NeonaTUI.tasks app) = Some task ->
          awaited (start (handle_command cursor_row line) app)
          = Some (mkRequest POST "/memory" []
                    (Some [("task_id", AStr (Task.id task));
                           ("content", AStr rest);
                           ("tags", AStr "note")]))).
Proof.
  intros cursor_row line verb rest app H Hne.
  rewrite (handle_command_line _ _ _ _ H). cbv zeta.
  destruct rest as [|c rest]; [congruence|].
  split; [|split].
  - intros ->. reflexivity.
  - intros ->. reflexivity.
  - intros -> task Hsel. unfold guarded, cmd_note, get_selected_task.
    cbn. rewrite Hsel. reflexivity.
Qed.

Lemma remainder_is_sent_verbatim_witness :
  awaited (start (handle_command (Some 0) "Note  see  issue 12 ") loaded)
  = Some (mkRequest POST "/memory" []
            (Some [("task_id", AStr "0123456789abcdef");
                   ("content", AStr "see  issue 12");
                   ("tags", AStr "note")])).
Proof.
  exact (proj2 (proj2 (remainder_is_sent_verbatim (Some 0)
                         "Note  see  issue 12 " "Note" "see  issue 12" loaded
                         (Line_verb_rest "" "Note" "  " "see  issue 12" " "
                            eq_refl eq_refl ltac:(discriminate) eq_refl
                            ltac:(discriminate) eq_refl eq_refl eq_refl)
                         ltac:(discriminate)))
               eq_refl
               (Task.mk "0123456789abcdef" "write tests" "pending" "")
               eq_refl).
Defined.

(** ** Query and run: the message *)

Lemma take_length (n : nat) (s : string) :
  String.length (Py.take n s) = Nat.min n (String.length s).
Proof.
  revert s; induction n as [|n IH]; intros [|c s]; simpl; auto.
Qed.

Lemma nth_error_firstn_some {A} (l : list A) (n i : nat) (x : A) :
  nth_error (firstn n l) i = Some x -> nth_error l i = Some x.
Proof.
  revert n i; induction l as [|y l IH]; intros [|n] [|i] H; simpl in *;
    try discriminate; auto.
  eapply IH; eauto.
Qed.

(** X18. query shows at most three results and says how many there
    are. When the daemon answers below 400 with an array of N items,
    N not 0, the message is no error and is made of the line "Found N
    result(s):" and of one line for each of the first three items at
    most, in order: the tags in brackets, then the content, cut to its
    first 40 characters followed by "..." when it is longer than 40,
    so never more than 43 characters. With an empty array the message
    is "No results for '<query>'". One request is sent. *)
Theorem query_message :
  forall (net : Transport) (app : App) (query : string) (log : list Request)
         (response : Response.t) (items : list Json.object),
    query <> "" ->
    net log (mkRequest GET "/memory" [("q", query)] None) = Responded response ->
    Response.status_code response < 400 ->
    Response.json response = Some (Json.Array items) ->
    exists msg,
      exec net (cmd_query query) app log
      = mkRun (Returned tt) (NeonaTUI.set_message msg false app)
              (log ++ [mkRequest GET "/memory" [("q", query)] None])
      /\ (items = [] -> msg = "No results for '" ++ query ++ "'")
      /\ (items <> [] ->
          exists lines,
            msg = Py.join_lines
                    (("Found " ++ Py.str_of_nat (List.length items)
                      ++ " result(s):") :: lines)
            /\ List.length lines = Nat.min 3 (List.length items)
            /\ forall i line,
                nth_error lines i = Some line ->
                exists m preview,
                  nth_error items i = Some m
                  /\ line = "  [" ++ Json.get (Json.tags m) "" ++ "] " ++ preview
                  /\ (String.length preview <= 43)%nat
                  /\ ((String.length (Json.get (Json.content m) "") <= 40)%nat ->
                      preview = Json.get (Json.content m) "")
                  /\ ((40 < String.length (Json.get (Json.content m) ""))%nat ->
                      preview
                      = Py.take 40 (Json.get (Json.content m) "") ++ "...")).
Proof.
  intros net app query log response items Hne Hnet Hs Hj.
  apply Z.leb_gt in Hs.
  assert (Hq :
    exec net (query_memory (NeonaTUI.client app) query) app log
    = mkRun (Returned (map (memory_detail "") items)) app
            (log ++ [mkRequest GET "/memory" [("q", query)] None])).
  { unfold query_memory, client_get, send. simpl. rewrite Hnet. simpl.
    rewrite Hs. unfold response_json. rewrite Hj. reflexivity. }
  assert (Hrun :
    exec net (cmd_query query) app log
    = exec net
        (match map (memory_detail "") items with
         | [] => show_message ("No results for '" ++ query ++ "'") false
         | _ =>
             show_message
               (Py.join_lines
                  (("Found "
                    ++ Py.str_of_nat (List.length (map (memory_detail "") items))
                    ++ " result(s):")
                   :: map preview_line (firstn 3 (map (memory_detail "") items))))
               false
         end)
        app (log ++ [mkRequest GET "/memory" [("q", query)] None])).
  { unfold cmd_query. destruct query as [|c q]; [congruence|]. cbn.
    rewrite (exec_returned net _ _ _ _ _ _ _ Hq). reflexivity. }
  destruct items as [|item items].
  - eexists. split; [rewrite Hrun; reflexivity|].
    split; [reflexivity | congruence].
  - eexists. split; [rewrite Hrun; reflexivity|].
    split; [discriminate|]. intros _.
    eexists. split; [rewrite length_map; reflexivity|].
    split.
    + rewrite length_map, length_firstn, length_map. reflexivity.
    + intros i line Hline. rewrite nth_error_map in Hline.
      destruct (nth_error (firstn 3 (map (memory_detail "") (item :: items))) i)
        as [md|] eqn:Hmd; [|discriminate].
      apply nth_error_firstn_some in Hmd. rewrite nth_error_map in Hmd.
      destruct (nth_error (item :: items) i) as [m|] eqn:Hm; [|discriminate].
      simpl in Hmd, Hline. inversion Hmd; subst md. inversion Hline; subst line.
      exists m. unfold preview_line, memory_detail.
      cbn [MemoryDetail.content MemoryDetail.tags].
      set (content := Json.get (Json.content m) "").
      destruct (40 <? String.length content)%nat eqn:E.
      * apply Nat.ltb_lt in E. exists (Py.take 40 content ++ "...").
        split; [reflexivity|]. split; [reflexivity|]. split; [|split].
        -- rewrite length_append, take_length. cbn [String.length]. lia.
        -- intros H. exfalso. lia.
        -- reflexivity.
      * apply Nat.ltb_ge in E. exists content.
        split; [reflexivity|]. split; [reflexivity|]. split; [|split].
        -- lia.
        -- reflexivity.
        -- intros H. exfalso. lia.
Qed.

Lemma query_message_witness :
  exists msg,
    exec (fun _ _ =>
            Responded (Response.mk 200 ""
              (Some (Json.Array [json_task "m1" "" "" ""]))))
         (cmd_query "build") loaded []
    = mkRun (Returned tt) (NeonaTUI.set_message msg false loaded)
            ([] ++ [mkRequest GET "/memory" [("q", "build")] None])
    /\ msg = Py.join_lines ["Found 1 result(s):"; "  [] "].
Proof.
  destruct (query_message
              (fun _ _ =>
                 Responded (Response.mk 200 ""
                   (Some (Json.Array [json_task "m1" "" "" ""]))))
              loaded "build" []
              (Response.mk 200 "" (Some (Json.Array [json_task "m1" "" "" ""])))
              [json_task "m1" "" "" ""]
              ltac:(discriminate) eq_refl eq_refl eq_refl)
    as (msg & Hrun & _ & _).
  exists msg. split; [exact Hrun|].
  inversion Hrun. reflexivity.
Defined.

(** X19. run reports success on exit code 0 only. When the daemon
    answers a run below 400 with a JSON object whose exit_code is z,
    the message names the command that was sent: for z = 0 it is
    "Command '<command>' completed (exit=0)", no error; otherwise it is
    the error "Command '<command>' failed: " followed by the stderr of
    the answer when that is not empty, else by its stdout when that is
    not empty, else by "exit code z". One request is sent and no
    refresh follows. *)
Theorem run_message :
  forall (net : Transport) (app : App) (cursor_row : option Z)
         (args_str : string) (task : Task.t) (command : string)
         (args : list string) (log : list Request)
         (response : Response.t) (r : Json.object) (z : Z),
    selected cursor_row (NeonaTUI.tasks app) = Some task ->
    Py.split args_str = command :: args ->
    net log (run_request (NeonaTUI.client app) (Task.id task) command args)
    = Responded response ->
    Response.status_code response < 400 ->
    Response.json response = Some (Json.Object r) ->
    Json.exit_code r = Some z ->
    exec net (cmd_run cursor_row args_str) app log
    = mkRun (Returned tt)
            (if z =? 0
             then NeonaTUI.set_message
                    ("Command '" ++ command ++ "' completed (exit=0)") false app
             else NeonaTUI.set_message
                    ("Command '" ++ command ++ "' failed: "
                     ++ match Json.stderr r, Json.stdout r with
                        | Some (String c e), _ => String c e
                        | _, Some (String c o) => String c o
                        | _, _ => "exit code " ++ Py.str_of_int z
                        end) true app)
            (log ++ [run_request (NeonaTUI.client app) (Task.id task)
                                 command args]).
Proof.
  intros net app cursor_row args_str task command args log response r z
         Hsel Hsplit Hnet Hs Hj Hexit.
  apply Z.leb_gt in Hs.
  assert (Hrun :
    exec net (run_task (NeonaTUI.client app) (Task.id task) command (Some args))
         app log
    = mkRun (Returned
               (RunDetail.mk (Json.get (Json.id r) "")
                             (Json.get (Json.command r) command) z
                             (Json.get (Json.stdout r) "")
                             (Json.get (Json.stderr r) "")))
            app
            (log ++ [run_request (NeonaTUI.client app) (Task.id task)
                                 command args])).
  { unfold run_task, client_post, send, run_request in *.
    simpl in Hnet |- *. rewrite Hnet. simpl. rewrite Hs.
    unfold response_json. rewrite Hj. simpl. rewrite Hexit. reflexivity. }
  unfold cmd_run, get_selected_task. cbn. rewrite Hsel.
  rewrite (split_cons_nonempty _ _ _ Hsplit). cbn. rewrite Hsplit. cbn.
  rewrite (exec_returned net _ _ _ _ _ _ _ Hrun). cbn.
  destruct (z =? 0); [reflexivity|].
  destruct (Json.stderr r) as [[|c e]|]; destruct (Json.stdout r) as [[|c' o]|];
    reflexivity.
Qed.

Lemma run_message_witness :
  exec (fun _ _ =>
          Responded (Response.mk 200 ""
            (Some (Json.Object
                     (Json.mk None None None None (Some "r1") None None None
                              None None None (Some "make") (Some 2)
                              (Some "compiling") (Some "") None None None
                              None None None None)))))
       (cmd_run (Some 0) "make -j 4") loaded []
  = mkRun (Returned tt)
          (NeonaTUI.set_message "Command 'make' failed: compiling" true loaded)
          [run_request tui_host "0123456789abcdef" "make" ["-j"; "4"]].
Proof.
  exact (run_message
           (fun _ _ =>
              Responded (Response.mk 200 ""
                (Some (Json.Object
                         (Json.mk None None None None (Some "r1") None None None
                                  None None None (Some "make") (Some 2)
                                  (Some "compiling") (Some "") None None None
                                  None None None None)))))
           loaded (Some 0) "make -j 4"
           (Task.mk "0123456789abcdef" "write tests" "pending" "")
           "make" ["-j"; "4"] []
           (Response.mk 200 ""
              (Some (Json.Object
                       (Json.mk None None None None (Some "r1") None None None
                                None None None (Some "make") (Some 2)
                                (Some "compiling") (Some "") None None None
                                None None None None))))
           (Json.mk None None None None (Some "r1") None None None
                    None None None (Some "make") (Some 2)
                    (Some "compiling") (Some "") None None None
                    None None None None)
           2 eq_refl eq_refl eq_refl eq_refl eq_refl eq_refl).
Defined.

(** ** Answers with missing keys *)

Ltac answers_op :=
  eexists; eexists; split; [reflexivity|];
  intros response Hs Hj; apply Z.leb_gt in Hs; simpl; rewrite Hs;
  unfold response_json; rewrite Hj; simpl; rewrite ?map_repeat; reflexivity.

(** X20. No operation fails on a key the answer lacks. On a status
    below 400 with the empty object, the health check returns ok
    false with db and version "unknown"; get_task returns empty
    strings; create_task returns the empty id; run_task returns exit
    code -1 with the command that was sent; add_memory returns the
    content, tags and task id that were sent, with an empty id;
    get_workers returns no worker and the counts 0. On an array of
    empty objects the listings return as many records: empty strings,
    exit code -1, and for the memory of a task the id of that task. *)
Theorem answers_with_missing_keys :
  forall (St : Type) (self : NeonaClient),
    answers (St := St) (check_health self) (Json.Object Json.empty)
            (HealthResponse.mk false "unknown" "unknown" "")
    /\ (forall task_id,
        answers (St := St) (get_task self task_id) (Json.Object Json.empty)
                (TaskDetail.mk "" "" "" "" "" "" ""))
    /\ (forall title description,
        answers (St := St) (create_task self title description)
                (Json.Object Json.empty) "")
    /\ (forall task_id command args,
        answers (St := St) (run_task self task_id command args)
                (Json.Object Json.empty)
                (RunDetail.mk "" command (-1) "" ""))
    /\ (forall task_id content tags,
        answers (St := St) (add_memory self task_id content tags)
                (Json.Object Json.empty)
                (MemoryDetail.mk "" content tags task_id))
    /\ answers (St := St) (get_workers self) (Json.Object Json.empty)
               (WorkersStats.mk 0 0 [] [])
    /\ (forall status_filter n,
        answers (St := St) (list_tasks self status_filter)
                (Json.Array (repeat Json.empty n))
                (repeat (TaskItem.mk "" "" "" "") n))
    /\ (forall task_id n,
        answers (St := St) (get_task_logs self task_id)
                (Json.Array (repeat Json.empty n))
                (repeat (RunDetail.mk "" "" (-1) "" "") n))
    /\ (forall task_id n,
        answers (St := St) (get_task_memory self task_id)
                (Json.Array (repeat Json.empty n))
                (repeat (MemoryDetail.mk "" "" "" task_id) n))
    /\ (forall query n,
        answers (St := St) (query_memory self query)
                (Json.Array (repeat Json.empty n))
                (repeat (MemoryDetail.mk "" "" "" "") n)).
Proof.
  intros St self.
  repeat match goal with |- _ /\ _ => split end; intros; answers_op.
Qed.

(** ** The message and its box *)

Lemma keeps_box_show_message msg error :
  Keeps box_shows_message (show_message msg error).
Proof.
  apply keeps_modify. intros s _. reflexivity.
Qed.

Ltac keeps_box :=
  repeat first
    [ apply keeps_box_show_message
    | apply keeps_gets
    | apply keeps_modify; intros ? ?H; exact H
    | apply keeps_stateless; stateless_client
    | apply keeps_bind; [ | intros ? ]
    | apply Keeps_Ret
    | apply Keeps_Raise
    | match goal with
      | |- Keeps _ (if ?b then _ else _) => destruct b
      | |- Keeps _ (match ?x with _ => _ end) => destruct x
      end ].

Lemma keeps_box_refresh_tasks : Keeps box_shows_message refresh_tasks.
Proof.
  unfold refresh_tasks, update_status. apply keeps_except_NeonaAPIError.
  - keeps_box.
  - intros e. keeps_box.
Qed.

Lemma keeps_box_handle_command cursor_row value :
  Keeps box_shows_message (handle_command cursor_row value).
Proof.
  unfold handle_command.
  destruct (negb (Py.nonempty (Py.strip value))); [constructor|].
  destruct (Py.split_max1 (Py.strip value)) as [|action0 rest]; [constructor|].
  apply keeps_except_NeonaAPIError.
  - unfold cmd_add, cmd_claim, cmd_release, cmd_run, cmd_note, cmd_query,
      get_selected_task.
    repeat match goal with
           | |- Keeps _ (if ?b then _ else _) => destruct b
           end;
      repeat first [ apply keeps_box_refresh_tasks | progress keeps_box ].
  - intros e. keeps_box.
Qed.

(** X21. The message of the session is always the one its box shows:
    from the start of the application on, whatever is submitted and in
    whatever order the answers arrive, the box is empty and the
    message is the empty string, or the box shows the message, since
    show_message is the only place that writes either. *)
Theorem box_shows_the_message :
  forall (hostname : string) (events : list Event),
    match NeonaTUI.message_box
            (Loop.session (steps (Loop.mount hostname) events)) with
    | Some (msg, _) =>
        msg = NeonaTUI.message
                (Loop.session (steps (Loop.mount hostname) events))
    | None =>
        NeonaTUI.message (Loop.session (steps (Loop.mount hostname) events))
        = ""
    end.
Proof.
  intros hostname events.
  assert (Hh : forall cursor_row value s,
             box_shows_message s ->
             Tri box_shows_message (fun _ s' => box_shows_message s')
                 (handle_command cursor_row value) s).
  { intros cursor_row value s. apply keeps_tri, keeps_box_handle_command. }
  assert (Hr : forall s,
             box_shows_message s ->
             Tri box_shows_message (fun _ s' => box_shows_message s')
                 refresh_tasks s).
  { intros s. apply keeps_tri, keeps_box_refresh_tasks. }
  apply (loop_ok_steps box_shows_message Hh Hr events (Loop.mount hostname)).
  apply (loop_ok_mount box_shows_message Hr). reflexivity.
Qed.

(** ** The invariants, as the application runs *)

(** X22. What the session keeps under every interleaving of the
    handlers, the application keeps as its message pump runs it: from
    its start on, whatever the operator submits, whenever the refresh
    key is pressed and whenever the answers of the daemon arrive, the
    table shows the task list, the client is the one built at the
    start, with the holder "tui@" and the host name, and the message
    box shows the message of the session. *)
Theorem the_application_keeps_the_invariants :
  forall (net : Transport) (hostname : string) (events : list Pump.Event),
    let app := Pump.session (Pump.steps net (Pump.mount hostname) events) in
    NeonaTUI.table app = map table_row (NeonaTUI.tasks app)
    /\ NeonaTUI.client app
       = mkClient "http://127.0.0.1:7466" ("tui@" ++ hostname)
    /\ match NeonaTUI.message_box app with
       | Some (msg, _) => msg = NeonaTUI.message app
       | None => NeonaTUI.message app = ""
       end.
Proof.
  intros net hostname events app.
  destruct (pump_is_an_interleaving net hostname events) as [les [Hs _]].
  unfold app. rewrite <- Hs. clear Hs app. split; [|split].
  - apply (loop_ok_steps table_in_sync sync_handle_command sync_refresh_tasks
             les (Loop.mount hostname)).
    apply (loop_ok_mount table_in_sync sync_refresh_tasks). reflexivity.
  - set (c := mkClient "http://127.0.0.1:7466" ("tui@" ++ hostname)).
    assert (Hr : forall s,
               client_is c s ->
               Tri (client_is c) (fun _ s' => client_is c s') refresh_tasks s).
    { intros s. apply keeps_tri, keeps_refresh_tasks. }
    apply (loop_ok_steps (client_is c)
             (fun cursor_row value s =>
                keeps_tri _ _ (keeps_handle_command c cursor_row value) s)
             Hr les (Loop.mount hostname)).
    apply (loop_ok_mount (client_is c) Hr). reflexivity.
  - assert (Hr : forall s,
               box_shows_message s ->
               Tri box_shows_message (fun _ s' => box_shows_message s')
                   refresh_tasks s).
    { intros s. apply keeps_tri, keeps_box_refresh_tasks. }
    apply (loop_ok_steps box_shows_message
             (fun cursor_row value s =>
                keeps_tri _ _ (keeps_box_handle_command cursor_row value) s)
             Hr les (Loop.mount hostname)).
    apply (loop_ok_mount box_shows_message Hr). reflexivity.
Qed.
